(** * SecureCRT session import: a shallow embedding of
      [SecureCRT_Sessions/SecureCRT_import_sessions_script.py]

    The script reads a delimited text file, takes its first line as a header
    naming the columns, and turns every later line into a SecureCRT session.
    This file embeds the header parser ([ValidateFieldDesignations]), the
    name validator ([ValidateSessionFolderComponent]), the RDP gate
    ([ValidateProtocolComponent]) and the line loop of [Import], with the
    script's globals as an explicit state record, and proves properties of
    them.

    How the script is read here:
    - text is [string]; its 256 characters are the first 256 code points
      of Python's [str], and [lower], [upper], [strip], [isdigit] and [int]
      are those of Python 3 on them, but for the two characters whose
      capital is not among the 256 (see [upper_char]);
    - the module-level variables are the fields of [Globals], threaded
      through every function; the locals of [Import] that describe the
      session of a line are the fields of [Locals];
    - what the script asks of its surroundings (SecureCRT's version, the
      platform, the interpreter's limit on the digits of a number, the
      answers to its dialogs, the clock) is a [Host];
    - the sessions SecureCRT keeps are a finite map from the path of a
      session to its options, and [crt.OpenSessionConfiguration],
      [SetOption] and [Save] are lookup and insert on it;
    - a [return] out of [Import] is the result [Return], with the message
      box it comes after named by an [Exit]; an exception nothing catches
      is the result [Raised];
    - [Import] here is the function up to the end of its loop over the
      lines; its end (lines 1002-1079) is [write_report]: the text of the
      report, and the search for a log file to write it to, over a [Desk]
      that holds the folders, the file system and the seconds the run
      took, as text; [script] is the one after the other, which is what
      the call of [Import] on the last line of the script runs.  Opening
      the log file in its application is not modelled. *)

From Stdlib Require Import String Ascii List ZArith Lia Bool DecimalString.
From stdpp Require Import gmap strings.

Open Scope string_scope.
Import ListNotations.

(** ** Python string primitives *)

Module Py.

Definition CR : ascii := "013"%char.
Definition LF : ascii := "010"%char.
Definition TAB : ascii := "009"%char.
Definition DQUOTE : ascii := "034"%char.

Definition CRLF : string := String CR (String LF "").
Definition NL : string := String LF "".

(** [c.lower()] on one character: the letters [A] to [Z], and the capital
    letters 192 to 222 but the multiplication sign (215). *)
Definition lower_char (c : ascii) : ascii :=
  let n := nat_of_ascii c in
  if (Nat.leb 65 n && Nat.leb n 90)
     || (Nat.leb 192 n && Nat.leb n 222 && negb (Nat.eqb n 215))
  then ascii_of_nat (n + 32) else c.

(** [c.upper()] on one character: the letters [a] to [z] and the small
    letters 224 to 254 but the division sign (247); the sharp s (223) gives
    two letters.  The capitals of the micro sign (181) and of the y with
    diaeresis (255) are not among the 256 characters: the two are left as
    they are. *)
Definition upper_char (c : ascii) : string :=
  let n := nat_of_ascii c in
  if Nat.eqb n 223 then "SS"
  else if (Nat.leb 97 n && Nat.leb n 122)
          || (Nat.leb 224 n && Nat.leb n 254 && negb (Nat.eqb n 247))
  then String (ascii_of_nat (n - 32)) ""
  else String c "".

Fixpoint map_str (f : ascii -> ascii) (s : string) : string :=
  match s with
  | EmptyString => EmptyString
  | String c s' => String (f c) (map_str f s')
  end.

Definition lower : string -> string := map_str lower_char.

Fixpoint upper (s : string) : string :=
  match s with
  | EmptyString => EmptyString
  | String c s' => upper_char c ++ upper s'
  end.

(** The characters [str.strip()] removes: tab, newline, vertical tab, form
    feed, carriage return, the four separators 28..31, the space, the next
    line control (133) and the no-break space (160). *)
Definition isspace (c : ascii) : bool :=
  let n := nat_of_ascii c in
  (Nat.leb 9 n && Nat.leb n 13) || (Nat.leb 28 n && Nat.leb n 32)
  || Nat.eqb n 133 || Nat.eqb n 160.

(** The decimal digits [0] to [9]: the class [[0-9]] of a pattern, and the
    digits [int] reads. *)
Definition is_digit (c : ascii) : bool :=
  let n := nat_of_ascii c in Nat.leb 48 n && Nat.leb n 57.

Definition is_empty (s : string) : bool :=
  match s with EmptyString => true | _ => false end.

(** [s.lstrip(chars)], [s.rstrip(chars)] and [s.strip(chars)], the set of
    characters given as a predicate. *)
Fixpoint lstrip_by (p : ascii -> bool) (s : string) : string :=
  match s with
  | EmptyString => EmptyString
  | String c s' => if p c then lstrip_by p s' else s
  end.

Fixpoint rstrip_by (p : ascii -> bool) (s : string) : string :=
  match s with
  | EmptyString => EmptyString
  | String c s' =>
      let r := rstrip_by p s' in
      if p c && is_empty r then EmptyString else String c r
  end.

Definition strip_by (p : ascii -> bool) (s : string) : string :=
  rstrip_by p (lstrip_by p s).

Definition strip : string -> string := strip_by isspace.

Definition is_crlf (c : ascii) : bool := Ascii.eqb c CR || Ascii.eqb c LF.

(** [s.strip("\r\n")] *)
Definition strip_crlf : string -> string := strip_by is_crlf.

(** [s.lstrip('/')] *)
Definition lstrip_slash : string -> string := lstrip_by (Ascii.eqb "/"%char).

(** [s.startswith(p)] *)
Fixpoint startswith (p s : string) : bool :=
  match p, s with
  | EmptyString, _ => true
  | String a p', String b s' => Ascii.eqb a b && startswith p' s'
  | String _ _, EmptyString => false
  end.

(** [sub in s], also [s.find(sub) > -1]. *)
Fixpoint contains (sub s : string) : bool :=
  startswith sub s ||
  match s with
  | EmptyString => false
  | String _ s' => contains sub s'
  end.

(** The characters [c.isdigit()] holds for: the decimal digits, and the
    superscripts two, three and one (178, 179, 185), which are digits
    without being decimal ones. *)
Definition isdigit_char (c : ascii) : bool :=
  let n := nat_of_ascii c in
  is_digit c || Nat.eqb n 178 || Nat.eqb n 179 || Nat.eqb n 185.

(** [s.isdigit()]: at least one character, and digits only. *)
Fixpoint all_digits (s : string) : bool :=
  match s with
  | EmptyString => true
  | String c s' => isdigit_char c && all_digits s'
  end.

Definition isdigit (s : string) : bool := negb (is_empty s) && all_digits s.

(** [int(s)] for a text [s], in base ten.  Blanks around the number are
    passed over: those of [isspace] but the separators 28..31.  A sign may
    stand in front.  The number is made of decimal digits, with single
    underscores allowed between two of them; [int_digits] reads them, most
    significant digit first, and counts them.  [None] is [ValueError],
    which is also raised for a number of more than 640 digits that has more
    than [max_str_digits] of them, when that limit of the interpreter
    ([sys.get_int_max_str_digits()]) is not 0: that is [over_limit]. *)
Definition int_space (c : ascii) : bool :=
  isspace c && negb (let n := nat_of_ascii c in Nat.leb 28 n && Nat.leb n 31).

Fixpoint int_digits (acc : Z) (digits : nat) (prev : ascii) (s : string)
  : option (Z * nat) :=
  match s with
  | EmptyString =>
      if Ascii.eqb prev "_" then None else Some (acc, digits)
  | String c s' =>
      if is_digit c
      then int_digits (10 * acc + (Z.of_nat (nat_of_ascii c) - 48))
             (S digits) c s'
      else if Ascii.eqb c "_" && negb (Ascii.eqb prev "_")
      then int_digits acc digits c s'
      else None
  end.

Definition over_limit (max_str_digits digits : nat) : bool :=
  Nat.ltb 640 digits && Nat.ltb 0 max_str_digits
  && Nat.ltb max_str_digits digits.

Definition int (max_str_digits : nat) (s : string) : option Z :=
  let s := strip_by int_space s in
  let '(negative, s) :=
    match s with
    | String "-" s' => (true, s')
    | String "+" s' => (false, s')
    | _ => (false, s)
    end in
  match int_digits 0 0 "_" s with
  | Some (n, digits) =>
      if over_limit max_str_digits digits then None
      else Some (if negative then (- n)%Z else n)
  | None => None
  end.

(** [s.split(sep)] for a non-empty [sep]: occurrences of [sep] are found
    from left to right and do not overlap.  [skip] counts the characters of
    a found separator that are still to be passed over; the result is the
    piece being read and the pieces after it. *)
Fixpoint split_go (sep s : string) (skip : nat) : string * list string :=
  match s with
  | EmptyString => (EmptyString, [])
  | String c s' =>
      match skip with
      | S k => split_go sep s' k
      | O =>
          if startswith sep s
          then (EmptyString,
                let (t, ts) := split_go sep s' (String.length sep - 1) in t :: ts)
          else let (t, ts) := split_go sep s' 0 in (String c t, ts)
      end
  end.

Definition split (sep s : string) : list string :=
  let (t, ts) := split_go sep s 0 in t :: ts.

(** [s.replace(old, new)] for a non-empty [old]. *)
Fixpoint replace_go (old new s : string) (skip : nat) : string :=
  match s with
  | EmptyString => EmptyString
  | String c s' =>
      match skip with
      | S k => replace_go old new s' k
      | O =>
          if startswith old s
          then new ++ replace_go old new s' (String.length old - 1)
          else String c (replace_go old new s' 0)
      end
  end.

Definition replace (old new s : string) : string := replace_go old new s 0.

(** [s[:n]] and [s[n:]] *)
Fixpoint take (n : nat) (s : string) : string :=
  match n, s with
  | S k, String c s' => String c (take k s')
  | _, _ => EmptyString
  end.

Fixpoint drop (n : nat) (s : string) : string :=
  match n, s with
  | S k, String _ s' => drop k s'
  | _, _ => s
  end.

(** ["{0:04d}".format(n)] and ["{0:d}".format(n)] for a natural number *)
Definition fmt_d (n : nat) : string := NilZero.string_of_uint (Nat.to_uint n).

Fixpoint zeros (n : nat) : string :=
  match n with O => EmptyString | S k => String "0"%char (zeros k) end.

Definition fmt_04d (n : nat) : string :=
  let d := fmt_d n in zeros (4 - String.length d) ++ d.

End Py.

(** ** The host application and the script's globals *)

(** The value of a session option. *)
Inductive OptVal : Type :=
| VStr (s : string)
| VInt (n : Z)
| VBool (b : bool)
| VLines (l : list string).

(** What the script reads from its surroundings: SecureCRT's version, the
    two tests for Windows, the limit the interpreter sets on the digits of
    a number, the answers to its dialogs and the clock. *)
Record Host : Type := {
  g_nMajorVersion : Z;
  sys_getwindowsversion : bool;  (* hasattr(sys, 'getwindowsversion') *)
  sys_platform_win32 : bool;     (* sys.platform == "win32" *)
  int_max_str_digits : nat;      (* sys.get_int_max_str_digits(); 0: none *)
  g_bOverwriteExistingSessions : bool;
  dialog_prompt : string;        (* the answer to crt.Dialog.Prompt *)
  dialog_msgbox : Z;             (* the button of the first MsgBox *)
  now_tag : nat -> string        (* the time stamp taken at a line *)
}.

(** The module-level variables that the functions share, and the session
    store of the host.  [strFieldDesignations], which only the final report
    reads, is left out. *)
Record Globals : Type := {
  g_strDelimiter : string;
  g_vFieldsArray : list string;
  g_strDefaultProtocol : string;
  g_strDefaultFolder : string;
  g_strDefaultUsername : string;
  g_strLine : string;
  g_nCurLineNumber : nat;
  g_strErrors : string;
  g_strBogusLinesNotImported : string;
  g_strSessionsCreated : string;
  g_nSessionsCreated : nat;
  g_nDataLines : nat;
  sessions : gmap string (gmap string OptVal)
}.

Definition set_delimiter (v : string) (st : Globals) : Globals :=
  {| g_strDelimiter := v; g_vFieldsArray := g_vFieldsArray st;
     g_strDefaultProtocol := g_strDefaultProtocol st;
     g_strDefaultFolder := g_strDefaultFolder st;
     g_strDefaultUsername := g_strDefaultUsername st;
     g_strLine := g_strLine st; g_nCurLineNumber := g_nCurLineNumber st;
     g_strErrors := g_strErrors st;
     g_strBogusLinesNotImported := g_strBogusLinesNotImported st;
     g_strSessionsCreated := g_strSessionsCreated st;
     g_nSessionsCreated := g_nSessionsCreated st;
     g_nDataLines := g_nDataLines st; sessions := sessions st |}.

Definition set_fields (v : list string) (st : Globals) : Globals :=
  {| g_strDelimiter := g_strDelimiter st; g_vFieldsArray := v;
     g_strDefaultProtocol := g_strDefaultProtocol st;
     g_strDefaultFolder := g_strDefaultFolder st;
     g_strDefaultUsername := g_strDefaultUsername st;
     g_strLine := g_strLine st; g_nCurLineNumber := g_nCurLineNumber st;
     g_strErrors := g_strErrors st;
     g_strBogusLinesNotImported := g_strBogusLinesNotImported st;
     g_strSessionsCreated := g_strSessionsCreated st;
     g_nSessionsCreated := g_nSessionsCreated st;
     g_nDataLines := g_nDataLines st; sessions := sessions st |}.

Definition set_default_protocol (v : string) (st : Globals) : Globals :=
  {| g_strDelimiter := g_strDelimiter st;
     g_vFieldsArray := g_vFieldsArray st; g_strDefaultProtocol := v;
     g_strDefaultFolder := g_strDefaultFolder st;
     g_strDefaultUsername := g_strDefaultUsername st;
     g_strLine := g_strLine st; g_nCurLineNumber := g_nCurLineNumber st;
     g_strErrors := g_strErrors st;
     g_strBogusLinesNotImported := g_strBogusLinesNotImported st;
     g_strSessionsCreated := g_strSessionsCreated st;
     g_nSessionsCreated := g_nSessionsCreated st;
     g_nDataLines := g_nDataLines st; sessions := sessions st |}.

Definition set_default_folder (v : string) (st : Globals) : Globals :=
  {| g_strDelimiter := g_strDelimiter st;
     g_vFieldsArray := g_vFieldsArray st;
     g_strDefaultProtocol := g_strDefaultProtocol st;
     g_strDefaultFolder := v;
     g_strDefaultUsername := g_strDefaultUsername st;
     g_strLine := g_strLine st; g_nCurLineNumber := g_nCurLineNumber st;
     g_strErrors := g_strErrors st;
     g_strBogusLinesNotImported := g_strBogusLinesNotImported st;
     g_strSessionsCreated := g_strSessionsCreated st;
     g_nSessionsCreated := g_nSessionsCreated st;
     g_nDataLines := g_nDataLines st; sessions := sessions st |}.

Definition set_default_username (v : string) (st : Globals) : Globals :=
  {| g_strDelimiter := g_strDelimiter st;
     g_vFieldsArray := g_vFieldsArray st;
     g_strDefaultProtocol := g_strDefaultProtocol st;
     g_strDefaultFolder := g_strDefaultFolder st; g_strDefaultUsername := v;
     g_strLine := g_strLine st; g_nCurLineNumber := g_nCurLineNumber st;
     g_strErrors := g_strErrors st;
     g_strBogusLinesNotImported := g_strBogusLinesNotImported st;
     g_strSessionsCreated := g_strSessionsCreated st;
     g_nSessionsCreated := g_nSessionsCreated st;
     g_nDataLines := g_nDataLines st; sessions := sessions st |}.

Definition set_line (v : string) (st : Globals) : Globals :=
  {| g_strDelimiter := g_strDelimiter st;
     g_vFieldsArray := g_vFieldsArray st;
     g_strDefaultProtocol := g_strDefaultProtocol st;
     g_strDefaultFolder := g_strDefaultFolder st;
     g_strDefaultUsername := g_strDefaultUsername st; g_strLine := v;
     g_nCurLineNumber := g_nCurLineNumber st; g_strErrors := g_strErrors st;
     g_strBogusLinesNotImported := g_strBogusLinesNotImported st;
     g_strSessionsCreated := g_strSessionsCreated st;
     g_nSessionsCreated := g_nSessionsCreated st;
     g_nDataLines := g_nDataLines st; sessions := sessions st |}.

Definition set_line_number (v : nat) (st : Globals) : Globals :=
  {| g_strDelimiter := g_strDelimiter st;
     g_vFieldsArray := g_vFieldsArray st;
     g_strDefaultProtocol := g_strDefaultProtocol st;
     g_strDefaultFolder := g_strDefaultFolder st;
     g_strDefaultUsername := g_strDefaultUsername st;
     g_strLine := g_strLine st; g_nCurLineNumber := v;
     g_strErrors := g_strErrors st;
     g_strBogusLinesNotImported := g_strBogusLinesNotImported st;
     g_strSessionsCreated := g_strSessionsCreated st;
     g_nSessionsCreated := g_nSessionsCreated st;
     g_nDataLines := g_nDataLines st; sessions := sessions st |}.

Definition set_errors (v : string) (st : Globals) : Globals :=
  {| g_strDelimiter := g_strDelimiter st;
     g_vFieldsArray := g_vFieldsArray st;
     g_strDefaultProtocol := g_strDefaultProtocol st;
     g_strDefaultFolder := g_strDefaultFolder st;
     g_strDefaultUsername := g_strDefaultUsername st;
     g_strLine := g_strLine st; g_nCurLineNumber := g_nCurLineNumber st;
     g_strErrors := v;
     g_strBogusLinesNotImported := g_strBogusLinesNotImported st;
     g_strSessionsCreated := g_strSessionsCreated st;
     g_nSessionsCreated := g_nSessionsCreated st;
     g_nDataLines := g_nDataLines st; sessions := sessions st |}.

Definition set_bogus (v : string) (st : Globals) : Globals :=
  {| g_strDelimiter := g_strDelimiter st;
     g_vFieldsArray := g_vFieldsArray st;
     g_strDefaultProtocol := g_strDefaultProtocol st;
     g_strDefaultFolder := g_strDefaultFolder st;
     g_strDefaultUsername := g_strDefaultUsername st;
     g_strLine := g_strLine st; g_nCurLineNumber := g_nCurLineNumber st;
     g_strErrors := g_strErrors st; g_strBogusLinesNotImported := v;
     g_strSessionsCreated := g_strSessionsCreated st;
     g_nSessionsCreated := g_nSessionsCreated st;
     g_nDataLines := g_nDataLines st; sessions := sessions st |}.

Definition set_data_lines (v : nat) (st : Globals) : Globals :=
  {| g_strDelimiter := g_strDelimiter st;
     g_vFieldsArray := g_vFieldsArray st;
     g_strDefaultProtocol := g_strDefaultProtocol st;
     g_strDefaultFolder := g_strDefaultFolder st;
     g_strDefaultUsername := g_strDefaultUsername st;
     g_strLine := g_strLine st; g_nCurLineNumber := g_nCurLineNumber st;
     g_strErrors := g_strErrors st;
     g_strBogusLinesNotImported := g_strBogusLinesNotImported st;
     g_strSessionsCreated := g_strSessionsCreated st;
     g_nSessionsCreated := g_nSessionsCreated st; g_nDataLines := v;
     sessions := sessions st |}.

Definition set_sessions (v : gmap string (gmap string OptVal)) (st : Globals) : Globals :=
  {| g_strDelimiter := g_strDelimiter st;
     g_vFieldsArray := g_vFieldsArray st;
     g_strDefaultProtocol := g_strDefaultProtocol st;
     g_strDefaultFolder := g_strDefaultFolder st;
     g_strDefaultUsername := g_strDefaultUsername st;
     g_strLine := g_strLine st; g_nCurLineNumber := g_nCurLineNumber st;
     g_strErrors := g_strErrors st;
     g_strBogusLinesNotImported := g_strBogusLinesNotImported st;
     g_strSessionsCreated := g_strSessionsCreated st;
     g_nSessionsCreated := g_nSessionsCreated st;
     g_nDataLines := g_nDataLines st; sessions := v |}.

Definition add_created (path : string) (st : Globals) : Globals :=
  {| g_strDelimiter := g_strDelimiter st;
     g_vFieldsArray := g_vFieldsArray st;
     g_strDefaultProtocol := g_strDefaultProtocol st;
     g_strDefaultFolder := g_strDefaultFolder st;
     g_strDefaultUsername := g_strDefaultUsername st;
     g_strLine := g_strLine st; g_nCurLineNumber := g_nCurLineNumber st;
     g_strErrors := g_strErrors st;
     g_strBogusLinesNotImported := g_strBogusLinesNotImported st;
     g_strSessionsCreated := path;
     g_nSessionsCreated := S (g_nSessionsCreated st);
     g_nDataLines := g_nDataLines st; sessions := sessions st |}.

(** The local variables of [Import] that describe the session of the line
    being read. *)
Record Locals : Type := {
  bSaveSession : bool;
  strSessionName : string;
  strPort : string;
  strProtocol : string;
  strHostName : string;
  strUserName : string;
  strEmulation : string;
  strFolder : string;
  strFolderOrig : string;
  strDescription : string;
  strLogonScript : string;
  strDomain : string
}.

Definition set_save (v : bool) (loc : Locals) : Locals :=
  {| bSaveSession := v; strSessionName := strSessionName loc;
     strPort := strPort loc; strProtocol := strProtocol loc;
     strHostName := strHostName loc; strUserName := strUserName loc;
     strEmulation := strEmulation loc; strFolder := strFolder loc;
     strFolderOrig := strFolderOrig loc;
     strDescription := strDescription loc;
     strLogonScript := strLogonScript loc; strDomain := strDomain loc |}.

Definition set_session_name (v : string) (loc : Locals) : Locals :=
  {| bSaveSession := bSaveSession loc; strSessionName := v;
     strPort := strPort loc; strProtocol := strProtocol loc;
     strHostName := strHostName loc; strUserName := strUserName loc;
     strEmulation := strEmulation loc; strFolder := strFolder loc;
     strFolderOrig := strFolderOrig loc;
     strDescription := strDescription loc;
     strLogonScript := strLogonScript loc; strDomain := strDomain loc |}.

Definition set_port (v : string) (loc : Locals) : Locals :=
  {| bSaveSession := bSaveSession loc; strSessionName := strSessionName loc;
     strPort := v; strProtocol := strProtocol loc;
     strHostName := strHostName loc; strUserName := strUserName loc;
     strEmulation := strEmulation loc; strFolder := strFolder loc;
     strFolderOrig := strFolderOrig loc;
     strDescription := strDescription loc;
     strLogonScript := strLogonScript loc; strDomain := strDomain loc |}.

Definition set_protocol (v : string) (loc : Locals) : Locals :=
  {| bSaveSession := bSaveSession loc; strSessionName := strSessionName loc;
     strPort := strPort loc; strProtocol := v;
     strHostName := strHostName loc; strUserName := strUserName loc;
     strEmulation := strEmulation loc; strFolder := strFolder loc;
     strFolderOrig := strFolderOrig loc;
     strDescription := strDescription loc;
     strLogonScript := strLogonScript loc; strDomain := strDomain loc |}.

Definition set_hostname (v : string) (loc : Locals) : Locals :=
  {| bSaveSession := bSaveSession loc; strSessionName := strSessionName loc;
     strPort := strPort loc; strProtocol := strProtocol loc;
     strHostName := v; strUserName := strUserName loc;
     strEmulation := strEmulation loc; strFolder := strFolder loc;
     strFolderOrig := strFolderOrig loc;
     strDescription := strDescription loc;
     strLogonScript := strLogonScript loc; strDomain := strDomain loc |}.

Definition set_username (v : string) (loc : Locals) : Locals :=
  {| bSaveSession := bSaveSession loc; strSessionName := strSessionName loc;
     strPort := strPort loc; strProtocol := strProtocol loc;
     strHostName := strHostName loc; strUserName := v;
     strEmulation := strEmulation loc; strFolder := strFolder loc;
     strFolderOrig := strFolderOrig loc;
     strDescription := strDescription loc;
     strLogonScript := strLogonScript loc; strDomain := strDomain loc |}.

Definition set_emulation (v : string) (loc : Locals) : Locals :=
  {| bSaveSession := bSaveSession loc; strSessionName := strSessionName loc;
     strPort := strPort loc; strProtocol := strProtocol loc;
     strHostName := strHostName loc; strUserName := strUserName loc;
     strEmulation := v; strFolder := strFolder loc;
     strFolderOrig := strFolderOrig loc;
     strDescription := strDescription loc;
     strLogonScript := strLogonScript loc; strDomain := strDomain loc |}.

Definition set_folder (v : string) (loc : Locals) : Locals :=
  {| bSaveSession := bSaveSession loc; strSessionName := strSessionName loc;
     strPort := strPort loc; strProtocol := strProtocol loc;
     strHostName := strHostName loc; strUserName := strUserName loc;
     strEmulation := strEmulation loc; strFolder := v;
     strFolderOrig := strFolderOrig loc;
     strDescription := strDescription loc;
     strLogonScript := strLogonScript loc; strDomain := strDomain loc |}.

Definition set_folder_orig (v : string) (loc : Locals) : Locals :=
  {| bSaveSession := bSaveSession loc; strSessionName := strSessionName loc;
     strPort := strPort loc; strProtocol := strProtocol loc;
     strHostName := strHostName loc; strUserName := strUserName loc;
     strEmulation := strEmulation loc; strFolder := strFolder loc;
     strFolderOrig := v; strDescription := strDescription loc;
     strLogonScript := strLogonScript loc; strDomain := strDomain loc |}.

Definition set_description (v : string) (loc : Locals) : Locals :=
  {| bSaveSession := bSaveSession loc; strSessionName := strSessionName loc;
     strPort := strPort loc; strProtocol := strProtocol loc;
     strHostName := strHostName loc; strUserName := strUserName loc;
     strEmulation := strEmulation loc; strFolder := strFolder loc;
     strFolderOrig := strFolderOrig loc; strDescription := v;
     strLogonScript := strLogonScript loc; strDomain := strDomain loc |}.

Definition set_logon_script (v : string) (loc : Locals) : Locals :=
  {| bSaveSession := bSaveSession loc; strSessionName := strSessionName loc;
     strPort := strPort loc; strProtocol := strProtocol loc;
     strHostName := strHostName loc; strUserName := strUserName loc;
     strEmulation := strEmulation loc; strFolder := strFolder loc;
     strFolderOrig := strFolderOrig loc;
     strDescription := strDescription loc; strLogonScript := v;
     strDomain := strDomain loc |}.

Definition set_domain (v : string) (loc : Locals) : Locals :=
  {| bSaveSession := bSaveSession loc; strSessionName := strSessionName loc;
     strPort := strPort loc; strProtocol := strProtocol loc;
     strHostName := strHostName loc; strUserName := strUserName loc;
     strEmulation := strEmulation loc; strFolder := strFolder loc;
     strFolderOrig := strFolderOrig loc;
     strDescription := strDescription loc;
     strLogonScript := strLogonScript loc; strDomain := v |}.

(** How a function of the script ends: it goes on with a value, [Import]
    returns early, or an exception is raised and nothing catches it. *)
Inductive Exit : Type :=
| NoFileChosen        (* FileOpenDialog gave no file *)
| Cancelled           (* Cancel at the options question *)
| NoDelimiter         (* Script cannot continue w/o a field delimiter. *)
| NoHostname          (* 'hostname' field is required. *)
| UnknownField (strField : string)  (* Unknown field designation *)
| ProtocolNotSet      (* Protocol not set. *)
| LogonScriptForRdp   (* Logon Script is not supported for RDP sessions. *)
| EmulationForRdp.    (* Emulation is not supported for RDP sessions. *)

Inductive Flow (A : Type) : Type :=
| Go (st : Globals) (a : A)
| Return (st : Globals) (why : Exit)
| Raised (st : Globals).

Arguments Go {A} st a.
Arguments Return {A} st why.
Arguments Raised {A} st.

Import Py.

Definition Q : string := String DQUOTE "".

(** [crt.OpenSessionConfiguration(path)] and the methods of the object it
    gives, over the session store. *)
Definition OpenSessionConfiguration (st : Globals) (strSessionPath : string)
  : option (gmap string OptVal) :=
  sessions st !! strSessionPath.

Definition SetOption (name : string) (v : OptVal) (objConfig : gmap string OptVal)
  : gmap string OptVal :=
  <[name := v]> objConfig.

Definition Save (strSessionPath : string) (objConfig : gmap string OptVal)
  (st : Globals) : Globals :=
  set_sessions (<[strSessionPath := objConfig]> (sessions st)) st.

Definition SessionExists (st : Globals) (strSessionPath : string) : bool :=
  match OpenSessionConfiguration st strSessionPath with
  | Some _ => true
  | None => false
  end.

(** ** Name validation *)

(** [g_objReFolders] and [g_objReSession], each a pattern of one character
    class; the second has the slash as well. *)
Definition g_objReFolders (c : ascii) : bool :=
  existsb (Ascii.eqb c) ["|"; ":"; "*"; "?"; DQUOTE; "<"; ">"]%char.

Definition g_objReSession (c : ascii) : bool :=
  g_objReFolders c || Ascii.eqb c "/"%char.

(** [regexp.search(s)] for a pattern that is one character class: the first
    character of the class, which is [group(1)]. *)
Fixpoint search_class (cls : ascii -> bool) (s : string) : option ascii :=
  match s with
  | EmptyString => None
  | String c s' => if cls c then Some c else search_class cls s'
  end.

(** The group [(CON|PRN|AUX|NUL|COM[0-9]|LPT[0-9])] under [re.I], matched at
    the start of [s]: the text it matched and the text after it. *)
Definition match_special (s : string) : option (string * string) :=
  let w := lower (take 3 s) in
  if existsb (String.eqb w) ["con"; "prn"; "aux"; "nul"]
  then Some (take 3 s, drop 3 s)
  else if existsb (String.eqb w) ["com"; "lpt"]
  then match drop 3 s with
       | String d r => if is_digit d then Some (take 4 s, r) else None
       | EmptyString => None
       end
  else None.

(** [g_objReSpecialsFolders.search(s)]: the group between two slashes,
    anywhere in [s]; the result is [group(1)]. *)
Fixpoint g_objReSpecialsFolders (s : string) : option string :=
  match s with
  | EmptyString => None
  | String c s' =>
      match (if Ascii.eqb c "/"%char then match_special s' else None) with
      | Some (w, String c' _) =>
          if Ascii.eqb c' "/"%char then Some w else g_objReSpecialsFolders s'
      | _ => g_objReSpecialsFolders s'
      end
  end.

(** [g_objReSpecialsSession.search(s)]: the group from the start to the end
    of [s]; [$] also matches before a newline that ends [s]. *)
Definition g_objReSpecialsSession (s : string) : option string :=
  match match_special s with
  | Some (w, rest) =>
      if String.eqb rest "" || String.eqb rest NL then Some w else None
  | None => None
  end.

(** The two statements every rejection inside a validator runs: the error
    text gets a line break in front when it is not empty. *)
Definition break_errors (st : Globals) : Globals :=
  if negb (is_empty (g_strErrors st))
  then set_errors (CRLF ++ g_strErrors st) st
  else st.

Definition add_bogus_line (st : Globals) : Globals :=
  set_bogus (g_strBogusLinesNotImported st ++ CRLF ++ g_strLine st) st.

(** The padding of a folder path before the reserved names are looked for
    (lines 509-512). *)
Definition pad_folder (strComponent : string) : string :=
  let strComponent :=
    if negb (String.eqb (take 1 strComponent) "/")
    then "/" ++ strComponent else strComponent in
  if negb (String.eqb (drop 1 strComponent) "/")
  then strComponent ++ "/" else strComponent.

Definition ValidateSessionFolderComponent (h : Host)
  (strComponent strType : string) (st : Globals) : bool * Globals :=
  let strOrigComponent := strComponent in
  let strType := lower strType in
  let regexp := if String.eqb strType "folder" then g_objReFolders else g_objReSession in
  match search_class regexp strComponent with
  | Some ch =>
      let st := break_errors st in
      let st := set_errors
        ("Error: Invalid character '" ++ String ch "' " ++
         "in " ++ strType ++ " name " ++ Q ++ strOrigComponent ++ Q ++
         " specified on line #" ++ fmt_04d (g_nCurLineNumber st) ++
         ": " ++ g_strLine st ++ g_strErrors st) st in
      (false, add_bogus_line st)
  | None =>
      if sys_getwindowsversion h then
        let objMatch :=
          if String.eqb strType "folder"
          then g_objReSpecialsFolders (pad_folder strComponent)
          else g_objReSpecialsSession strComponent in
        match objMatch with
        | Some strOffendingComponent =>
            let st := break_errors st in
            let st := set_errors
              ("Error: Invalid " ++ strType ++ " name " ++
               Q ++ strOrigComponent ++ Q ++ " specified on line #" ++
               fmt_04d (g_nCurLineNumber st) ++
               ": " ++ g_strLine st ++ " ---> '" ++ strOffendingComponent ++
               "' is a reserved name on Windows OS." ++ g_strErrors st) st in
            (false, add_bogus_line st)
        | None => (true, st)
        end
      else (true, st)
  end.

(** ** The RDP gate *)

Definition rdp_needs_version : string :=
  "Error: RDP protocol support requires SecureCRT version 9.0 or newer.".

Definition rdp_needs_windows : string :=
  "Error: RDP protocol support is only available in SecureCRT for Windows.".

Definition ValidateProtocolComponent (h : Host) (strProtocol : string)
  (st : Globals) : bool * Globals :=
  if contains "rdp" (lower strProtocol) then
    let '(bReturnValue, strErrorText) :=
      if (g_nMajorVersion h <? 9)%Z then (false, rdp_needs_version)
      else if negb (sys_platform_win32 h) then (false, rdp_needs_windows)
      else (true, "") in
    if negb bReturnValue then
      let st := break_errors st in
      let st := set_errors
        (strErrorText ++ CRLF ++ String TAB "Session data on line line #" ++
         fmt_d (g_nCurLineNumber st) ++ " will not be imported." ++
         ": " ++ g_strLine st ++ g_strErrors st) st in
      (bReturnValue, add_bogus_line st)
    else (bReturnValue, st)
  else (true, st).

(** ** The header line *)

(** One round of the loop over the header's fields (lines 414-431): a field
    written [name=value] records the default and is replaced by the bare
    name in the header text. *)
Definition header_field (acc : Globals * string) (strField : string)
  : Globals * string :=
  let '(st, strFields) := acc in
  let has_eq := contains "=" (lower strField) in
  let '(st, strFields) :=
    if contains "protocol" (lower strField) && has_eq
    then (set_default_protocol (upper (nth 1 (split "=" strField) "")) st,
          replace strField "protocol" strFields)
    else (st, strFields) in
  let '(st, strFields) :=
    if contains "folder" (lower strField) && has_eq
    then (set_default_folder (nth 1 (split "=" strField) "") st,
          replace strField "folder" strFields)
    else (st, strFields) in
  if contains "username" (lower strField) && has_eq
  then (set_default_username (nth 1 (split "=" strField) "") st,
        replace strField "username" strFields)
  else (st, strFields).

(** The test of lines 379 and 407: is [name] one of the fields, whatever
    the case of their letters? *)
Definition has_field (name : string) (fields : list string) : bool :=
  existsb (String.eqb name) (map lower fields).

Definition ValidateFieldDesignations (h : Host) (strFields : string)
  (st : Globals) : Flow unit :=
  let prompted : option Globals :=
    if negb (contains (g_strDelimiter st) strFields) then
      let strDelim := dialog_prompt h in
      if String.eqb strDelim "" then None
      else if negb (String.eqb strDelim "NONE")
      then Some (set_delimiter strDelim st)
      else Some st
    else Some st in
  match prompted with
  | None => Return st NoDelimiter
  | Some st =>
      if is_empty (g_strDelimiter st) then Raised st else
      let st := set_fields (split (g_strDelimiter st) strFields) st in
      if negb (has_field "hostname" (g_vFieldsArray st))
      then Return st NoHostname
      else
        let inherited : option Globals :=
          if negb (has_field "protocol" (g_vFieldsArray st))
             && negb (contains "protocol=" (lower strFields))
          then match OpenSessionConfiguration st "Default" with
               | Some objConfig =>
                   match objConfig !! "Protocol Name" with
                   | Some (VStr s) => Some (set_default_protocol s st)
                   | _ => None
                   end
               | None => None
               end
          else Some st in
        match inherited with
        | None => Raised st
        | Some st =>
            let '(st, strFields) :=
              fold_left header_field (g_vFieldsArray st) (st, strFields) in
            Go (set_fields (split (g_strDelimiter st) strFields) st) tt
        end
  end.

(** ** One data line *)

(** The branch of the chain of [if ... in strFieldLabel] tests (lines
    684-796) that a field label takes. *)
Inductive FieldKind : Type :=
| FSessionName | FLogonScript | FPort | FProtocol | FHostName | FUserName
| FEmulation | FFolder | FDescription | FDomain | FUnknown.

Definition field_kind (strFieldLabel : string) : FieldKind :=
  if contains "session_name" strFieldLabel then FSessionName
  else if contains "logon_script" strFieldLabel then FLogonScript
  else if contains "port" strFieldLabel then FPort
  else if contains "protocol" strFieldLabel then FProtocol
  else if contains "hostname" strFieldLabel then FHostName
  else if contains "username" strFieldLabel then FUserName
  else if contains "emulation" strFieldLabel then FEmulation
  else if contains "folder" strFieldLabel then FFolder
  else if contains "description" strFieldLabel then FDescription
  else if contains "domain" strFieldLabel then FDomain
  else FUnknown.

Definition line_ref (st : Globals) : string :=
  fmt_04d (g_nCurLineNumber st) ++ ": " ++ g_strLine st.

(** Lines 698-727. *)
Definition import_protocol (value : string) (st : Globals) (loc : Locals)
  : Globals * Locals :=
  let strProtocol := strip (lower value) in
  let loc := set_protocol strProtocol loc in
  if String.eqb strProtocol "ssh2" then (st, set_protocol "SSH2" loc)
  else if String.eqb strProtocol "ssh1" then (st, set_protocol "SSH1" loc)
  else if String.eqb strProtocol "telnet" then (st, set_protocol "Telnet" loc)
  else if String.eqb strProtocol "serial" || String.eqb strProtocol "tapi" then
    (set_errors
       (NL ++ "Error: Unsupported protocol " ++ Q ++ strip value ++
        Q ++ " specified on line #" ++ line_ref st ++ g_strErrors st) st,
     set_save false loc)
  else if String.eqb strProtocol "rlogin" then (st, set_protocol "RLogin" loc)
  else if contains "rdp" (lower strProtocol) then (st, set_protocol "RDP" loc)
  else if negb (String.eqb (g_strDefaultProtocol st) "")
  then (st, set_protocol (g_strDefaultProtocol st) loc)
  else
    (set_errors
       (NL ++ "Error: Invalid protocol " ++ Q ++ strProtocol ++
        Q ++ " specified on line #" ++ line_ref st ++ g_strErrors st) st,
     set_save false loc).

Definition vt320_too_old : string :=
  "Error: VT320 emulation is not available in versions prior to 8.0. ".

(** Lines 740-776. *)
Definition import_emulation (h : Host) (value : string) (st : Globals)
  (loc : Locals) : Globals * Locals :=
  let strEmulation := strip (lower value) in
  let loc := set_emulation strEmulation loc in
  if String.eqb strEmulation "xterm" then (st, set_emulation "Xterm" loc)
  else if String.eqb strEmulation "vt100" then (st, set_emulation "VT100" loc)
  else if String.eqb strEmulation "vt102" then (st, set_emulation "VT102" loc)
  else if String.eqb strEmulation "vt220" then (st, set_emulation "VT220" loc)
  else if String.eqb strEmulation "vt320" then
    if (g_nMajorVersion h <? 8)%Z then
      (set_errors
         (NL ++ vt320_too_old ++ "Session specified on line #" ++
          fmt_04d (g_nCurLineNumber st) ++ " is invalid: " ++
          g_strLine st ++ g_strErrors st) st,
       set_save false loc)
    else (st, set_emulation "VT320" loc)
  else if String.eqb strEmulation "ansi" then (st, set_emulation "ANSI" loc)
  else if String.eqb strEmulation "linux" then (st, set_emulation "Linux" loc)
  else if String.eqb strEmulation "scoansi" then (st, set_emulation "SCOANSI" loc)
  else if String.eqb strEmulation "vshell" then (st, set_emulation "VShell" loc)
  else if String.eqb strEmulation "wyse50" then (st, set_emulation "WYSE50" loc)
  else if String.eqb strEmulation "wyse60" then (st, set_emulation "WYSE60" loc)
  else
    (set_errors
       (NL ++ "Error: Invalid emulation " ++ Q ++ strEmulation ++ Q ++
        " specified on line #" ++ line_ref st ++ g_strErrors st) st,
     set_save false loc).

(** The body of the loop over the fields of a line (lines 682-814), for
    the header field [strField] and the value [value] in its column. *)
Definition import_field (h : Host) (strField value : string) (st : Globals)
  (loc : Locals) : Flow Locals :=
  let strFieldLabel := lower (strip strField) in
  match field_kind strFieldLabel with
  | FSessionName => Go st (set_session_name (strip value) loc)
  | FLogonScript => Go st (set_logon_script (strip value) loc)
  | FPort =>
      let strPort := strip value in
      let loc := set_port strPort loc in
      if negb (String.eqb strPort "") && negb (isdigit strPort) then
        Go (set_errors
              (NL ++ "Error: Invalid port " ++ Q ++ strPort ++ Q ++
               " specified on line #" ++ line_ref st ++ g_strErrors st) st)
           (set_save false loc)
      else Go st loc
  | FProtocol => let '(st, loc) := import_protocol value st loc in Go st loc
  | FHostName =>
      let strHostName := strip value in
      let loc := set_hostname strHostName loc in
      if String.eqb strHostName "" then
        Go (set_errors
              (NL ++ "Error: Hostname field on line #" ++
               fmt_04d (g_nCurLineNumber st) ++ " is empty: " ++
               g_strLine st ++ g_strErrors st) st)
           (set_save false loc)
      else Go st loc
  | FUserName => Go st (set_username (strip value) loc)
  | FEmulation =>
      let '(st, loc) := import_emulation h value st loc in Go st loc
  | FFolder =>
      let strFolderOrig := strip value in
      let strFolder := lower strFolderOrig in
      if String.eqb strFolder "" then
        Go st (set_folder_orig (g_strDefaultFolder st)
                 (set_folder (g_strDefaultFolder st) loc))
      else Go st (set_folder_orig strFolderOrig (set_folder strFolder loc))
  | FDescription =>
      let strCurDescription := strip value in
      if String.eqb (strDescription loc) "" then
        Go st (set_description strCurDescription loc)
      else
        Go st (set_description
                 (replace "\r" (String CR "")
                    (strDescription loc ++ "\r" ++ strCurDescription)) loc)
  | FDomain => Go st (set_domain (strip value) loc)
  | FUnknown => Return st (UnknownField strField)
  end.

(** [for nFieldIndex in range(0, len(vSessionInfo))], entered only when the
    line has as many values as the header has fields. *)
Fixpoint import_fields (h : Host) (fields vSessionInfo : list string)
  (st : Globals) (loc : Locals) : Flow Locals :=
  match fields, vSessionInfo with
  | strField :: fields', value :: values' =>
      match import_field h strField value st loc with
      | Go st loc => import_fields h fields' values' st loc
      | stop => stop
      end
  | _, _ => Go st loc
  end.

(** The locals as a data line finds them: lines 626-637 clear them, line 677
    sets [bSaveSession], and [strSessionName] keeps what the end of the
    round before gave it. *)
Definition line_locals (strSessionName : string) : Locals :=
  {| bSaveSession := true; strSessionName := strSessionName;
     strPort := ""; strProtocol := ""; strHostName := ""; strUserName := "";
     strEmulation := ""; strFolder := ""; strFolderOrig := "";
     strDescription := ""; strLogonScript := ""; strDomain := "" |}.

(** Lines 816-830: the session name falls back to the host name, then the
    three validators run, each of them whatever the others said. *)
Definition validate_record (h : Host) (st : Globals) (loc : Locals)
  : Globals * Locals :=
  let loc :=
    if String.eqb (strSessionName loc) ""
    then set_session_name (strHostName loc) loc else loc in
  let '(ok, st) :=
    ValidateSessionFolderComponent h (strSessionName loc) "session" st in
  let loc := if negb ok then set_save false loc else loc in
  let loc :=
    if String.eqb (strFolderOrig loc) ""
    then set_folder_orig (g_strDefaultFolder st) loc else loc in
  let '(ok, st) :=
    ValidateSessionFolderComponent h (strFolderOrig loc) "folder" st in
  let loc := if negb ok then set_save false loc else loc in
  let '(ok, st) := ValidateProtocolComponent h (strProtocol loc) st in
  let loc := if negb ok then set_save false loc else loc in
  (st, loc).

(** Lines 681-830: from the values of a line to the locals that decide
    whether, and as what, the session is saved. *)
Definition normalize (h : Host) (strSessionName : string)
  (vSessionInfo : list string) (st : Globals) : Flow Locals :=
  match import_fields h (g_vFieldsArray st) vSessionInfo st
          (line_locals strSessionName) with
  | Go st loc => let '(st, loc) := validate_record h st loc in Go st loc
  | stop => stop
  end.

(** ** Creating the session *)

(** [str(v)] and [int(v)] of an option value.  [str] is only compared with
    the empty text, so the text of a list is given in outline; [int] raises
    on a list and on text that is no number. *)
Definition str_of (v : OptVal) : string :=
  match v with
  | VStr s => s
  | VInt n => if (n <? 0)%Z then "-" ++ fmt_d (Z.to_nat (- n)) else fmt_d (Z.to_nat n)
  | VBool b => if b then "True" else "False"
  | VLines l => "[" ++ String.concat ", " l ++ "]"
  end.

Definition int_of (h : Host) (v : OptVal) : option Z :=
  match v with
  | VStr s => int (int_max_str_digits h) s
  | VInt n => Some n
  | VBool b => Some (if b then 1 else 0)%Z
  | VLines _ => None
  end.

(** [v == s] for an option value and a text. *)
Definition is_text (s : string) (v : OptVal) : bool :=
  match v with
  | VStr s' => String.eqb s' s
  | _ => false
  end.

(** Lines 934-975, the options the script sets by itself.  They stand in a
    [try] block: when an option that is read is missing, the block ends
    there and what was set before stays. *)
Definition custom_options (h : Host) (objConfig : gmap string OptVal)
  : gmap string OptVal :=
  let objConfig := SetOption "ANSI Color" (VBool true) objConfig in
  let objConfig := SetOption "Color Scheme" (VStr "Solarized Darcula") objConfig in
  let objConfig := SetOption "Color Scheme Overrides Ansi Color" (VBool true) objConfig in
  let objConfig := SetOption "Auto Reconnect" (VBool true) objConfig in
  let objConfig := SetOption "Start Log Upon Connect" (VBool false) objConfig in
  let objConfig := SetOption "Rows" (VInt 60) objConfig in
  let objConfig := SetOption "Cols" (VInt 140) objConfig in
  let objConfig := SetOption "Use Word Delimiter Chars" (VBool true) objConfig in
  match objConfig !! "Word Delimiter Chars" with
  | None => objConfig
  | Some v =>
      let objConfig :=
        if String.eqb (str_of v) ""
        then SetOption "Word Delimiter Chars" (VStr " <>()+=$%!#*") objConfig
        else objConfig in
      match objConfig !! "Scrollback" with
      | None => objConfig
      | Some v =>
          match int_of h v with
          | None => objConfig
          | Some n =>
              let objConfig :=
                if (n =? 500)%Z
                then SetOption "Scrollback" (VInt 12345) objConfig
                else objConfig in
              let objConfig := SetOption "Key Exchange Algorithms"
                (VStr ("diffie-hellman-group-exchange-sha256,ecdh-sha2-nistp256," ++
                       "ecdh-sha2-nistp384,ecdh-sha2-nistp521," ++
                       "diffie-hellman-group-exchange-sha1," ++
                       "diffie-hellman-group14-sha1,diffie-hellman-group1-sha1"))
                objConfig in
              let objConfig := SetOption "Idle NO-OP Check" (VBool true) objConfig in
              let objConfig := SetOption "Idle NO-OP Timeout" (VInt 60) objConfig in
              SetOption "Auth Prompts in Window" (VBool true) objConfig
          end
      end
  end.

(** [g_bUseDefaultSessionOptions]: true unless the answer was No (7). *)
Definition g_bUseDefaultSessionOptions (h : Host) : bool :=
  negb (dialog_msgbox h =? 7)%Z.

(** Lines 834-850: the path of the session, with the folder in front, no
    leading slash, and a time stamp behind when a session of that path
    exists and is not to be overwritten. *)
Definition folder_path (loc : Locals) : string :=
  lstrip_slash
    (if negb (String.eqb (strip (strFolderOrig loc)) "")
     then strFolderOrig loc ++ "/" ++ strSessionName loc
     else strSessionName loc).

Definition import_tag (h : Host) (st : Globals) : string :=
  "(import_(" ++ now_tag h (g_nCurLineNumber st) ++ ")".

Definition session_path (h : Host) (st : Globals) (loc : Locals) : string :=
  let strSessionPath := folder_path loc in
  if SessionExists st strSessionPath
     && negb (g_bOverwriteExistingSessions h)
  then strSessionPath ++ import_tag h st
  else strSessionPath.

(** Lines 842-843: a blank user name gives way to the default of the
    header. *)
Definition default_username (st : Globals) (loc : Locals) : Locals :=
  if String.eqb (strip (strUserName loc)) ""
  then set_username (g_strDefaultUsername st) loc else loc.

(** Lines 878-924: the options taken from the line.  The result is the
    configuration with the options set, or the [return] that ends [Import];
    it is [None] when [int(strPort)] raises, which nothing catches. *)
Definition line_options (h : Host) (loc : Locals)
  (objConfig : gmap string OptVal) : option (Exit + gmap string OptVal) :=
  let is_rdp := contains "rdp" (lower (strProtocol loc)) in
  let objConfig :=
    if negb (String.eqb (strDescription loc) "")
    then SetOption "Description"
           (VLines (split (String CR "") (strDescription loc))) objConfig
    else objConfig in
  if negb (String.eqb (strLogonScript loc) "") && is_rdp
  then Some (inl LogonScriptForRdp) else
  let objConfig :=
    if negb (String.eqb (strLogonScript loc) "")
    then SetOption "Use Script File" (VBool true)
           (SetOption "Script Filename V2" (VStr (strLogonScript loc)) objConfig)
    else objConfig in
  if negb (String.eqb (strEmulation loc) "") && is_rdp
  then Some (inl EmulationForRdp) else
  let objConfig :=
    if negb (String.eqb (strEmulation loc) "")
    then SetOption "Emulation" (VStr (strEmulation loc)) objConfig
    else objConfig in
  let objConfig :=
    if negb (String.eqb (lower (strProtocol loc)) "serial") then
      let objConfig :=
        if negb (String.eqb (strHostName loc) "")
        then SetOption "Hostname" (VStr (strHostName loc)) objConfig
        else objConfig in
      if negb (String.eqb (strUserName loc) "") then
        if is_rdp && negb (String.eqb (strDomain loc) "")
        then SetOption "Username"
               (VStr (strDomain loc ++ "\" ++ strUserName loc)) objConfig
        else SetOption "Username" (VStr (strUserName loc)) objConfig
      else objConfig
    else objConfig in
  let set_port (name default : string) :=
    match int (int_max_str_digits h)
            (if String.eqb (strPort loc) "" then default else strPort loc) with
    | Some n => Some (inr (SetOption name (VInt n) objConfig))
    | None => None
    end in
  if String.eqb (upper (strProtocol loc)) "SSH2"
  then set_port "[SSH2] Port" "22"
  else if String.eqb (upper (strProtocol loc)) "SSH1"
  then set_port "[SSH1] Port" "22"
  else if String.eqb (upper (strProtocol loc)) "TELNET"
  then set_port "Port" "23"
  else if is_rdp
  then set_port "Port" "3389"
  else Some (inr objConfig).

(** Lines 832-985, for a line whose [bSaveSession] is still true. *)
Definition create_session (h : Host) (st : Globals) (loc : Locals)
  : Flow unit :=
  let loc := default_username st loc in
  let strSessionPath := session_path h st loc in
  match OpenSessionConfiguration st "Default" with
  | None => Raised st
  | Some objConfig =>
      let objConfig := SetOption "Protocol Name" (VStr (strProtocol loc)) objConfig in
      let st := Save strSessionPath objConfig st in
      match OpenSessionConfiguration st strSessionPath with
      | None => Raised st
      | Some objConfig =>
          match objConfig !! "Protocol Name" with
          | None => Raised st
          | Some v =>
              if negb (is_text (strProtocol loc) v)
              then Return st ProtocolNotSet
              else
                match line_options h loc objConfig with
                | None => Raised st
                | Some (inl why) => Return st why
                | Some (inr objConfig) =>
                    let objConfig :=
                      if negb (g_bUseDefaultSessionOptions h)
                         && negb (contains "rdp" (lower (strProtocol loc)))
                      then custom_options h objConfig else objConfig in
                    let st := Save strSessionPath objConfig st in
                    let strCreated :=
                      if negb (String.eqb (g_strSessionsCreated st) "")
                      then g_strSessionsCreated st ++ NL
                      else g_strSessionsCreated st in
                    Go (add_created (strCreated ++ "    " ++ strSessionPath) st) tt
                end
          end
      end
  end.

(** Lines 649-985: what the loop does with a line after the header. *)
Definition import_data_line (h : Host) (strSessionName : string)
  (st : Globals) : Flow unit :=
  if is_empty (g_strDelimiter st) then Raised st else
  let vSessionInfo := split (g_strDelimiter st) (g_strLine st) in
  let nValues := length vSessionInfo in
  let nFields := length (g_vFieldsArray st) in
  if Nat.ltb nValues nFields then
    let st :=
      if String.eqb (strip (g_strLine st)) ""
      then set_line "[Empty Line]" st else st in
    Go (set_errors
          (NL ++ "Insufficient data on line #" ++ line_ref st ++
           g_strErrors st) st) tt
  else if Nat.ltb nFields nValues then
    let st := set_errors
      (g_strErrors st ++ NL ++ "==> Number of data fields on line #" ++
       fmt_04d (g_nCurLineNumber st) ++ " (" ++ fmt_d nValues ++ ") " ++
       "does not match the number of fields in the " ++
       "header (" ++ fmt_d nFields ++ ")." ++ CRLF ++
       "    This line will not be imported " ++
       "(Does the session name have a character " ++
       "that matches the delimiter you're using?):" ++
       CRLF ++ "        " ++ g_strLine st) st in
    Go (add_bogus_line st) tt
  else
    match normalize h strSessionName vSessionInfo st with
    | Go st loc =>
        if bSaveSession loc then create_session h st loc else Go st tt
    | Return st why => Return st why
    | Raised st => Raised st
    end.

(** ** The loop over the lines of the file *)

(** The loop of lines 619-1000.  [bFoundHeader] and [strSessionName] are the
    locals of [Import] that live from one round to the next; each round that
    ends sets [strSessionName] to the empty text (line 995) and counts the
    line (line 1000).  The first round takes the header branch, which reads
    neither. *)
Fixpoint import_lines (h : Host) (bFoundHeader : bool)
  (strSessionName : string) (lines : list string) (st : Globals)
  : Flow unit :=
  match lines with
  | [] => Go st tt
  | strLine :: lines' =>
      let st := set_line (strip_crlf strLine) st in
      let st := set_line_number (S (g_nCurLineNumber st)) st in
      let round :=
        if negb bFoundHeader
        then ValidateFieldDesignations h (g_strLine st) st
        else import_data_line h strSessionName st in
      match round with
      | Go st _ =>
          import_lines h true "" lines'
            (set_data_lines (S (g_nDataLines st)) st)
      | stop => stop
      end
  end.

(** The globals as the module sets them before [Import] runs, over the
    sessions the host has. *)
Definition initial (store : gmap string (gmap string OptVal)) : Globals :=
  {| g_strDelimiter := ","; g_vFieldsArray := [];
     g_strDefaultProtocol := ""; g_strDefaultFolder := "";
     g_strDefaultUsername := ""; g_strLine := ""; g_nCurLineNumber := 0;
     g_strErrors := ""; g_strBogusLinesNotImported := "";
     g_strSessionsCreated := ""; g_nSessionsCreated := 0;
     g_nDataLines := 0; sessions := store |}.

(** [Import] up to the end of its loop: [file] is the lines of the chosen
    file, or nothing when the dialog was closed without one. *)
Definition Import (h : Host) (file : option (list string))
  (store : gmap string (gmap string OptVal)) : Flow unit :=
  match file with
  | None => Return (initial store) NoFileChosen
  | Some lines =>
      if (dialog_msgbox h =? 2)%Z then Return (initial store) Cancelled
      else import_lines h false "" lines (set_line_number 0 (initial store))
  end.

(** ** The report and the log file *)

(** What the end of [Import] reads from the machine: the two folders of the
    user, the time stamp taken when the script starts, the seconds the run
    took as ["%2.3f"] prints them, what SecureCRT makes of a path option
    when it loads a configuration, and the file system as the loop of lines
    1047-1058 meets it: whether [open(strFilename, "w")] goes through, and
    whether [os.path.isfile(strFilename)] holds after the attempt. *)
Record Desk : Type := {
  g_strMyDocs : string;
  g_strMyDesktop : string;
  g_strDateTimeTag : string;
  strTimeElapsed : string;
  load_path : OptVal -> OptVal;
  open_w : string -> bool;
  isfile : string -> bool
}.

(** [GetConfigPath] (lines 319-351).  [GetOption] raises for an option the
    configuration does not have, which is the result [None] here. *)
Definition GetConfigPath (m : Desk) (st : Globals) : option (string * Globals) :=
  match OpenSessionConfiguration st "Default" with
  | None => None
  | Some objConfig =>
      let strOptionName := "Upload Directory V2" in
      match objConfig !! strOptionName with
      | None => None
      | Some v =>
          let strOrigValue := load_path m v in
          let objConfig :=
            SetOption strOptionName (VStr "${VDS_CONFIG_PATH}") objConfig in
          let st := Save "Default" objConfig st in
          match OpenSessionConfiguration st "Default" with
          | None => None
          | Some objConfig =>
              match objConfig !! strOptionName with
              | None => None
              | Some v =>
                  let strConfigPath := str_of (load_path m v) in
                  let objConfig :=
                    SetOption strOptionName strOrigValue objConfig in
                  Some (strConfigPath, Save "Default" objConfig st)
              end
          end
      end
  end.

(** [c * n] for a character. *)
Fixpoint times (c : ascii) (n : nat) : string :=
  match n with
  | O => EmptyString
  | S k => String c (times c k)
  end.

(** Lines 1003-1037: the text of the report, from the globals the loop
    leaves and the header line [strFieldDesignations]. *)
Definition report (m : Desk) (strFieldDesignations : string) (st : Globals)
  : string :=
  let strResults :=
    "Import operation completed in " ++ strTimeElapsed m ++ " seconds." in
  let strResults :=
    if Nat.ltb 0 (g_nSessionsCreated st) then
      (strResults ++ CRLF ++ times "-" 70 ++ CRLF ++
       "Number of Sessions created: " ++ fmt_d (g_nSessionsCreated st) ++ CRLF)
      ++ CRLF ++ g_strSessionsCreated st
    else
      strResults ++ CRLF ++ times "-" 70 ++ CRLF ++
      "No sessions were created from " ++ fmt_d (g_nDataLines st) ++
      " lines of data." in
  let strResults :=
    if String.eqb (g_strErrors st) "" then
      "No errors/warnings encountered from the import operation." ++
      CRLF ++ CRLF ++ strResults
    else
      "Errors/warnings from this operation include: " ++ CRLF ++
      g_strErrors st ++ CRLF ++ times "-" 70 ++ CRLF ++ strResults ++
      CRLF ++ CRLF in
  if negb (String.eqb (g_strBogusLinesNotImported st) "") then
    "The following lines from the data file were *not* imported for " ++
    "various reasons detailed below:" ++ CRLF ++
    times "=" 70 ++ CRLF ++
    strFieldDesignations ++
    g_strBogusLinesNotImported st ++ CRLF ++
    times "-" 70 ++ CRLF ++
    "Fix the above lines to resolve the issues and save " ++
    "the fixed lines to a new file. You can then run this " ++
    "script again to import these skipped sessions." ++ CRLF ++ CRLF ++
    strResults
  else strResults.

(** The name of the log file in a folder (lines 1040-1042). *)
Definition log_name (m : Desk) (strFolder : string) : string :=
  replace "\" "/"
    (strFolder ++ "/__SecureCRT-Session-ImportLog-" ++ g_strDateTimeTag m ++ ".txt").

(** The loop of lines 1047-1058 over the names that are left, with the
    locals [objFile] (the name of the file it stands for, when it is
    bound), [bSuccess], [strFilename] and [strResults]. *)
Fixpoint open_results (m : Desk) (cFilenames : list string)
  (objFile : option string) (bSuccess : bool) (strFilename strResults : string)
  : option string * bool * string * string :=
  match cFilenames with
  | [] => (objFile, bSuccess, strFilename, strResults)
  | strFilename :: rest =>
      let '(objFile, bSuccess, strResults) :=
        if open_w m strFilename then (Some strFilename, true, strResults)
        else (objFile, bSuccess,
              strResults ++ NL ++
              "Failed to write summary results to: " ++ strFilename) in
      if negb (isfile m strFilename)
      then open_results m rest objFile false strFilename strResults
      else (objFile, bSuccess, strFilename, strResults)
  end.

(** Where the report ends up: in the file [objFile] stands for, with
    [strFilename] handed to [OpenPathInDefaultApp]; in the clipboard; or
    nowhere, when [objFile.write] meets an [objFile] that was never
    bound. *)
Inductive Outcome : Type :=
| LogFile (objFile text strFilename : string)
| Clipboard (text : string)
| NoLogFile.

(** Lines 1045-1078. *)
Definition save_results (m : Desk) (cFilenames : list string)
  (strFilename strResults : string) : Outcome :=
  let '(objFile, bSuccess, strFilename, strResults) :=
    open_results m cFilenames None false strFilename strResults in
  if negb bSuccess then
    Clipboard (if contains ":\" (g_strMyDocs m)
               then replace NL CRLF strResults else strResults)
  else
    match objFile with
    | Some f => LogFile f (replace CRLF NL strResults) strFilename
    | None => NoLogFile
    end.

(** Lines 1002-1079: what [Import] does after the loop.  Nothing when
    [GetConfigPath] raises. *)
Definition write_report (m : Desk) (strFieldDesignations : string)
  (st : Globals) : option (Outcome * Globals) :=
  let strResults := report m strFieldDesignations st in
  let strFilename :=
    g_strMyDocs m ++ "/__SecureCRT-Session-ImportLog-" ++
    g_strDateTimeTag m ++ ".txt" in
  match GetConfigPath m st with
  | None => None
  | Some (strConfigPath, st) =>
      Some (save_results m
              [log_name m (g_strMyDocs m); log_name m (g_strMyDesktop m);
               log_name m strConfigPath]
              strFilename strResults, st)
  end.

(** The script from its first line to its last, which is the call of
    [Import]: the loop over the lines of the file and, when the loop comes
    to its end, the report.  The header line that the report may quote is
    the first line of the file; with no line in the file the report does
    not read it, for no line was refused.  An [objFile] that was never
    bound makes [objFile.write] raise. *)
Definition script (h : Host) (m : Desk) (file : option (list string))
  (store : gmap string (gmap string OptVal)) : Flow Outcome :=
  match Import h file store with
  | Go st _ =>
      let strFieldDesignations :=
        match file with
        | Some (strLine :: _) => strip_crlf strLine
        | _ => ""
        end in
      match write_report m strFieldDesignations st with
      | Some (NoLogFile, st) => Raised st
      | Some (outcome, st) => Go st outcome
      | None => Raised st
      end
  | Return st why => Return st why
  | Raised st => Raised st
  end.

(** ** Notions the properties are stated with *)

(** What reading a line may change in the globals before a session is
    saved: the error text and the list of lines not imported, nothing
    else. *)
Definition only_report (st st' : Globals) : Prop :=
  g_strDelimiter st' = g_strDelimiter st /\
  g_vFieldsArray st' = g_vFieldsArray st /\
  g_strDefaultProtocol st' = g_strDefaultProtocol st /\
  g_strDefaultFolder st' = g_strDefaultFolder st /\
  g_strDefaultUsername st' = g_strDefaultUsername st /\
  g_strLine st' = g_strLine st /\
  g_nCurLineNumber st' = g_nCurLineNumber st /\
  g_strSessionsCreated st' = g_strSessionsCreated st /\
  g_nSessionsCreated st' = g_nSessionsCreated st /\
  g_nDataLines st' = g_nDataLines st /\
  sessions st' = sessions st.

(** The reserved device names as the specification lists them, and what it
    is for a name to be one of them whatever the case of its letters. *)
Definition reserved_names : list string :=
  ["CON"; "PRN"; "AUX"; "NUL";
   "COM0"; "COM1"; "COM2"; "COM3"; "COM4"; "COM5"; "COM6"; "COM7"; "COM8"; "COM9";
   "LPT0"; "LPT1"; "LPT2"; "LPT3"; "LPT4"; "LPT5"; "LPT6"; "LPT7"; "LPT8"; "LPT9"].

Definition reserved (name : string) : Prop :=
  In (lower name) (map lower reserved_names).

(** The characters no name may hold, as the specification lists them. *)
Definition disallowed : list ascii :=
  ["|"; ":"; "*"; "?"; DQUOTE; "<"; ">"]%char.

(** [name] is a segment of [path]: one of the pieces between its slashes. *)
Definition segment (name path : string) : Prop := In name (split "/" path).

(** The verdict of the validator, without the texts it writes. *)
Definition name_ok (h : Host) (strComponent strType : string) : bool :=
  let folder := String.eqb (lower strType) "folder" in
  match search_class (if folder then g_objReFolders else g_objReSession) strComponent with
  | Some _ => false
  | None =>
      if sys_getwindowsversion h then
        match (if folder then g_objReSpecialsFolders (pad_folder strComponent)
               else g_objReSpecialsSession strComponent) with
        | Some _ => false
        | None => true
        end
      else true
  end.

(** The verdict of the gate, without the texts it writes. *)
Definition protocol_ok (h : Host) (strProtocol : string) : bool :=
  if contains "rdp" (lower strProtocol)
  then negb (g_nMajorVersion h <? 9)%Z && sys_platform_win32 h
  else true.

(** The text the gate puts in front of the errors when it refuses. *)
Definition rdp_refusal (h : Host) (st : Globals) : string :=
  (if (g_nMajorVersion h <? 9)%Z then rdp_needs_version else rdp_needs_windows)
  ++ CRLF ++ String TAB "Session data on line line #" ++
  fmt_d (g_nCurLineNumber st) ++ " will not be imported." ++ ": " ++
  g_strLine st ++ g_strErrors (break_errors st).

(** The globals a function leaves, however it ends. *)
Definition final_state {A : Type} (r : Flow A) : Globals :=
  match r with
  | Go st _ => st
  | Return st _ => st
  | Raised st => st
  end.



(** The answer of the script to the question which delimiter the header
    is split by (lines 357-376): the one it has when the header holds it,
    else the one typed at the prompt, [NONE] standing for the one it has,
    and none at all when nothing is typed. *)
Definition delimiter_in_effect (h : Host) (st : Globals) (strFields : string)
  : option string :=
  if contains (g_strDelimiter st) strFields then Some (g_strDelimiter st)
  else if String.eqb (dialog_prompt h) "" then None
  else if String.eqb (dialog_prompt h) "NONE" then Some (g_strDelimiter st)
  else Some (dialog_prompt h).

(** Two states of the globals with the same header: the delimiter, the
    field names and the three defaults. *)
Definition same_schema (a b : Globals) : Prop :=
  g_strDelimiter a = g_strDelimiter b /\
  g_vFieldsArray a = g_vFieldsArray b /\
  g_strDefaultProtocol a = g_strDefaultProtocol b /\
  g_strDefaultFolder a = g_strDefaultFolder b /\
  g_strDefaultUsername a = g_strDefaultUsername b.

(** The locals a line is saved from (line 832 and the default of line 843),
    for a line read in the globals [st]; nothing when the line is not
    saved. *)
Definition record_of_line (h : Host) (st : Globals) (strLine : string)
  : option Locals :=
  let st := set_line (strip_crlf strLine) st in
  let values := split (g_strDelimiter st) (g_strLine st) in
  if Nat.eqb (length values) (length (g_vFieldsArray st)) then
    match normalize h "" values st with
    | Go st' loc =>
        if bSaveSession loc then Some (default_username st' loc) else None
    | _ => None
    end
  else None.

(** Two runs of a function agree: they end the same way, with the same
    locals. *)
Definition agree (r1 r2 : Flow Locals) : Prop :=
  match r1, r2 with
  | Go st1 loc1, Go st2 loc2 => loc1 = loc2 /\ same_schema st1 st2
  | Return st1 why1, Return st2 why2 => why1 = why2
  | Raised _, Raised _ => True
  | _, _ => False
  end.

(** [c in s] for one character. *)
Fixpoint has_char (c : ascii) (s : string) : bool :=
  match s with
  | EmptyString => false
  | String x s' => Ascii.eqb c x || has_char c s'
  end.

(** What the fields of a line and the validators may change in the globals:
    the error text only, or the error text and the list of lines not
    imported. *)
Definition only_errors (st st' : Globals) : Prop :=
  only_report st st' /\
  g_strBogusLinesNotImported st' = g_strBogusLinesNotImported st.

(** Is [s] made of decimal digits only? *)
Fixpoint decimal (s : string) : bool :=
  match s with
  | EmptyString => true
  | String c s' => is_digit c && decimal s'
  end.

(** What the header and the lines leave alone between them: the header
    changes the delimiter, the field names and the defaults only. *)
Definition only_schema (st st' : Globals) : Prop :=
  g_strLine st' = g_strLine st /\
  g_nCurLineNumber st' = g_nCurLineNumber st /\
  g_strErrors st' = g_strErrors st /\
  g_strBogusLinesNotImported st' = g_strBogusLinesNotImported st /\
  g_strSessionsCreated st' = g_strSessionsCreated st /\
  g_nSessionsCreated st' = g_nSessionsCreated st /\
  g_nDataLines st' = g_nDataLines st /\
  sessions st' = sessions st.

(** The error text and [bSaveSession] against the error text [e0] that the
    line found. *)
Definition explained (e0 : string) (st : Globals) (loc : Locals) : Prop :=
  if bSaveSession loc then g_strErrors st = e0
  else String.length e0 < String.length (g_strErrors st).

(** The text that the list of lines not imported gets for [lines]: each of
    them behind a line break. *)
Fixpoint listing (lines : list string) : string :=
  match lines with
  | [] => ""
  | strLine :: lines' => CRLF ++ strLine ++ listing lines'
  end.

(** How many of the three validators refuse the locals of a line. *)
Definition refusals (h : Host) (loc : Locals) : nat :=
  Nat.b2n (negb (name_ok h (strSessionName loc) "session")) +
  Nat.b2n (negb (name_ok h (strFolderOrig loc) "folder")) +
  Nat.b2n (negb (protocol_ok h (strProtocol loc))).

(** The lines of [lines], each as often as [ks] says. *)
Fixpoint copies (lines : list string) (ks : list nat) : list string :=
  match lines, ks with
  | strLine :: lines', k :: ks' => repeat strLine k ++ copies lines' ks'
  | _, _ => []
  end.

(** The ways [create_session] ends: before anything is saved; after the
    session was saved with its protocol only, with an exception or with a
    [return]; and after it was saved with all its options and put on the
    list of sessions created. *)
Definition create_session_ends (h : Host) (st : Globals) (loc : Locals)
  (r : Flow unit) : Prop :=
  let strSessionPath := session_path h st loc in
  r = Raised st \/
  (exists c, r = Raised (Save strSessionPath c st)) \/
  (exists c why, r = Return (Save strSessionPath c st) why) \/
  (exists c0 c,
     r = Go (add_created
               ((if negb (String.eqb (g_strSessionsCreated st) "")
                 then g_strSessionsCreated st ++ NL
                 else g_strSessionsCreated st) ++ "    " ++ strSessionPath)
               (Save strSessionPath c (Save strSessionPath c0 st))) tt).

(** [g_strSessionsCreated] for the sessions saved at [paths]: one line for
    each, four blanks in front. *)
Definition created_text (paths : list string) : string :=
  String.concat NL (map (fun strSessionPath => "    " ++ strSessionPath) paths).

(** The list of sessions created names, one to a line, as many paths as
    sessions were counted, and the store has a session at each. *)
Definition created_listed (st : Globals) : Prop :=
  exists paths,
    g_nSessionsCreated st = length paths /\
    g_strSessionsCreated st = created_text paths /\
    Forall (fun strSessionPath => is_Some (sessions st !! strSessionPath)) paths.

(** The names the emulation column may hold, in lower case, and what the
    script makes of each (lines 742-771). *)
Definition emulations : list (string * string) :=
  [("xterm", "Xterm"); ("vt100", "VT100"); ("vt102", "VT102");
   ("vt220", "VT220"); ("vt320", "VT320"); ("ansi", "ANSI");
   ("linux", "Linux"); ("scoansi", "SCOANSI"); ("vshell", "VShell");
   ("wyse50", "WYSE50"); ("wyse60", "WYSE60")].

(** The lines of the description as [create_session] writes them (lines
    878-880): none for an empty description. *)
Definition description_lines (loc : Locals) : list string :=
  if String.eqb (strDescription loc) "" then []
  else split (String CR "") (strDescription loc).

(** The options that the script's own settings write (lines 934-975). *)
Definition custom_option_names : list string :=
  ["ANSI Color"; "Color Scheme"; "Color Scheme Overrides Ansi Color";
   "Auto Reconnect"; "Start Log Upon Connect"; "Rows"; "Cols";
   "Use Word Delimiter Chars"; "Word Delimiter Chars"; "Scrollback";
   "Key Exchange Algorithms"; "Idle NO-OP Check"; "Idle NO-OP Timeout";
   "Auth Prompts in Window"].

(** The options that hold the values of a line. *)
Definition line_option_names : list string :=
  ["Description"; "Script Filename V2"; "Use Script File"; "Emulation";
   "Hostname"; "Username"; "[SSH2] Port"; "[SSH1] Port"; "Port"].

(** How often [d] stands in [s]. *)
Fixpoint count_char (d : ascii) (s : string) : nat :=
  match s with
  | EmptyString => 0
  | String c s' => (if Ascii.eqb d c then 1 else 0) + count_char d s'
  end.

(** The lines the loop adds to the report for the names it could not
    open. *)
Fixpoint failures (m : Desk) (cFilenames : list string) : string :=
  match cFilenames with
  | [] => ""
  | strFilename :: rest =>
      (if open_w m strFilename then ""
       else NL ++ "Failed to write summary results to: " ++ strFilename)
      ++ failures m rest
  end.

(** ** Sample hosts, stores and files *)

(** A store with the Default session only, a host of a given major version
    that is or is not Windows, and the lines of a file as Python reads
    them, each with its newline. *)
Definition sample_store : gmap string (gmap string OptVal) :=
  {[ "Default" := {[ "Protocol Name" := VStr "SSH2" ]} ]}.

Definition sample_host (major : Z) (windows : bool) : Host :=
  {| g_nMajorVersion := major; sys_getwindowsversion := windows;
     sys_platform_win32 := windows; int_max_str_digits := 4300;
     g_bOverwriteExistingSessions := false;
     dialog_prompt := ""; dialog_msgbox := 6;
     now_tag := fun _ => "20210625_120000.000" |}.

Definition file_of (lines : list string) : option (list string) :=
  Some (map (fun strLine => strLine ++ NL) lines).

(** The globals after the header [fields] was read on line 1, over the
    sample store. *)
Definition after_header (fields : list string) (strLine : string) : Globals :=
  set_line strLine
    (set_line_number 2 (set_fields fields (initial sample_store))).

(** A machine whose folders cannot be written to ([writable] false) or can,
    with a Windows home folder; SecureCRT reads the moniker of the
    configuration folder as [/cfg]. *)
Definition sample_desk (writable : bool) : Desk :=
  {| g_strMyDocs := "C:\Users\me/Documents";
     g_strMyDesktop := "C:\Users\me/Desktop";
     g_strDateTimeTag := "20210625_120000.000";
     strTimeElapsed := "0.004";
     load_path := fun v => if is_text "${VDS_CONFIG_PATH}" v
                           then VStr "/cfg" else v;
     open_w := fun _ => writable;
     isfile := fun _ => writable |}.

(** A store whose Default session has the option [GetConfigPath] uses. *)
Definition sample_store_with_upload : gmap string (gmap string OptVal) :=
  {[ "Default" := {[ "Protocol Name" := VStr "SSH2";
                     "Upload Directory V2" := VStr "/tmp" ]} ]}.

(** * Properties *)

(** ** The text primitives on sample texts *)

Example split_csv :
  Py.split "," "hostname,username,folder,protocol=SSH2"
  = ["hostname"; "username"; "folder"; "protocol=SSH2"].
Proof. reflexivity. Qed.

Example split_trailing : Py.split "," "192.168.0.3,root,_imported/folderA,"
  = ["192.168.0.3"; "root"; "_imported/folderA"; ""].
Proof. reflexivity. Qed.

Example split_wide : Py.split "|||" "a|||b||c||||d" = ["a"; "b||c"; "|d"].
Proof. reflexivity. Qed.

Example replace_all : Py.replace "ab" "x" "abcabab" = "xcxx".
Proof. reflexivity. Qed.

Example strip_both : Py.strip "  a b  " = "a b".
Proof. reflexivity. Qed.

Example fmt_line : Py.fmt_04d 7 = "0007" /\ Py.fmt_04d 250 = "0250".
Proof. split; reflexivity. Qed.

(** The no-break space (160) and the next line control (133) are blanks. *)
Example strip_latin : Py.strip (String "160" "a b" ++ String "133" "") = "a b".
Proof. reflexivity. Qed.

(** The superscript two (178) is a digit and no decimal digit. *)
Example isdigit_texts :
  Py.isdigit "0123" = true /\ Py.isdigit (String "178" "") = true /\
  Py.isdigit "12a" = false /\ Py.isdigit "-1" = false /\ Py.isdigit "" = false.
Proof. repeat split; reflexivity. Qed.

Example int_texts :
  Py.int 4300 "0022" = Some 22%Z /\ Py.int 4300 " 42 " = Some 42%Z /\
  Py.int 4300 "-7" = Some (-7)%Z /\ Py.int 4300 "1_000" = Some 1000%Z /\
  Py.int 4300 (String "178" "") = None /\ Py.int 4300 "" = None /\
  Py.int 4300 "1__0" = None /\ Py.int 4300 "_1" = None /\
  Py.int 4300 "1 2" = None /\ Py.int 4300 (String "031" "1") = None.
Proof. repeat split; reflexivity. Qed.

(** Capital E with acute (201) and its small letter (233); the sharp s
    (223). *)
Example lower_upper_latin :
  Py.lower (String "201" "A") = String "233" "a" /\
  Py.upper (String "233" "a") = String "201" "A" /\
  Py.upper (String "223" "h2") = "SSH2".
Proof. repeat split; reflexivity. Qed.

(** ** Text *)

Lemma is_empty_true (s : string) : is_empty s = true <-> s = "".
Proof. destruct s; simpl; split; congruence. Qed.

Lemma eqb_empty (s : string) : String.eqb s "" = is_empty s.
Proof. destruct s; reflexivity. Qed.

Lemma append_cons (c : ascii) (s t : string) : String c s ++ t = String c (s ++ t).
Proof. reflexivity. Qed.

Lemma append_nil_l (t : string) : "" ++ t = t.
Proof. reflexivity. Qed.

Lemma append_nil_r (s : string) : s ++ "" = s.
Proof. induction s as [|c s IH]; [reflexivity|]. now rewrite append_cons, IH. Qed.

Lemma append_assoc (a b c : string) : (a ++ b) ++ c = a ++ b ++ c.
Proof.
  induction a as [|x a IH]; [reflexivity|]. now rewrite !append_cons, IH.
Qed.

Lemma isspace_lower_char (c : ascii) : isspace (lower_char c) = isspace c.
Proof. destruct c as [[] [] [] [] [] [] [] []]; reflexivity. Qed.

Lemma lower_char_idem (c : ascii) : lower_char (lower_char c) = lower_char c.
Proof. destruct c as [[] [] [] [] [] [] [] []]; reflexivity. Qed.

Lemma is_empty_map_str f (s : string) : is_empty (map_str f s) = is_empty s.
Proof. destruct s; reflexivity. Qed.

Lemma lstrip_by_map_str p f (s : string) :
  (forall c, p (f c) = p c) ->
  lstrip_by p (map_str f s) = map_str f (lstrip_by p s).
Proof.
  intros Hp. induction s as [|c s IH]; simpl; [reflexivity|].
  rewrite Hp. destruct (p c); [exact IH | reflexivity].
Qed.

Lemma rstrip_by_map_str p f (s : string) :
  (forall c, p (f c) = p c) ->
  rstrip_by p (map_str f s) = map_str f (rstrip_by p s).
Proof.
  intros Hp. induction s as [|c s IH]; simpl; [reflexivity|].
  rewrite Hp, IH, is_empty_map_str.
  destruct (p c && is_empty (rstrip_by p s)); reflexivity.
Qed.

(** Trimming and lowering can be done in either order: the script does
    both, [x.strip().lower()] for labels and [x.lower().strip()] for the
    protocol and emulation values. *)
Lemma strip_lower (s : string) : strip (lower s) = lower (strip s).
Proof.
  unfold strip, strip_by, lower.
  rewrite lstrip_by_map_str by apply isspace_lower_char.
  apply rstrip_by_map_str, isspace_lower_char.
Qed.

Lemma lower_idem (s : string) : lower (lower s) = lower s.
Proof.
  unfold lower. induction s as [|c s IH]; simpl; [reflexivity|].
  now rewrite lower_char_idem, IH.
Qed.

(** ** The version gate of VT320 *)

(** The emulation branch on the lowered and trimmed value [vt320]: it is
    refused below version 8, with the error text of line 754 put
    in front of [g_strErrors] and [bSaveSession] cleared, and becomes
    [VT320] from version 8 on, with nothing else touched. *)
Lemma import_emulation_vt320 (h : Host) (value : string) (st : Globals)
  (loc : Locals) :
  strip (lower value) = "vt320" ->
  import_emulation h value st loc =
    if (g_nMajorVersion h <? 8)%Z
    then (set_errors
            (NL ++ vt320_too_old ++ "Session specified on line #" ++
             fmt_04d (g_nCurLineNumber st) ++ " is invalid: " ++
             g_strLine st ++ g_strErrors st) st,
          set_save false (set_emulation "vt320" loc))
    else (st, set_emulation "VT320" loc).
Proof.
  intros Hv. unfold import_emulation. rewrite Hv.
  repeat match goal with
         | |- context [String.eqb "vt320" ?s] =>
             change (String.eqb "vt320" s) with false
         end.
  change (String.eqb "vt320" "vt320") with true. cbv iota.
  destruct (g_nMajorVersion h <? 8)%Z; reflexivity.
Qed.

(** ** The loop over the fields *)

Ltac case_if :=
  match goal with
  | |- context [if ?b then _ else _] => destruct b eqn:?
  | H : context [if ?b then _ else _] |- _ => destruct b eqn:?
  end.

Ltac flow_inv :=
  repeat match goal with
         | H : Go _ _ = Go _ _ |- _ => inversion H; subst; clear H
         | H : (_, _) = (_, _) |- _ => inversion H; subst; clear H
         | H : Return _ _ = Go _ _ |- _ => discriminate H
         | H : Raised _ = Go _ _ |- _ => discriminate H
         end.

(** No field sets [bSaveSession] again once it is cleared. *)
Lemma import_protocol_save value st loc st' loc' :
  import_protocol value st loc = (st', loc') ->
  bSaveSession loc' = true -> bSaveSession loc = true.
Proof.
  unfold import_protocol. intros H Hs.
  repeat case_if; flow_inv; simpl in Hs; congruence.
Qed.

Lemma import_emulation_save h value st loc st' loc' :
  import_emulation h value st loc = (st', loc') ->
  bSaveSession loc' = true -> bSaveSession loc = true.
Proof.
  unfold import_emulation. intros H Hs.
  repeat case_if; flow_inv; simpl in Hs; congruence.
Qed.

Lemma import_field_save h strField value st loc st' loc' :
  import_field h strField value st loc = Go st' loc' ->
  bSaveSession loc' = true -> bSaveSession loc = true.
Proof.
  unfold import_field. intros H Hs.
  destruct (field_kind (lower (strip strField)));
    try (repeat case_if; flow_inv; simpl in Hs; congruence).
  - destruct (import_protocol value st loc) as [st1 loc1] eqn:E. flow_inv.
    eapply import_protocol_save; eauto.
  - destruct (import_emulation h value st loc) as [st1 loc1] eqn:E. flow_inv.
    eapply import_emulation_save; eauto.
Qed.

(** A property of the locals that every round of the loop keeps holds when
    the loop ends. *)
Lemma import_fields_inv (J : Locals -> Prop) h fields values :
  forall st loc st' loc',
  (forall strField value st0 loc0 st1 loc1,
     In (strField, value) (combine fields values) ->
     import_field h strField value st0 loc0 = Go st1 loc1 ->
     J loc0 -> J loc1) ->
  J loc ->
  import_fields h fields values st loc = Go st' loc' ->
  J loc'.
Proof.
  revert values.
  induction fields as [|f fields IH]; intros [|v values] st loc st' loc' Hstep HJ H;
    simpl in H; flow_inv; auto.
  destruct (import_field h f v st loc) as [st1 loc1| |] eqn:E; try discriminate.
  eapply (IH values st1 loc1); eauto.
  - intros; eapply Hstep; eauto. right; assumption.
  - eapply Hstep; eauto. left; reflexivity.
Qed.

Lemma import_fields_save h fields values st loc st' loc' :
  import_fields h fields values st loc = Go st' loc' ->
  bSaveSession loc' = true -> bSaveSession loc = true.
Proof.
  revert values st loc.
  induction fields as [|f fields IH]; intros [|v values] st loc H Hs;
    simpl in H; flow_inv; auto.
  destruct (import_field h f v st loc) as [st1 loc1| |] eqn:E; try discriminate.
  eapply import_field_save; eauto.
Qed.

(** A column whose round clears [bSaveSession] rejects the line. *)
Lemma import_fields_reject h fields values strField value :
  In (strField, value) (combine fields values) ->
  (forall st0 loc0 st1 loc1,
     import_field h strField value st0 loc0 = Go st1 loc1 ->
     bSaveSession loc1 = false) ->
  forall st loc st' loc',
  import_fields h fields values st loc = Go st' loc' ->
  bSaveSession loc' = false.
Proof.
  intros Hin Hrej. revert values Hin.
  induction fields as [|f fields IH]; intros [|v values] Hin st loc st' loc' H;
    simpl in Hin; try contradiction.
  simpl in H.
  destruct (import_field h f v st loc) as [st1 loc1| |] eqn:E; try discriminate.
  destruct Hin as [Heq | Hin].
  - inversion Heq; subst.
    destruct (bSaveSession loc') eqn:Hs; [|reflexivity].
    apply (import_fields_save _ _ _ _ _ _ _ H) in Hs.
    rewrite (Hrej _ _ _ _ E) in Hs. discriminate.
  - eapply IH; eauto.
Qed.

Lemma only_report_refl st : only_report st st.
Proof. unfold only_report; repeat split; reflexivity. Qed.

Lemma only_report_trans st1 st2 st3 :
  only_report st1 st2 -> only_report st2 st3 -> only_report st1 st3.
Proof. unfold only_report; intuition congruence. Qed.

Ltac report_frame := unfold only_report; simpl; repeat split; reflexivity.

Lemma break_errors_frame st : only_report st (break_errors st).
Proof. unfold break_errors. case_if; report_frame. Qed.

Lemma ValidateSessionFolderComponent_frame h strComponent strType st :
  only_report st (snd (ValidateSessionFolderComponent h strComponent strType st)).
Proof.
  unfold ValidateSessionFolderComponent, break_errors.
  repeat (case_if || match goal with
                      | |- context [match ?e with Some _ => _ | None => _ end] =>
                          destruct e
                      end); report_frame.
Qed.

Lemma ValidateProtocolComponent_frame h strProtocol st :
  only_report st (snd (ValidateProtocolComponent h strProtocol st)).
Proof.
  unfold ValidateProtocolComponent, break_errors.
  repeat case_if; report_frame.
Qed.

Lemma import_field_frame h strField value st loc st' loc' :
  import_field h strField value st loc = Go st' loc' -> only_report st st'.
Proof.
  unfold import_field, import_protocol, import_emulation. intros H.
  destruct (field_kind (lower (strip strField)));
    repeat case_if; flow_inv; try discriminate; report_frame.
Qed.

Lemma import_fields_frame h fields values :
  forall st loc st' loc',
  import_fields h fields values st loc = Go st' loc' -> only_report st st'.
Proof.
  revert values.
  induction fields as [|f fields IH]; intros [|v values] st loc st' loc' H;
    simpl in H; flow_inv; try apply only_report_refl.
  destruct (import_field h f v st loc) as [st1 loc1| |] eqn:E; try discriminate.
  eapply only_report_trans; [eapply import_field_frame | eapply IH]; eauto.
Qed.

Lemma validate_record_frame h st loc :
  only_report st (fst (validate_record h st loc)).
Proof.
  unfold validate_record.
  set (loc1 := if String.eqb (strSessionName loc) "" then _ else _).
  pose proof (ValidateSessionFolderComponent_frame h (strSessionName loc1) "session" st) as F1.
  destruct (ValidateSessionFolderComponent h (strSessionName loc1) "session" st)
    as [ok1 st1]. simpl in F1.
  set (loc2 := if negb ok1 then _ else _).
  set (loc3 := if String.eqb (strFolderOrig loc2) "" then _ else _).
  pose proof (ValidateSessionFolderComponent_frame h (strFolderOrig loc3) "folder" st1) as F2.
  destruct (ValidateSessionFolderComponent h (strFolderOrig loc3) "folder" st1)
    as [ok2 st2]. simpl in F2.
  set (loc4 := if negb ok2 then _ else _).
  pose proof (ValidateProtocolComponent_frame h (strProtocol loc4) st2) as F3.
  destruct (ValidateProtocolComponent h (strProtocol loc4) st2) as [ok3 st3].
  simpl in *. eauto using only_report_trans.
Qed.

(** The three validators only ever clear [bSaveSession], and leave what the
    fields gave alone, but for the two defaults of lines 817-824. *)
Lemma validate_record_spec h st loc st' loc' :
  validate_record h st loc = (st', loc') ->
  (bSaveSession loc' = true -> bSaveSession loc = true) /\
  strSessionName loc' =
    (if String.eqb (strSessionName loc) "" then strHostName loc
     else strSessionName loc) /\
  strFolderOrig loc' =
    (if String.eqb (strFolderOrig loc) "" then g_strDefaultFolder st
     else strFolderOrig loc) /\
  strHostName loc' = strHostName loc /\ strPort loc' = strPort loc /\
  strProtocol loc' = strProtocol loc /\ strUserName loc' = strUserName loc /\
  strEmulation loc' = strEmulation loc /\ strFolder loc' = strFolder loc /\
  strDescription loc' = strDescription loc /\
  strLogonScript loc' = strLogonScript loc /\ strDomain loc' = strDomain loc.
Proof.
  unfold validate_record. intros H.
  set (loc1 := if String.eqb (strSessionName loc) "" then _ else _) in H.
  pose proof (ValidateSessionFolderComponent_frame h (strSessionName loc1) "session" st)
    as (_ & _ & _ & F & _).
  destruct (ValidateSessionFolderComponent h (strSessionName loc1) "session" st)
    as [ok1 st1]. simpl in F. rewrite F in H. clear F.
  repeat match type of H with
         | context [let '(_, _) := ?e in _] => destruct e as [[] ?]
         end;
    flow_inv; subst loc1; repeat case_if; simpl in *; repeat split; congruence.
Qed.

Lemma normalize_inv h strSessionName values st st' loc' :
  normalize h strSessionName values st = Go st' loc' ->
  exists st1 loc1,
    import_fields h (g_vFieldsArray st) values st (line_locals strSessionName)
      = Go st1 loc1 /\
    validate_record h st1 loc1 = (st', loc').
Proof.
  unfold normalize. intros H.
  destruct (import_fields h (g_vFieldsArray st) values st (line_locals strSessionName))
    as [st1 loc1| |]; try discriminate.
  destruct (validate_record h st1 loc1) as [st2 loc2] eqn:E. flow_inv. eauto.
Qed.

(** A column whose round clears [bSaveSession] keeps the line from being
    saved, whatever the other columns hold. *)
Lemma normalize_reject h strSessionName values st strField value :
  In (strField, value) (combine (g_vFieldsArray st) values) ->
  (forall st0 loc0 st1 loc1,
     import_field h strField value st0 loc0 = Go st1 loc1 ->
     bSaveSession loc1 = false) ->
  forall st' loc',
  normalize h strSessionName values st = Go st' loc' ->
  bSaveSession loc' = false.
Proof.
  intros Hin Hrej st' loc' H.
  apply normalize_inv in H as (st1 & loc1 & Hf & Hv).
  pose proof (import_fields_reject _ _ _ _ _ Hin Hrej _ _ _ _ Hf) as Hs.
  apply validate_record_spec in Hv as (Hm & _).
  destruct (bSaveSession loc'); [|reflexivity].
  rewrite Hm in Hs by reflexivity. discriminate.
Qed.

(** C6.  A column that takes the emulation branch and holds [vt320], in any
    case of letters and with blanks around it: below major version 8 the
    round puts the error text of line 754 in front of [g_strErrors] and
    clears [bSaveSession], so that a line with such a column is not saved;
    from major version 8 on the round sets the emulation to [VT320] and
    changes nothing else. *)
Theorem C6_vt320_version_gate (h : Host) (strField value : string)
  (st : Globals) (loc : Locals) :
  field_kind (lower (strip strField)) = FEmulation ->
  strip (lower value) = "vt320" ->
  ((g_nMajorVersion h < 8)%Z ->
     import_field h strField value st loc =
       Go (set_errors
             (NL ++ vt320_too_old ++ "Session specified on line #" ++
              fmt_04d (g_nCurLineNumber st) ++ " is invalid: " ++
              g_strLine st ++ g_strErrors st) st)
          (set_save false (set_emulation "vt320" loc)) /\
     forall strSessionName values st0 st' loc',
       In (strField, value) (combine (g_vFieldsArray st0) values) ->
       normalize h strSessionName values st0 = Go st' loc' ->
       bSaveSession loc' = false) /\
  ((8 <= g_nMajorVersion h)%Z ->
     import_field h strField value st loc = Go st (set_emulation "VT320" loc)).
Proof.
  intros Hk Hv.
  assert (Hf : forall st loc,
    import_field h strField value st loc =
      let '(st, loc) := import_emulation h value st loc in Go st loc).
  { intros. unfold import_field. rewrite Hk. reflexivity. }
  split.
  - intros Hlt. apply Z.ltb_lt in Hlt. split.
    + rewrite Hf, import_emulation_vt320, Hlt by assumption. reflexivity.
    + intros sn values st0 st' loc' Hin Hn.
      eapply normalize_reject; eauto.
      intros st1 loc1 st2 loc2.
      rewrite Hf, import_emulation_vt320, Hlt by assumption.
      intros E. flow_inv. reflexivity.
  - intros Hge. apply Z.ltb_ge in Hge.
    rewrite Hf, import_emulation_vt320, Hge by assumption. reflexivity.
Qed.

(** ** The protocol table *)

Lemma lower_strip_lower (s : string) : lower (strip (lower s)) = strip (lower s).
Proof. now rewrite strip_lower, lower_idem. Qed.

(** C3.  With [token] the value of the protocol column in lower case and
    without the blanks around it: [ssh2], [ssh1], [telnet] and [rlogin] give
    [SSH2], [SSH1], [Telnet] and [RLogin]; a token that contains [rdp] gives
    [RDP]; [serial] and [tapi] clear [bSaveSession] with the text
    "Unsupported protocol"; any other token gives the default protocol of
    the header when there is one, and otherwise clears [bSaveSession] with
    the text "Invalid protocol".  Each of [ssh2], [Ssh2] and [SSH2] gives
    [SSH2].  A field whose label takes the protocol branch does just this. *)
Theorem C3_protocol_table (value : string) (st : Globals) (loc : Locals) :
  let token := strip (lower value) in
  let accepted p := import_protocol value st loc = (st, set_protocol p loc) in
  let rejected msg :=
    import_protocol value st loc =
      (set_errors (NL ++ msg ++ Q ++ " specified on line #" ++ line_ref st ++
                   g_strErrors st) st,
       set_save false (set_protocol token loc)) in
  (token = "ssh2" -> accepted "SSH2") /\
  (token = "ssh1" -> accepted "SSH1") /\
  (token = "telnet" -> accepted "Telnet") /\
  (token = "rlogin" -> accepted "RLogin") /\
  (contains "rdp" token = true -> accepted "RDP") /\
  (token = "serial" \/ token = "tapi" ->
   rejected ("Error: Unsupported protocol " ++ Q ++ strip value)) /\
  (~ In token ["ssh2"; "ssh1"; "telnet"; "rlogin"; "serial"; "tapi"] ->
   contains "rdp" token = false ->
   (g_strDefaultProtocol st <> "" -> accepted (g_strDefaultProtocol st)) /\
   (g_strDefaultProtocol st = "" ->
    rejected ("Error: Invalid protocol " ++ Q ++ token))) /\
  (In value ["ssh2"; "Ssh2"; "SSH2"] -> accepted "SSH2") /\
  (forall h strField,
     field_kind (lower (strip strField)) = FProtocol ->
     import_field h strField value st loc =
       let '(st', loc') := import_protocol value st loc in Go st' loc').
Proof.
  cbv zeta. unfold import_protocol. rewrite lower_strip_lower.
  set (token := strip (lower value)).
  repeat split.
  - intros ->. reflexivity.
  - intros ->. reflexivity.
  - intros ->. reflexivity.
  - intros ->. reflexivity.
  - intros Hr. rewrite Hr.
    repeat match goal with
           | |- context [String.eqb token ?s] =>
               destruct (String.eqb_spec token s) as [E|_];
               [rewrite E in Hr; discriminate Hr|]
           end.
    reflexivity.
  - intros [-> | ->]; reflexivity.
  - intros Hd. apply String.eqb_neq in Hd. rewrite Hd.
    rewrite H0.
    repeat match goal with
           | |- context [String.eqb token ?s] =>
               destruct (String.eqb_spec token s) as [E|_];
               [exfalso; apply H; rewrite E; simpl; tauto|]
           end.
    reflexivity.
  - intros Hd. rewrite Hd, H0.
    repeat match goal with
           | |- context [String.eqb token ?s] =>
               destruct (String.eqb_spec token s) as [E|_];
               [exfalso; apply H; rewrite E; simpl; tauto|]
           end.
    reflexivity.
  - subst token. intros [<- | [<- | [<- | []]]]; reflexivity.
  - intros h strField Hk. unfold import_field. rewrite Hk.
    unfold import_protocol. rewrite lower_strip_lower. reflexivity.
Qed.

(** ** Name validation *)

Lemma search_class_found cls (s : string) (c : ascii) :
  In c (list_ascii_of_string s) -> cls c = true ->
  exists ch, search_class cls s = Some ch /\ cls ch = true.
Proof.
  induction s as [|c0 s IH]; simpl; [contradiction|].
  intros [-> | Hin] Hc.
  - rewrite Hc. eauto.
  - destruct (cls c0) eqn:E; eauto.
Qed.

Lemma is_digit_lower_char (c : ascii) : is_digit (lower_char c) = is_digit c.
Proof. destruct c as [[] [] [] [] [] [] [] []]; reflexivity. Qed.

(** The group of the two patterns matches a reserved name at the start of a
    text, and gives the name as it is written there. *)
Lemma match_special_reserved (name rest : string) :
  reserved name -> match_special (name ++ rest) = Some (name, rest).
Proof.
  unfold reserved.
  let l := eval vm_compute in (map lower reserved_names) in
  change (map lower reserved_names) with l.
  intros H.
  destruct name as [|c1 [|c2 [|c3 [|c4 [|c5 tl]]]]];
    simpl in H; try (exfalso; intuition discriminate).
  - (* three letters *)
    unfold match_special. simpl.
    repeat destruct H as [H | H]; try contradiction; try discriminate H;
      injection H as <- <- <-; reflexivity.
  - (* three letters and a digit *)
    unfold match_special. simpl.
    assert (Hd : is_digit c4 = true).
    { rewrite <- is_digit_lower_char.
      repeat destruct H as [H | H]; try contradiction; try discriminate H;
        injection H as _ _ _ <-; reflexivity. }
    rewrite Hd.
    repeat destruct H as [H | H]; try contradiction; try discriminate H;
      injection H as <- <- <- _; reflexivity.
Qed.

Lemma g_objReSpecialsSession_reserved (name : string) :
  reserved name -> g_objReSpecialsSession name = Some name.
Proof.
  intros H. unfold g_objReSpecialsSession.
  pose proof (match_special_reserved name "" H) as E.
  rewrite append_nil_r in E. rewrite E. reflexivity.
Qed.

Lemma g_objReSpecialsFolders_found (name a b : string) :
  reserved name ->
  g_objReSpecialsFolders (a ++ "/" ++ name ++ "/" ++ b) <> None.
Proof.
  intros H. induction a as [|c a IH].
  - rewrite append_nil_l. change ("/" ++ name ++ "/" ++ b)
      with (String "/" (name ++ String "/" b)).
    simpl. rewrite (match_special_reserved name (String "/" b) H).
    simpl. discriminate.
  - rewrite append_cons. simpl.
    destruct (if Ascii.eqb c "/" then _ else _) as [[w [|c' r]]|]; auto.
    destruct (Ascii.eqb c' "/"); [discriminate | auto].
Qed.

Lemma length_append (a b : string) :
  String.length (a ++ b) = String.length a + String.length b.
Proof.
  induction a as [|c a IH]; [reflexivity|].
  rewrite append_cons. simpl. now rewrite IH.
Qed.

Lemma reserved_head (name : string) :
  reserved name ->
  exists c rest, name = String c rest /\ Ascii.eqb c "/" = false /\
                 2 <= String.length rest.
Proof.
  unfold reserved.
  let l := eval vm_compute in (map lower reserved_names) in
  change (map lower reserved_names) with l.
  intros H. destruct name as [|c rest].
  - exfalso. simpl in H. intuition discriminate.
  - exists c, rest. split; [reflexivity|]. split.
    + destruct (Ascii.eqb_spec c "/") as [-> | _]; [|reflexivity].
      exfalso. simpl in H. intuition discriminate.
    + destruct rest as [|c2 [|c3 rest]]; simpl; try lia;
        exfalso; simpl in H; intuition discriminate.
Qed.

(** The pieces [split] gives for a separator of one character [d] stand
    between two [d] in the text: the first one at its start, the others
    after a [d]. *)
Lemma split_go_char (d : ascii) (s : string) :
  forall t ts, split_go (String d "") s 0 = (t, ts) ->
  (exists b, s ++ String d "" = t ++ String d b) /\
  (forall name, In name ts ->
     exists a b, s ++ String d "" = a ++ String d (name ++ String d b)).
Proof.
  induction s as [|c s IH]; intros t ts H.
  - simpl in H. flow_inv. split; [exists ""; reflexivity | intros ? []].
  - cbn [split_go startswith String.length Nat.sub] in H.
    destruct (split_go (String d "") s 0) as [t' ts'].
    destruct (IH t' ts' eq_refl) as [[b1 H1] H2].
    rewrite andb_true_r in H.
    destruct (Ascii.eqb_spec d c) as [<- | Hc].
    + flow_inv. split.
      * exists (s ++ String d ""). reflexivity.
      * intros name [<- | Hin].
        -- exists "", b1. rewrite append_cons, H1. reflexivity.
        -- destruct (H2 name Hin) as (a & b & E).
           exists (String d a), b. rewrite !append_cons, E. reflexivity.
    + flow_inv. split.
      * exists b1. rewrite !append_cons, H1. reflexivity.
      * intros name Hin. destruct (H2 name Hin) as (a & b & E).
        exists (String c a), b. rewrite !append_cons, E. reflexivity.
Qed.

Lemma split_between (d : ascii) (name s : string) :
  In name (split (String d "") s) ->
  exists a b, String d (s ++ String d "") = a ++ String d (name ++ String d b).
Proof.
  unfold split.
  destruct (split_go (String d "") s 0) as [t ts] eqn:E.
  destruct (split_go_char d s t ts E) as [[b1 H1] H2].
  intros [<- | Hin].
  - exists "", b1. rewrite H1. reflexivity.
  - destruct (H2 name Hin) as (a & b & E2).
    exists (String d a), b. rewrite E2. reflexivity.
Qed.

Lemma segment_between_slashes (name path : string) :
  segment name path ->
  exists a b, "/" ++ path ++ "/" = a ++ "/" ++ name ++ "/" ++ b.
Proof. apply split_between. Qed.

(** The padding of lines 509-512 puts a slash at either end of a folder
    path that has a reserved name as a segment, so that the pattern, which
    wants a slash on both sides, finds the name. *)
Lemma pad_folder_reserved (name path : string) :
  reserved name -> segment name path ->
  exists a b, pad_folder path = a ++ "/" ++ name ++ "/" ++ b.
Proof.
  intros Hr Hs.
  destruct (reserved_head name Hr) as (c1 & rest & -> & Hc1 & Hlen).
  destruct (segment_between_slashes _ _ Hs) as (a & b & E).
  pose proof (f_equal String.length E) as L.
  rewrite !length_append in L. cbn [String.length] in L.
  unfold pad_folder.
  destruct path as [|c p].
  - (* the empty path has no such segment *)
    exfalso. cbn [String.length] in L. lia.
  - cbn [take drop].
    change (String.eqb (String c "") "/") with (Ascii.eqb c "/" && true).
    rewrite andb_true_r.
    destruct (Ascii.eqb_spec c "/") as [-> | Hc]; cbn [negb].
    + (* the path starts with a slash: nothing is put in front *)
      cbn [drop].
      assert (Ha : exists a', a = String "/" a' /\
                 String "/" p ++ "/" = a' ++ "/" ++ String c1 rest ++ "/" ++ b).
      { destruct a as [|x a'].
        - rewrite append_nil_l in E.
          change ("/" ++ String "/" p ++ "/") with
            (String "/" (String "/" (p ++ "/"))) in E.
          change ("/" ++ String c1 rest ++ "/" ++ b) with
            (String "/" (String c1 (rest ++ "/" ++ b))) in E.
          injection E as E _. subst c1. discriminate Hc1.
        - change ("/" ++ String "/" p ++ "/") with
            (String "/" (String "/" p ++ "/")) in E.
          rewrite append_cons in E. injection E as <- E.
          exists a'. split; [reflexivity | exact E]. }
      destruct Ha as (a' & -> & E').
      destruct (String.eqb_spec p "/") as [-> | Hp]; cbn [negb].
      * exfalso. cbn [String.length] in L. lia.
      * exists a', b. exact E'.
    + (* a slash is put in front, and then one behind *)
      change ("/" ++ String c p) with (String "/" (String c p)). cbv iota.
      destruct (String.eqb_spec (String c p) "/") as [Hp | Hp]; cbn [negb].
      * injection Hp as -> _. contradiction.
      * exists a, b. exact E.
Qed.

Lemma ValidateSessionFolderComponent_fst h strComponent strType st :
  fst (ValidateSessionFolderComponent h strComponent strType st)
  = name_ok h strComponent strType.
Proof.
  unfold ValidateSessionFolderComponent, name_ok.
  destruct (search_class _ strComponent); [reflexivity|].
  destruct (sys_getwindowsversion h); [|reflexivity].
  destruct (if String.eqb (lower strType) "folder" then _ else _); reflexivity.
Qed.

(** A name that passes leaves the globals as they were; a name that does
    not puts the line on the list of lines not imported. *)
Lemma ValidateSessionFolderComponent_snd h strComponent strType st :
  let r := ValidateSessionFolderComponent h strComponent strType st in
  (fst r = true -> snd r = st) /\
  (fst r = false ->
   g_strBogusLinesNotImported (snd r)
   = g_strBogusLinesNotImported st ++ CRLF ++ g_strLine st).
Proof.
  cbv zeta. unfold ValidateSessionFolderComponent, break_errors.
  destruct (search_class _ strComponent).
  - split; [discriminate|]. intros _. case_if; reflexivity.
  - destruct (sys_getwindowsversion h); [|split; [reflexivity | discriminate]].
    destruct (if String.eqb (lower strType) "folder" then _ else _).
    + split; [discriminate|]. intros _. case_if; reflexivity.
    + split; [reflexivity | discriminate].
Qed.

Lemma disallowed_in_classes (c : ascii) :
  In c disallowed -> g_objReFolders c = true /\ g_objReSession c = true.
Proof.
  unfold disallowed. simpl.
  intros H; repeat destruct H as [H | H]; try contradiction; subst c;
    split; reflexivity.
Qed.

(** C8.  A session or folder name that holds one of the characters
    [| : * ? < >] or a double quote is rejected, and so is a session name
    that holds a slash.  Where the host has [sys.getwindowsversion], a
    session name that is a reserved name, and a folder path one of whose
    pieces between slashes is a reserved name, are rejected, whatever the
    case of the letters.  Where the host has not, the folder [CON] passes
    and nothing is written.  Every rejection puts the line on the list of
    lines not imported. *)
Theorem C8_name_validation (h : Host) (strComponent : string) (st : Globals) :
  let folder := ValidateSessionFolderComponent h strComponent "folder" st in
  let session := ValidateSessionFolderComponent h strComponent "session" st in
  (forall c, In c disallowed -> In c (list_ascii_of_string strComponent) ->
     fst folder = false /\ fst session = false) /\
  (In "/"%char (list_ascii_of_string strComponent) -> fst session = false) /\
  (sys_getwindowsversion h = true ->
     (reserved strComponent -> fst session = false) /\
     (forall name, reserved name -> segment name strComponent ->
        fst folder = false)) /\
  (sys_getwindowsversion h = false ->
     ValidateSessionFolderComponent h "CON" "folder" st = (true, st)) /\
  (forall strType,
     let r := ValidateSessionFolderComponent h strComponent strType st in
     fst r = false ->
     g_strBogusLinesNotImported (snd r)
     = g_strBogusLinesNotImported st ++ CRLF ++ g_strLine st).
Proof.
  cbv zeta. rewrite !ValidateSessionFolderComponent_fst. unfold name_ok.
  change (String.eqb (lower "folder") "folder") with true.
  change (String.eqb (lower "session") "folder") with false. cbv iota.
  repeat split.
  - destruct (disallowed_in_classes c H) as [Hf _].
    destruct (search_class_found g_objReFolders _ _ H0 Hf) as (ch & -> & _).
    reflexivity.
  - destruct (disallowed_in_classes c H) as [_ Hs].
    destruct (search_class_found g_objReSession _ _ H0 Hs) as (ch & -> & _).
    reflexivity.
  - intros Hin.
    destruct (search_class_found g_objReSession _ _ Hin eq_refl) as (ch & -> & _).
    reflexivity.
  - intros Hr. rewrite H.
    destruct (search_class g_objReSession strComponent); [reflexivity|].
    rewrite (g_objReSpecialsSession_reserved _ Hr). reflexivity.
  - intros name Hr Hs. rewrite H.
    destruct (search_class g_objReFolders strComponent); [reflexivity|].
    destruct (pad_folder_reserved name strComponent Hr Hs) as (a & b & ->).
    pose proof (g_objReSpecialsFolders_found name a b Hr) as Hn.
    destruct (g_objReSpecialsFolders _); [reflexivity | contradiction].
  - intros Hw. unfold ValidateSessionFolderComponent.
    change (search_class _ "CON") with (@None ascii). cbv iota.
    rewrite Hw. reflexivity.
  - intros strType. apply ValidateSessionFolderComponent_snd.
Qed.

(** ** The RDP gate *)

Lemma ValidateProtocolComponent_fst h strProtocol st :
  fst (ValidateProtocolComponent h strProtocol st) = protocol_ok h strProtocol.
Proof.
  unfold ValidateProtocolComponent, protocol_ok.
  destruct (contains "rdp" (lower strProtocol)); [|reflexivity].
  destruct (g_nMajorVersion h <? 9)%Z; [reflexivity|].
  destruct (sys_platform_win32 h); reflexivity.
Qed.

Lemma ValidateProtocolComponent_snd h strProtocol st :
  let r := ValidateProtocolComponent h strProtocol st in
  (fst r = true -> snd r = st) /\
  (fst r = false ->
   g_strErrors (snd r) = rdp_refusal h st /\
   g_strBogusLinesNotImported (snd r)
   = g_strBogusLinesNotImported st ++ CRLF ++ g_strLine st).
Proof.
  cbv zeta. unfold ValidateProtocolComponent, rdp_refusal, break_errors.
  destruct (contains "rdp" (lower strProtocol));
    [|split; [reflexivity | discriminate]].
  destruct (g_nMajorVersion h <? 9)%Z.
  - split; [discriminate|]. intros _.
    destruct (is_empty (g_strErrors st)); split; reflexivity.
  - destruct (sys_platform_win32 h).
    + split; [reflexivity | discriminate].
    + split; [discriminate|]. intros _.
      destruct (is_empty (g_strErrors st)); split; reflexivity.
Qed.

(** What the three validators leave of [bSaveSession], and the texts the
    last of them, the gate, leaves behind when it refuses. *)
Lemma validate_record_save h st loc st' loc' :
  validate_record h st loc = (st', loc') ->
  bSaveSession loc' =
    bSaveSession loc
    && name_ok h (strSessionName loc') "session"
    && name_ok h (strFolderOrig loc') "folder"
    && protocol_ok h (strProtocol loc) /\
  (protocol_ok h (strProtocol loc) = false ->
   exists st2, only_report st st2 /\
     g_strErrors st' = rdp_refusal h st2 /\
     g_strBogusLinesNotImported st'
     = g_strBogusLinesNotImported st2 ++ CRLF ++ g_strLine st).
Proof.
  intros H.
  pose proof (validate_record_spec _ _ _ _ _ H) as (_ & Hn & Hf & _).
  revert H. unfold validate_record.
  set (loc1 := if String.eqb (strSessionName loc) "" then _ else _).
  pose proof (ValidateSessionFolderComponent_fst h (strSessionName loc1) "session" st) as V1.
  pose proof (ValidateSessionFolderComponent_frame h (strSessionName loc1) "session" st) as F1.
  destruct (ValidateSessionFolderComponent h (strSessionName loc1) "session" st)
    as [ok1 st1]. simpl in V1, F1.
  set (loc2 := if negb ok1 then _ else _).
  set (loc3 := if String.eqb (strFolderOrig loc2) "" then _ else _).
  pose proof (ValidateSessionFolderComponent_fst h (strFolderOrig loc3) "folder" st1) as V2.
  pose proof (ValidateSessionFolderComponent_frame h (strFolderOrig loc3) "folder" st1) as F2.
  destruct (ValidateSessionFolderComponent h (strFolderOrig loc3) "folder" st1)
    as [ok2 st2]. simpl in V2, F2.
  set (loc4 := if negb ok2 then _ else _).
  pose proof (ValidateProtocolComponent_fst h (strProtocol loc4) st2) as V3.
  pose proof (ValidateProtocolComponent_snd h (strProtocol loc4) st2) as [_ S3].
  destruct (ValidateProtocolComponent h (strProtocol loc4) st2) as [ok3 st3].
  simpl in V3, S3. intros H. injection H as Hst Hloc. subst st' loc'.
  assert (E1 : strSessionName loc1 = strSessionName
            (if negb ok3 then set_save false loc4 else loc4)).
  { subst loc4 loc3 loc2. repeat case_if; reflexivity. }
  assert (E2 : strFolderOrig loc3 = strFolderOrig
            (if negb ok3 then set_save false loc4 else loc4)).
  { subst loc4. repeat case_if; reflexivity. }
  assert (E3 : strProtocol loc4 = strProtocol loc).
  { subst loc4 loc3 loc2 loc1. repeat case_if; reflexivity. }
  rewrite <- E1, <- E2, <- V1, <- V2. rewrite E3 in V3. rewrite <- V3.
  split.
  - subst loc4 loc3 loc2 loc1. clear.
    destruct ok1, ok2, ok3; cbn [negb]; repeat case_if; simpl;
      rewrite ?andb_true_r, ?andb_false_r; reflexivity.
  - intros ->. destruct (S3 eq_refl) as [Se Sb].
    exists st2. split; [eauto using only_report_trans|].
    split; [exact Se|]. rewrite Sb.
    destruct F1 as (_ & _ & _ & _ & _ & L1 & _).
    destruct F2 as (_ & _ & _ & _ & _ & L2 & _). congruence.
Qed.

(** A line with as many values as the header has fields goes through
    [normalize], and is saved when [bSaveSession] is left standing. *)
Lemma import_data_line_counted h strSessionName st :
  g_strDelimiter st <> "" ->
  length (split (g_strDelimiter st) (g_strLine st)) = length (g_vFieldsArray st) ->
  import_data_line h strSessionName st =
    match normalize h strSessionName
            (split (g_strDelimiter st) (g_strLine st)) st with
    | Go st loc => if bSaveSession loc then create_session h st loc else Go st tt
    | Return st why => Return st why
    | Raised st => Raised st
    end.
Proof.
  intros Hd Hl. unfold import_data_line.
  destruct (g_strDelimiter st) eqn:E; [contradiction|]. cbn [is_empty].
  rewrite Hl, Nat.ltb_irrefl. reflexivity.
Qed.

Lemma create_session_counts h st loc st' :
  create_session h st loc = Go st' tt ->
  g_nSessionsCreated st' = S (g_nSessionsCreated st).
Proof.
  unfold create_session, Save. intros H.
  repeat match type of H with
         | context [match ?e with _ => _ end] => destruct e; try discriminate H
         end;
    flow_inv; reflexivity.
Qed.

(** C7.  Take a line with as many values as the header has fields, all of
    them of known labels, whose protocol after the loop over the fields
    holds [rdp] ([RDP] is what the protocol column makes of such a token).
    When the major version is below 9 or [sys.platform] is not [win32], the
    line is not saved, whatever its other fields hold: the store and the
    count of sessions stay as they were, the line goes on the list of lines
    not imported, and the error text starts with one of the two RDP
    refusals.  A session is counted for the line only when the major
    version is at least 9 and the platform is [win32]. *)
Theorem C7_rdp_gate (h : Host) (strSessionName : string) (st st1 : Globals)
  (loc1 : Locals) :
  let values := split (g_strDelimiter st) (g_strLine st) in
  let supported := (9 <=? g_nMajorVersion h)%Z && sys_platform_win32 h in
  g_strDelimiter st <> "" ->
  length values = length (g_vFieldsArray st) ->
  import_fields h (g_vFieldsArray st) values st (line_locals strSessionName)
    = Go st1 loc1 ->
  contains "rdp" (lower (strProtocol loc1)) = true ->
  (supported = false ->
   exists st',
     import_data_line h strSessionName st = Go st' tt /\
     sessions st' = sessions st /\
     g_nSessionsCreated st' = g_nSessionsCreated st /\
     (exists st2, g_strErrors st' = rdp_refusal h st2) /\
     (exists lines,
        g_strBogusLinesNotImported st' = lines ++ CRLF ++ g_strLine st)) /\
  (forall st',
     import_data_line h strSessionName st = Go st' tt ->
     g_nSessionsCreated st' = S (g_nSessionsCreated st) ->
     supported = true).
Proof.
  cbv zeta. intros Hd Hl Hf Hr.
  rewrite (import_data_line_counted h strSessionName st Hd Hl).
  unfold normalize. rewrite Hf.
  destruct (validate_record h st1 loc1) as [st2 loc2] eqn:Hv.
  destruct (validate_record_save _ _ _ _ _ Hv) as [Hs Hrej].
  pose proof (import_fields_frame _ _ _ _ _ _ _ Hf) as F1.
  pose proof (validate_record_frame h st1 loc1) as F2. rewrite Hv in F2.
  simpl in F2.
  assert (Hp : protocol_ok h (strProtocol loc1)
               = (9 <=? g_nMajorVersion h)%Z && sys_platform_win32 h).
  { unfold protocol_ok. rewrite Hr. f_equal.
    rewrite Z.leb_antisym. reflexivity. }
  rewrite Hp in Hs, Hrej.
  destruct F1 as (_ & _ & _ & _ & _ & L1 & _ & _ & N1 & _ & S1).
  pose proof F2 as (_ & _ & _ & _ & _ & L2 & _ & _ & N2 & _ & S2).
  split.
  - intros Hsup. rewrite Hsup, andb_false_r in Hs. rewrite Hs.
    exists st2. split; [reflexivity|]. repeat split; try congruence.
    + destruct (Hrej Hsup) as (st3 & _ & He & _). eauto.
    + destruct (Hrej Hsup) as (st3 & _ & _ & Hb).
      exists (g_strBogusLinesNotImported st3). rewrite Hb. congruence.
  - intros st' H Hn.
    destruct (bSaveSession loc2) eqn:Hb.
    + symmetry in Hs. apply andb_true_iff in Hs as [_ Hs]. exact Hs.
    + flow_inv. rewrite N2, N1 in Hn. lia.
Qed.

(** ** Sessions that exist already *)



Lemma session_path_default_username h st loc :
  session_path h st (default_username st loc) = session_path h st loc.
Proof. unfold default_username. case_if; reflexivity. Qed.

(** Saving a session writes at its path and nowhere else in the store. *)
Lemma create_session_store h st loc (q : string) :
  q <> session_path h st loc ->
  sessions (final_state (create_session h st loc)) !! q = sessions st !! q.
Proof.
  intros Hq. unfold create_session, OpenSessionConfiguration, Save.
  rewrite session_path_default_username.
  set (p := session_path h st loc) in *.
  destruct (sessions st !! "Default") as [objConfig|]; [|reflexivity].
  cbn [sessions set_sessions]. rewrite lookup_insert_eq. cbv iota.
  unfold SetOption at 1. rewrite lookup_insert_eq.
  destruct (negb _).
  - cbn [final_state sessions set_sessions]. now rewrite lookup_insert_ne.
  - destruct (line_options _ _ _) as [[|]|].
    + cbn [final_state sessions set_sessions]. now rewrite lookup_insert_ne.
    + cbn [final_state sessions set_sessions add_created].
      rewrite !lookup_insert_ne by congruence. reflexivity.
    + cbn [final_state sessions set_sessions]. now rewrite lookup_insert_ne.
Qed.



(** ** Lines with too few or too many values *)

(** X24.  A line with more values than the header has fields is not saved,
    and goes on the list of lines not imported as it is; the run goes on. *)
Lemma too_many_values h strSessionName st :
  g_strDelimiter st <> "" ->
  length (g_vFieldsArray st)
    < length (split (g_strDelimiter st) (g_strLine st)) ->
  exists st',
    import_data_line h strSessionName st = Go st' tt /\
    g_strBogusLinesNotImported st'
    = g_strBogusLinesNotImported st ++ CRLF ++ g_strLine st /\
    sessions st' = sessions st /\
    g_nSessionsCreated st' = g_nSessionsCreated st.
Proof.
  intros Hd Hl. unfold import_data_line.
  destruct (g_strDelimiter st) eqn:E; [contradiction|]. cbn [is_empty].
  destruct (Nat.ltb_spec (length (split (String a s) (g_strLine st)))
              (length (g_vFieldsArray st))); [lia|].
  apply Nat.ltb_lt in Hl. rewrite Hl.
  eexists. split; [reflexivity|]. repeat split.
Qed.

(** X25.  A line with fewer values than the header has fields is not saved
    either, but the list of lines not imported stays as it was: the line is
    only named in the error text, a blank one as [[Empty Line]]; the run
    goes on. *)
Lemma too_few_values h strSessionName st :
  g_strDelimiter st <> "" ->
  length (split (g_strDelimiter st) (g_strLine st))
    < length (g_vFieldsArray st) ->
  exists st',
    import_data_line h strSessionName st = Go st' tt /\
    g_strBogusLinesNotImported st' = g_strBogusLinesNotImported st /\
    g_strErrors st' =
      NL ++ "Insufficient data on line #" ++ fmt_04d (g_nCurLineNumber st) ++
      ": " ++ (if String.eqb (strip (g_strLine st)) "" then "[Empty Line]"
               else g_strLine st) ++ g_strErrors st /\
    sessions st' = sessions st /\
    g_nSessionsCreated st' = g_nSessionsCreated st.
Proof.
  intros Hd Hl. unfold import_data_line.
  destruct (g_strDelimiter st) eqn:E; [contradiction|]. cbn [is_empty].
  apply Nat.ltb_lt in Hl. rewrite Hl.
  eexists. split; [reflexivity|].
  destruct (String.eqb (strip (g_strLine st)) ""); repeat split;
    unfold line_ref; cbn [g_strErrors g_strLine g_nCurLineNumber set_errors set_line];
    now rewrite !append_assoc.
Qed.

(** ** Field names the script does not know *)




(** ** The run as a whole *)

(** C1, on the script as it is.  The header names two fields.  The second
    line has one value, the third has three, the fourth has two.  The run
    goes through all of them and saves the session of the fourth; the list
    of lines not imported holds the third line as it was written, and does
    not hold the second, which only the error text names. *)
Theorem C1_short_line_not_listed :
  let file := file_of ["hostname,username"; "10.0.0.1";
                       "10.0.0.2,root,extra"; "10.0.0.3,admin"] in
  exists st,
    Import (sample_host 9 true) file sample_store = Go st tt /\
    g_strBogusLinesNotImported st = CRLF ++ "10.0.0.2,root,extra" /\
    contains "10.0.0.1" (g_strBogusLinesNotImported st) = false /\
    contains "Insufficient data on line #0002: 10.0.0.1" (g_strErrors st) = true /\
    g_strSessionsCreated st = "    10.0.0.3" /\
    g_nSessionsCreated st = 1 /\
    g_nDataLines st = 4.
Proof.
  cbv zeta.
  exists (final_state (Import (sample_host 9 true)
            (file_of ["hostname,username"; "10.0.0.1";
                      "10.0.0.2,root,extra"; "10.0.0.3,admin"]) sample_store)).
  repeat (split; [vm_compute; reflexivity|]). vm_compute; reflexivity.
Qed.

Lemma import_lines_data h strSessionName strLine rest st :
  import_lines h true strSessionName (strLine :: rest) st =
    let st1 := set_line_number (S (g_nCurLineNumber st))
                 (set_line (strip_crlf strLine) st) in
    match import_data_line h strSessionName st1 with
    | Go st2 _ =>
        import_lines h true "" rest (set_data_lines (S (g_nDataLines st2)) st2)
    | stop => stop
    end.
Proof.
  cbn [import_lines negb]. cbv zeta.
  destruct (import_data_line h strSessionName _); reflexivity.
Qed.


(** [ValidateFieldDesignations] on a header without a [hostname] field
    returns at one of its two messages and leaves the report alone. *)
Lemma ValidateFieldDesignations_without_hostname h strFields st :
  g_strDelimiter st <> "" ->
  (forall d, delimiter_in_effect h st strFields = Some d ->
     has_field "hostname" (split d strFields) = false) ->
  exists st',
    ValidateFieldDesignations h strFields st
    = Return st' (match delimiter_in_effect h st strFields with
                  | Some _ => NoHostname
                  | None => NoDelimiter
                  end) /\
    sessions st' = sessions st /\
    g_nSessionsCreated st' = g_nSessionsCreated st /\
    g_strSessionsCreated st' = g_strSessionsCreated st /\
    g_strErrors st' = g_strErrors st /\
    g_strBogusLinesNotImported st' = g_strBogusLinesNotImported st /\
    g_nDataLines st' = g_nDataLines st.
Proof.
  intros Hd Hh. apply String.eqb_neq in Hd. rewrite eqb_empty in Hd.
  unfold ValidateFieldDesignations, delimiter_in_effect in *.
  destruct (contains (g_strDelimiter st) strFields); cbn [negb].
  - rewrite Hd. cbn [g_vFieldsArray set_fields g_strDelimiter].
    rewrite (Hh _ eq_refl). cbn [negb]. eexists. repeat split.
  - destruct (String.eqb (dialog_prompt h) "") eqn:Ep.
    + eexists. repeat split.
    + rewrite eqb_empty in Ep.
      destruct (String.eqb (dialog_prompt h) "NONE"); cbn [negb].
      * rewrite Hd. cbn [g_vFieldsArray set_fields g_strDelimiter].
        rewrite (Hh _ eq_refl). cbn [negb]. eexists. repeat split.
      * cbn [g_strDelimiter set_delimiter]. rewrite Ep.
        cbn [g_vFieldsArray set_fields g_strDelimiter set_delimiter].
        rewrite (Hh _ eq_refl). cbn [negb]. eexists. repeat split.
Qed.

(** C5, as the script has it.  When no field of the first line is
    [hostname] in any case of letters, [Import] returns while reading that
    line: no later line is read, no session is saved or counted, no error
    text and no rejected line is recorded.  It returns at the message that
    [hostname] is required, unless the header does not hold the delimiter
    and nothing is typed at the prompt, where it returns at the message
    that it cannot go on without a delimiter. *)
Theorem C5_header_without_hostname (h : Host) (strLine : string)
  (rest : list string) (store : gmap string (gmap string OptVal)) :
  let header := strip_crlf strLine in
  let delimiter := delimiter_in_effect h (initial store) header in
  dialog_msgbox h <> 2%Z ->
  (forall d, delimiter = Some d -> has_field "hostname" (split d header) = false) ->
  exists st,
    Import h (Some (strLine :: rest)) store
    = Return st (match delimiter with
                 | Some _ => NoHostname
                 | None => NoDelimiter
                 end) /\
    sessions st = store /\
    g_nSessionsCreated st = 0 /\ g_strSessionsCreated st = "" /\
    g_strErrors st = "" /\ g_strBogusLinesNotImported st = "" /\
    g_nDataLines st = 0.
Proof.
  cbv zeta. intros Hm Hh. unfold Import.
  apply Z.eqb_neq in Hm. rewrite Hm.
  cbn [import_lines negb]. cbv zeta.
  set (st1 := set_line_number _ (set_line _ _)).
  change (g_strLine st1) with (strip_crlf strLine).
  destruct (ValidateFieldDesignations_without_hostname h (strip_crlf strLine) st1)
    as (st' & E & F); [discriminate | exact Hh |].
  change (delimiter_in_effect h st1 (strip_crlf strLine))
    with (delimiter_in_effect h (initial store) (strip_crlf strLine)) in E.
  rewrite E. exists st'. split; [reflexivity | exact F].
Qed.

(** ** What a saved record holds *)

Ltac field_cases H :=
  unfold import_field, import_protocol, import_emulation in H;
  destruct (field_kind _) eqn:?; repeat case_if; flow_inv; try discriminate.

(** What one round of the loop does to the host name, the port and the
    session name. *)
Lemma import_field_hostname h strField value st loc st' loc' :
  import_field h strField value st loc = Go st' loc' ->
  (field_kind (lower (strip strField)) = FHostName ->
   strHostName loc' = strip value /\
   (strip value = "" -> bSaveSession loc' = false)) /\
  (field_kind (lower (strip strField)) <> FHostName ->
   strHostName loc' = strHostName loc).
Proof.
  intros H. field_cases H; simpl; split; try congruence; intros _;
    try (split; [reflexivity|]); try congruence.
  match goal with E : String.eqb _ "" = false |- _ =>
    apply String.eqb_neq in E end.
  congruence.
Qed.

Lemma import_field_port h strField value st loc st' loc' :
  import_field h strField value st loc = Go st' loc' ->
  (field_kind (lower (strip strField)) = FPort ->
   strPort loc' = strip value /\
   (bSaveSession loc' = true -> strip value = "" \/ isdigit (strip value) = true)) /\
  (field_kind (lower (strip strField)) <> FPort -> strPort loc' = strPort loc).
Proof.
  intros H. field_cases H; simpl; split; try congruence; intros _;
    try (split; [reflexivity|]); try congruence; intros _.
  match goal with E : _ && _ = false |- _ =>
    apply andb_false_iff in E as [E | E]; apply negb_false_iff in E end.
  - left. now apply String.eqb_eq.
  - right. assumption.
Qed.

Lemma import_field_session_name h strField value st loc st' loc' :
  import_field h strField value st loc = Go st' loc' ->
  strSessionName loc' =
    match field_kind (lower (strip strField)) with
    | FSessionName => strip value
    | _ => strSessionName loc
    end.
Proof. intros H. field_cases H; reflexivity. Qed.

Lemma hostname_label (strField : string) :
  lower strField = "hostname" ->
  field_kind (lower (strip strField)) = FHostName.
Proof. intros H. rewrite <- strip_lower, H. reflexivity. Qed.

Lemma has_field_In (name : string) (fields : list string) :
  has_field name fields = true ->
  exists strField, In strField fields /\ lower strField = name.
Proof.
  unfold has_field. intros H.
  apply existsb_exists in H as (x & Hx & E).
  apply in_map_iff in Hx as (f & <- & Hf).
  apply String.eqb_eq in E. eauto.
Qed.

Lemma In_combine_left {A B : Type} (a : A) (l : list A) :
  forall (l' : list B), length l' = length l -> In a l ->
  exists b, In (a, b) (combine l l').
Proof.
  induction l as [|x l IH]; intros [|y l'] Hl Hin; simpl in *;
    try contradiction; try discriminate.
  destruct Hin as [-> | Hin].
  - exists y. left; reflexivity.
  - destruct (IH l') as (b & Hb); [lia | assumption |]. exists b. right; exact Hb.
Qed.

(** A line that stays to be saved has a host name, when some column takes
    the host name branch. *)
Lemma import_fields_hostname h fields :
  forall values strField value st loc st' loc',
  In (strField, value) (combine fields values) ->
  field_kind (lower (strip strField)) = FHostName ->
  import_fields h fields values st loc = Go st' loc' ->
  bSaveSession loc' = true -> strHostName loc' <> "".
Proof.
  assert (Keep : forall fields values st loc st' loc',
    import_fields h fields values st loc = Go st' loc' ->
    (bSaveSession loc = true -> strHostName loc <> "") ->
    bSaveSession loc' = true -> strHostName loc' <> "").
  { intros fs vs st loc st' loc' H HJ.
    eapply (import_fields_inv
              (fun l => bSaveSession l = true -> strHostName l <> "")); eauto.
    intros f v st0 loc0 st1 loc1 _ E J Hs.
    pose proof (import_field_save _ _ _ _ _ _ _ E Hs) as Hs0.
    destruct (import_field_hostname _ _ _ _ _ _ _ E) as [Hh Hn].
    assert (Hdec : field_kind (lower (strip f)) = FHostName \/
                   field_kind (lower (strip f)) <> FHostName)
      by (destruct (field_kind (lower (strip f)));
          ((left; reflexivity) || (right; discriminate))).
    destruct Hdec as [Hk | Hk].
    - destruct (Hh Hk) as [-> He]. intros Hv. rewrite (He Hv) in Hs. discriminate.
    - rewrite (Hn Hk). auto. }
  induction fields as [|f fields IH];
    intros [|v values] g w st loc st' loc' Hin Hk H Hs;
    simpl in Hin; try contradiction.
  cbn [import_fields] in H.
  destruct (import_field h f v st loc) as [st1 loc1| |] eqn:E; try discriminate.
  destruct Hin as [Heq | Hin].
  - injection Heq as -> ->.
    eapply Keep; eauto. intros Hs1.
    destruct (import_field_hostname _ _ _ _ _ _ _ E) as [Hh _].
    destruct (Hh Hk) as [-> He]. intros Hv. rewrite (He Hv) in Hs1. discriminate.
  - eapply IH; eauto.
Qed.

(** *** The text of a port *)

Lemma isdigit_char_no_blank (c : ascii) :
  isdigit_char c = true -> int_space c = false.
Proof. destruct c as [[] [] [] [] [] [] [] []]; (reflexivity || discriminate). Qed.

Lemma lstrip_by_none p (s : string) :
  (forall c, has_char c s = true -> p c = false) -> lstrip_by p s = s.
Proof.
  destruct s as [|c s]; [reflexivity|]. intros H. cbn [lstrip_by].
  rewrite (H c); [reflexivity|]. cbn [has_char]. now rewrite Ascii.eqb_refl.
Qed.

Lemma rstrip_by_none p (s : string) :
  (forall c, has_char c s = true -> p c = false) -> rstrip_by p s = s.
Proof.
  induction s as [|c s IH]; [reflexivity|]. intros H. cbn [rstrip_by].
  rewrite IH.
  - rewrite (H c); [reflexivity|]. cbn [has_char]. now rewrite Ascii.eqb_refl.
  - intros x Hx. apply H. cbn [has_char]. rewrite Hx. apply orb_true_r.
Qed.

Lemma all_digits_char (s : string) (c : ascii) :
  all_digits s = true -> has_char c s = true -> isdigit_char c = true.
Proof.
  induction s as [|x s IH]; [discriminate|]. cbn [all_digits has_char].
  intros Hd Hc. apply andb_true_iff in Hd as [Hx Hd].
  apply orb_true_iff in Hc as [Hc | Hc]; [|auto].
  apply Ascii.eqb_eq in Hc. now subst x.
Qed.

Lemma decimal_all_digits (s : string) : decimal s = true -> all_digits s = true.
Proof.
  induction s as [|c s IH]; [reflexivity|]. cbn [decimal all_digits].
  intros H. apply andb_true_iff in H as [Hc H]. rewrite (IH H), andb_true_r.
  unfold isdigit_char. now rewrite Hc.
Qed.

(** [int_digits] on text that [isdigit] accepts: it reads decimal digits,
    and stops at a superscript. *)
Lemma int_digits_decimal (s : string) :
  forall acc digits prev,
  s <> "" -> decimal s = true -> (0 <= acc)%Z ->
  exists n, int_digits acc digits prev s = Some (n, digits + String.length s)
            /\ (0 <= n)%Z.
Proof.
  induction s as [|c s IH]; intros acc digits prev Hne Hd Ha; [contradiction|].
  cbn [decimal] in Hd. apply andb_true_iff in Hd as [Hc Hd].
  cbn [int_digits String.length]. rewrite Hc.
  assert (Hv : (0 <= 10 * acc + (Z.of_nat (nat_of_ascii c) - 48))%Z).
  { unfold is_digit in Hc. apply andb_true_iff in Hc as [Hc _].
    apply Nat.leb_le in Hc. lia. }
  destruct s as [|c' s'].
  - cbn [int_digits String.length].
    assert (Hu : Ascii.eqb c "_" = false)
      by (destruct c as [[] [] [] [] [] [] [] []]; (reflexivity || discriminate)).
    rewrite Hu, Nat.add_1_r. eauto.
  - destruct (IH _ (S digits) c ltac:(discriminate) Hd Hv) as (n & E & Hn).
    exists n. split; [|exact Hn]. rewrite E. do 2 f_equal.
    cbn [String.length]. lia.
Qed.

Lemma int_digits_superscript (s : string) :
  forall acc digits prev,
  all_digits s = true -> decimal s = false ->
  int_digits acc digits prev s = None.
Proof.
  induction s as [|c s IH]; intros acc digits prev Ha Hd; [discriminate|].
  cbn [all_digits decimal int_digits] in *.
  apply andb_true_iff in Ha as [Hc Ha].
  destruct (is_digit c) eqn:Hi.
  - apply IH; assumption.
  - destruct c as [[] [] [] [] [] [] [] []]; (reflexivity || discriminate).
Qed.

(** [int] on text that [isdigit] accepts. *)
Lemma int_isdigit (max_str_digits : nat) (s : string) :
  isdigit s = true ->
  (forall n, int max_str_digits s = Some n -> (0 <= n)%Z) /\
  (is_Some (int max_str_digits s) <->
   decimal s = true /\ over_limit max_str_digits (String.length s) = false).
Proof.
  unfold isdigit. intros H. apply andb_true_iff in H as [Hne Ha].
  assert (Hs : s <> "") by (intros ->; discriminate).
  assert (Hb : forall c, has_char c s = true -> int_space c = false)
    by (intros c Hc; eapply isdigit_char_no_blank, all_digits_char; eauto).
  unfold int, strip_by.
  rewrite (lstrip_by_none _ _ Hb), (rstrip_by_none _ _ Hb).
  assert (Sign : (let '(negative, s0) :=
                    match s with
                    | String "-" s' => (true, s')
                    | String "+" s' => (false, s')
                    | _ => (false, s)
                    end in
                  (negative, s0)) = (false, s)).
  { destruct s as [|c s']; [contradiction|].
    cbn [all_digits] in Ha. apply andb_true_iff in Ha as [Hc _].
    destruct c as [[] [] [] [] [] [] [] []]; (reflexivity || discriminate). }
  assert (E : match s with
              | String "-" s' => (true, s')
              | String "+" s' => (false, s')
              | _ => (false, s)
              end = (false, s)).
  { destruct (match s with
              | String "-" s' => (true, s')
              | String "+" s' => (false, s')
              | _ => (false, s)
              end) as [b t]. exact Sign. }
  rewrite E. clear Sign E.
  destruct (decimal s) eqn:Hd.
  - destruct (int_digits_decimal s 0 0 "_"%char Hs Hd ltac:(lia)) as (n & E & Hn).
    rewrite E. cbn [Nat.add].
    destruct (over_limit max_str_digits (String.length s)).
    + split; [discriminate|]. split; [intros [x Hx]; discriminate|].
      intros [_ Hx]; discriminate.
    + split; [intros x [= <-]; exact Hn|]. split; eauto.
  - rewrite (int_digits_superscript s _ _ _ Ha Hd).
    split; [discriminate|]. split; [intros [x Hx]; discriminate|].
    intros [Hx _]; discriminate.
Qed.

(** A record that stays to be saved, for the field names in use.  When
    [hostname] is among them, its host name is not empty; its session name
    is not empty, and is the host name when every column of the session
    name branch is blank, which is so when there is none; and its port,
    when it is not empty, is text that [isdigit] accepts. *)
Lemma saved_record (h : Host) (values : list string) (st st' : Globals)
  (loc : Locals) :
  has_field "hostname" (g_vFieldsArray st) = true ->
  length values = length (g_vFieldsArray st) ->
  normalize h "" values st = Go st' loc ->
  bSaveSession loc = true ->
  strHostName loc <> "" /\
  strSessionName loc <> "" /\
  ((forall strField value,
      In (strField, value) (combine (g_vFieldsArray st) values) ->
      field_kind (lower (strip strField)) = FSessionName ->
      strip value = "") ->
   strSessionName loc = strHostName loc) /\
  (strPort loc <> "" -> isdigit (strPort loc) = true).
Proof.
  intros Hh Hl Hn Hs.
  apply normalize_inv in Hn as (st1 & loc1 & Hf & Hv).
  destruct (validate_record_spec _ _ _ _ _ Hv)
    as (Hm & Hname & _ & Hhost & Hport & _).
  specialize (Hm Hs).
  (* the host name *)
  assert (H1 : strHostName loc1 <> "").
  { apply has_field_In in Hh as (f & Hin & Hlow).
    destruct (In_combine_left f _ values Hl Hin) as (v & Hc).
    eapply import_fields_hostname; eauto using hostname_label. }
  (* the port *)
  assert (H2 : strPort loc1 = "" \/ isdigit (strPort loc1) = true).
  { apply (import_fields_inv
             (fun l => bSaveSession l = true ->
                       strPort l = "" \/ isdigit (strPort l) = true)
             h _ _ _ _ _ _) in Hf; auto.
    intros f v st0 loc0 st2 loc2 _ E J Hs2.
    pose proof (import_field_save _ _ _ _ _ _ _ E Hs2) as Hs0.
    destruct (import_field_port _ _ _ _ _ _ _ E) as [Hp Hq].
    assert (Hdec : field_kind (lower (strip f)) = FPort \/
                   field_kind (lower (strip f)) <> FPort)
      by (destruct (field_kind (lower (strip f)));
          ((left; reflexivity) || (right; discriminate))).
    destruct Hdec as [Hk | Hk].
    - destruct (Hp Hk) as [-> Hd]. auto.
    - rewrite (Hq Hk). auto. }
  rewrite Hhost, Hport, Hname.
  split; [exact H1|]. split; [|split].
  - destruct (String.eqb_spec (strSessionName loc1) ""); assumption.
  - intros Hblank.
    assert (H3 : strSessionName loc1 = "").
    { apply (import_fields_inv (fun l => strSessionName l = "")
               h _ _ _ _ _ _) in Hf; auto.
      intros f v st0 loc0 st2 loc2 Hin E J.
      rewrite (import_field_session_name _ _ _ _ _ _ _ E).
      destruct (field_kind (lower (strip f))) eqn:Hk; eauto. }
    rewrite H3. reflexivity.
  - intros Hp. destruct H2 as [H2 | H2]; [contradiction | assumption].
Qed.

(** ** Reading a line is a function of the line and the header *)

Lemma only_report_same_schema st st' : only_report st st' -> same_schema st st'.
Proof. unfold only_report, same_schema. intuition congruence. Qed.

Lemma same_schema_sym a b : same_schema a b -> same_schema b a.
Proof. unfold same_schema. intuition congruence. Qed.

Lemma same_schema_trans a b c :
  same_schema a b -> same_schema b c -> same_schema a c.
Proof. unfold same_schema. intuition congruence. Qed.

Lemma import_field_agree h strField value st1 st2 loc :
  same_schema st1 st2 ->
  agree (import_field h strField value st1 loc)
        (import_field h strField value st2 loc).
Proof.
  intros (Hd & Hf & Hp & Ho & Hu).
  unfold import_field, import_protocol, import_emulation.
  rewrite Hp, Ho.
  destruct (field_kind (lower (strip strField))); repeat case_if;
    simpl; repeat split; auto.
Qed.

Lemma import_fields_agree h fields :
  forall values st1 st2 loc,
  same_schema st1 st2 ->
  agree (import_fields h fields values st1 loc)
        (import_fields h fields values st2 loc).
Proof.
  induction fields as [|f fields IH]; intros [|v values] st1 st2 loc S;
    cbn [import_fields]; try (split; [reflexivity | assumption]).
  pose proof (import_field_agree h f v st1 st2 loc S) as A.
  destruct (import_field h f v st1 loc) as [s1 l1| |],
           (import_field h f v st2 loc) as [s2 l2| |];
    simpl in A; try contradiction; try exact A.
  destruct A as [-> S']. apply IH, S'.
Qed.

Lemma locals_ext (a b : Locals) :
  bSaveSession a = bSaveSession b -> strSessionName a = strSessionName b ->
  strPort a = strPort b -> strProtocol a = strProtocol b ->
  strHostName a = strHostName b -> strUserName a = strUserName b ->
  strEmulation a = strEmulation b -> strFolder a = strFolder b ->
  strFolderOrig a = strFolderOrig b -> strDescription a = strDescription b ->
  strLogonScript a = strLogonScript b -> strDomain a = strDomain b ->
  a = b.
Proof. destruct a, b; simpl; intros; subst; reflexivity. Qed.

Lemma validate_record_agree h st1 st2 loc :
  same_schema st1 st2 ->
  snd (validate_record h st1 loc) = snd (validate_record h st2 loc) /\
  same_schema (fst (validate_record h st1 loc)) (fst (validate_record h st2 loc)).
Proof.
  intros S.
  pose proof (validate_record_frame h st1 loc) as F1.
  pose proof (validate_record_frame h st2 loc) as F2.
  destruct (validate_record h st1 loc) as [s1 l1] eqn:E1.
  destruct (validate_record h st2 loc) as [s2 l2] eqn:E2.
  simpl in *. split.
  - destruct (validate_record_save _ _ _ _ _ E1) as [B1 _].
    destruct (validate_record_save _ _ _ _ _ E2) as [B2 _].
    destruct (validate_record_spec _ _ _ _ _ E1)
      as (_ & N1 & O1 & ? & ? & ? & ? & ? & ? & ? & ? & ?).
    destruct (validate_record_spec _ _ _ _ _ E2)
      as (_ & N2 & O2 & ? & ? & ? & ? & ? & ? & ? & ? & ?).
    destruct S as (_ & _ & _ & Ho & _). rewrite Ho in O1.
    assert (HN : strSessionName l1 = strSessionName l2) by congruence.
    assert (HO : strFolderOrig l1 = strFolderOrig l2) by congruence.
    apply locals_ext; congruence.
  - apply only_report_same_schema in F1, F2.
    eauto using same_schema_trans, same_schema_sym.
Qed.

Lemma normalize_agree h strSessionName values st1 st2 :
  same_schema st1 st2 ->
  agree (normalize h strSessionName values st1)
        (normalize h strSessionName values st2).
Proof.
  intros S. unfold normalize.
  destruct S as (Hd & Hf & Hrest). rewrite Hf.
  assert (S : same_schema st1 st2) by (unfold same_schema; auto).
  pose proof (import_fields_agree h (g_vFieldsArray st2) values st1 st2
                (line_locals strSessionName) S) as A.
  destruct (import_fields h (g_vFieldsArray st2) values st1 _) as [s1 l1| |],
           (import_fields h (g_vFieldsArray st2) values st2 _) as [s2 l2| |];
    simpl in A; try contradiction; try exact A.
  destruct A as [-> S'].
  destruct (validate_record_agree h s1 s2 l2 S') as [E S''].
  destruct (validate_record h s1 l2), (validate_record h s2 l2).
  simpl in *. split; assumption.
Qed.

(** Reading a data line leaves the header as it was. *)
Lemma import_data_line_schema h strSessionName st st' :
  import_data_line h strSessionName st = Go st' tt -> same_schema st st'.
Proof.
  unfold import_data_line.
  destruct (is_empty (g_strDelimiter st)); [discriminate|].
  destruct (Nat.ltb _ _).
  { intros H. flow_inv. case_if; unfold same_schema; simpl; auto. }
  destruct (Nat.ltb _ _).
  { intros H. flow_inv. unfold same_schema; simpl; auto. }
  destruct (normalize h strSessionName _ st) as [s1 l1| |] eqn:N; try discriminate.
  assert (S1 : same_schema st s1).
  { apply normalize_inv in N as (s0 & l0 & Hf & Hv).
    pose proof (import_fields_frame _ _ _ _ _ _ _ Hf) as F1.
    pose proof (validate_record_frame h s0 l0) as F2. rewrite Hv in F2.
    apply only_report_same_schema. eauto using only_report_trans. }
  destruct (bSaveSession l1); [|intros H; flow_inv; exact S1].
  unfold create_session, OpenSessionConfiguration, Save.
  destruct (sessions s1 !! "Default"); [|discriminate].
  cbn [sessions set_sessions]. rewrite lookup_insert_eq. cbv iota.
  unfold SetOption at 1. rewrite lookup_insert_eq.
  destruct (negb _); [discriminate|].
  destruct (line_options _ _ _) as [[|]|]; [discriminate| |discriminate].
  intros H. flow_inv. exact S1.
Qed.

(** C9.  The locals a line is saved from are the same in any two states of
    the globals that have the same delimiter, field names and defaults:
    neither the errors and sessions recorded so far, nor the line number,
    nor the sessions in the store have a say.  So a line read a second
    time, after the run has gone on from reading it, gives the record it
    gave the first time. *)
Theorem C9_record_is_a_function (h : Host) (strLine : string)
  (st1 st2 : Globals) :
  same_schema st1 st2 ->
  record_of_line h st1 strLine = record_of_line h st2 strLine /\
  (forall strSessionName n st',
     import_data_line h strSessionName
       (set_line_number n (set_line (strip_crlf strLine) st1)) = Go st' tt ->
     record_of_line h st' strLine = record_of_line h st1 strLine).
Proof.
  assert (Main : forall a b, same_schema a b ->
            record_of_line h a strLine = record_of_line h b strLine).
  { intros a b S. unfold record_of_line. cbv zeta.
    assert (S' : same_schema (set_line (strip_crlf strLine) a)
                             (set_line (strip_crlf strLine) b))
      by (destruct S as (? & ? & ? & ? & ?); unfold same_schema; simpl; auto).
    destruct S as (Hd & Hf & Hp & Ho & Hu).
    cbn [g_strDelimiter g_vFieldsArray g_strLine set_line].
    rewrite Hd, Hf.
    destruct (Nat.eqb _ _); [|reflexivity].
    pose proof (normalize_agree h ""
                  (split (g_strDelimiter b) (strip_crlf strLine)) _ _ S') as A.
    destruct (normalize h "" _ (set_line (strip_crlf strLine) a)) as [s1 l1| |],
             (normalize h "" _ (set_line (strip_crlf strLine) b)) as [s2 l2| |];
      simpl in A; try contradiction; try reflexivity.
    destruct A as [-> (_ & _ & _ & _ & Hu')].
    unfold default_username. rewrite Hu'. reflexivity. }
  intros S. split; [apply Main, S|].
  intros sn n st' H. apply Main.
  apply import_data_line_schema in H.
  apply same_schema_sym. eapply same_schema_trans; [|exact H].
  unfold same_schema; simpl; auto.
Qed.

(** ** The theorems at work on sample lines *)

(** The record is the one [import_data_line] saves from. *)
Lemma import_data_line_record h st strLine rec :
  g_strDelimiter st <> "" ->
  record_of_line h st strLine = Some rec ->
  exists st' loc,
    normalize h ""
      (split (g_strDelimiter st) (strip_crlf strLine))
      (set_line (strip_crlf strLine) st) = Go st' loc /\
    bSaveSession loc = true /\
    rec = default_username st' loc /\
    import_data_line h "" (set_line (strip_crlf strLine) st)
    = create_session h st' loc.
Proof.
  intros Hd. unfold record_of_line. cbv zeta.
  cbn [g_strDelimiter g_vFieldsArray g_strLine set_line].
  destruct (Nat.eqb_spec (length (split (g_strDelimiter st) (strip_crlf strLine)))
              (length (g_vFieldsArray st))) as [Hl | Hl]; [|discriminate].
  destruct (normalize h "" _ _) as [st' loc| |] eqn:N; try discriminate.
  destruct (bSaveSession loc) eqn:Hs; [|discriminate].
  intros [= <-]. exists st', loc.
  split; [reflexivity|]. split; [assumption|]. split; [reflexivity|].
  rewrite import_data_line_counted by assumption.
  cbn [g_strDelimiter g_vFieldsArray g_strLine set_line].
  rewrite N, Hs. reflexivity.
Qed.

(** The emulation column [VT320] on a host of version 7 and on one of
    version 8. *)
Lemma C6_vt320_witness :
  (exists st',
     import_field (sample_host 7 true) "emulation" " VT320"
       (initial sample_store) (line_locals "")
     = Go st' (set_save false (set_emulation "vt320" (line_locals "")))) /\
  import_field (sample_host 8 true) "Emulation" "vt320 "
    (initial sample_store) (line_locals "")
  = Go (initial sample_store) (set_emulation "VT320" (line_locals "")).
Proof.
  split.
  - eexists.
    apply (C6_vt320_version_gate (sample_host 7 true) "emulation" " VT320"
             (initial sample_store) (line_locals ""));
      [reflexivity | reflexivity | simpl; lia].
  - apply (C6_vt320_version_gate (sample_host 8 true) "Emulation" "vt320 "
             (initial sample_store) (line_locals ""));
      [reflexivity | reflexivity | simpl; lia].
Defined.

(** The protocol column on five sample values. *)
Lemma C3_protocol_witness :
  let st := initial sample_store in
  let loc := line_locals "" in
  import_protocol " Ssh2" st loc = (st, set_protocol "SSH2" loc) /\
  import_protocol "MS-RDP" st loc = (st, set_protocol "RDP" loc) /\
  bSaveSession (snd (import_protocol "Serial" st loc)) = false /\
  bSaveSession (snd (import_protocol "ftp" st loc)) = false /\
  import_protocol "ftp" (set_default_protocol "TELNET" st) loc
  = (set_default_protocol "TELNET" st, set_protocol "TELNET" loc).
Proof.
  cbv zeta.
  pose proof (C3_protocol_table " Ssh2" (initial sample_store) (line_locals ""))
    as (A & _).
  pose proof (C3_protocol_table "MS-RDP" (initial sample_store) (line_locals ""))
    as (_ & _ & _ & _ & B & _).
  pose proof (C3_protocol_table "Serial" (initial sample_store) (line_locals ""))
    as (_ & _ & _ & _ & _ & C & _).
  pose proof (C3_protocol_table "ftp" (initial sample_store) (line_locals ""))
    as (_ & _ & _ & _ & _ & _ & D & _).
  pose proof (C3_protocol_table "ftp"
                (set_default_protocol "TELNET" (initial sample_store))
                (line_locals ""))
    as (_ & _ & _ & _ & _ & _ & E & _).
  split; [apply A; reflexivity|].
  split; [apply B; reflexivity|].
  split; [rewrite C by (left; reflexivity); reflexivity|].
  split.
  - destruct D as [_ D];
      [intros H; repeat (destruct H as [H | H]; [discriminate H|]); exact H
      | reflexivity |].
    rewrite D by reflexivity. reflexivity.
  - destruct E as [E _];
      [intros H; repeat (destruct H as [H | H]; [discriminate H|]); exact H
      | reflexivity |].
    apply E. discriminate.
Defined.

(** The name validator on sample names, on Windows and elsewhere. *)
Lemma C8_name_witness :
  let windows := sample_host 9 true in
  let other := sample_host 9 false in
  let st := initial sample_store in
  fst (ValidateSessionFolderComponent other "a|b" "session" st) = false /\
  fst (ValidateSessionFolderComponent other "a|b" "folder" st) = false /\
  fst (ValidateSessionFolderComponent other "a/b" "session" st) = false /\
  fst (ValidateSessionFolderComponent windows "Com7" "session" st) = false /\
  fst (ValidateSessionFolderComponent windows "lab/Aux/rack" "folder" st) = false /\
  fst (ValidateSessionFolderComponent windows "CON" "folder" st) = false /\
  ValidateSessionFolderComponent other "CON" "folder" st = (true, st).
Proof.
  cbv zeta.
  pose proof (C8_name_validation (sample_host 9 false) "a|b" (initial sample_store))
    as (A & _).
  pose proof (C8_name_validation (sample_host 9 false) "a/b" (initial sample_store))
    as (_ & B & _).
  pose proof (C8_name_validation (sample_host 9 true) "Com7" (initial sample_store))
    as (_ & _ & C & _).
  pose proof (C8_name_validation (sample_host 9 true) "lab/Aux/rack"
                (initial sample_store)) as (_ & _ & D & _).
  pose proof (C8_name_validation (sample_host 9 true) "CON" (initial sample_store))
    as (_ & _ & E & _).
  pose proof (C8_name_validation (sample_host 9 false) "CON" (initial sample_store))
    as (_ & _ & _ & F & _).
  destruct (A "|"%char) as [A1 A2];
    [left; reflexivity | right; left; reflexivity |].
  split; [exact A2|]. split; [exact A1|].
  split; [apply B; right; left; reflexivity|].
  split; [apply C; [reflexivity | vm_compute; tauto]|].
  split.
  - apply (proj2 (D eq_refl) "Aux"); vm_compute; tauto.
  - split; [|apply F; reflexivity].
    apply (proj2 (E eq_refl) "CON"); vm_compute; tauto.
Defined.

(** An RDP line on a Windows host of version 8: it is not saved. *)
Lemma C7_rdp_witness :
  let h := sample_host 8 true in
  let st := after_header ["hostname"; "protocol"] "10.0.0.1,rdp" in
  exists st',
    import_data_line h "" st = Go st' tt /\
    sessions st' = sessions st /\
    g_nSessionsCreated st' = g_nSessionsCreated st /\
    (exists st2, g_strErrors st' = rdp_refusal h st2) /\
    (exists lines,
       g_strBogusLinesNotImported st' = lines ++ CRLF ++ g_strLine st).
Proof.
  cbv zeta.
  set (h := sample_host 8 true).
  set (st := after_header ["hostname"; "protocol"] "10.0.0.1,rdp").
  set (r := import_fields h (g_vFieldsArray st)
              (split (g_strDelimiter st) (g_strLine st)) st (line_locals "")).
  apply (C7_rdp_gate h "" st (final_state r)
           (match r with Go _ loc => loc | _ => line_locals "" end)).
  - discriminate.
  - reflexivity.
  - vm_compute. reflexivity.
  - vm_compute. reflexivity.
  - reflexivity.
Defined.




(** The header [foo] has no [hostname] field and no comma; with nothing
    typed at the prompt the run ends at the message about the delimiter,
    not at the one about [hostname]. *)
Lemma C5_delimiter_asked_first :
  has_field "hostname" (split "," "foo") = false /\
  exists st,
    Import (sample_host 9 true) (file_of ["foo"; "10.0.0.1"]) sample_store
    = Return st NoDelimiter.
Proof.
  split; [reflexivity|].
  exists (final_state
            (Import (sample_host 9 true) (file_of ["foo"; "10.0.0.1"])
               sample_store)).
  vm_compute. reflexivity.
Qed.

(** A header of [username] and [port]: the run ends at its first line. *)
Lemma C5_header_witness :
  exists st,
    Import (sample_host 9 true) (Some ["username,port"; "root,22"]) sample_store
    = Return st NoHostname /\
    sessions st = sample_store /\
    g_nSessionsCreated st = 0 /\ g_strSessionsCreated st = "" /\
    g_strErrors st = "" /\ g_strBogusLinesNotImported st = "" /\
    g_nDataLines st = 0.
Proof.
  apply (C5_header_without_hostname (sample_host 9 true) "username,port"
           ["root,22"] sample_store).
  - simpl. lia.
  - intros d Hd. vm_compute in Hd. injection Hd as <-. reflexivity.
Defined.

(** The same line read in two states that differ in errors, line number
    and store. *)
Lemma C9_record_witness :
  let st1 := after_header ["hostname"; "username"] "" in
  let st2 := set_errors "Error: earlier line"
               (set_line_number 7 (set_sessions ∅ st1)) in
  record_of_line (sample_host 9 true) st1 "10.0.0.1,root"
  = record_of_line (sample_host 9 true) st2 "10.0.0.1,root".
Proof.
  cbv zeta.
  apply (C9_record_is_a_function (sample_host 9 true) "10.0.0.1,root").
  unfold same_schema. repeat split; reflexivity.
Defined.

(** ** The header keeps its [hostname] field *)

Lemma has_char_append c (a b : string) :
  has_char c (a ++ b) = has_char c a || has_char c b.
Proof.
  induction a as [|x a IH]; [reflexivity|].
  rewrite append_cons. simpl. rewrite IH. apply orb_assoc.
Qed.

Lemma contains_char c (s : string) : contains (String c "") s = has_char c s.
Proof.
  induction s as [|x s IH]; [reflexivity|].
  simpl. rewrite IH.
  destruct (Ascii.eqb c x), s; reflexivity.
Qed.

Lemma has_char_lower_eq (s : string) :
  has_char "=" (lower s) = has_char "=" s.
Proof.
  unfold lower. induction s as [|x s IH]; [reflexivity|].
  simpl. rewrite IH. f_equal.
  destruct x as [[] [] [] [] [] [] [] []]; reflexivity.
Qed.

(** A text that begins with [old] holds every character of [old]. *)
Lemma startswith_has_char c (old s : string) :
  startswith old s = true -> has_char c old = true -> has_char c s = true.
Proof.
  revert s. induction old as [|a old IH]; intros [|b s] H Hc;
    simpl in *; try discriminate.
  apply andb_true_iff in H as [Hab H].
  apply Ascii.eqb_eq in Hab. subst b.
  apply orb_true_iff in Hc as [Hc | Hc]; [rewrite Hc; reflexivity|].
  rewrite (IH s H Hc). apply orb_true_r.
Qed.

(** [old] does not reach over a character it does not hold. *)
Lemma startswith_before d (old a r : string) :
  has_char d old = false ->
  startswith old (a ++ String d r) = startswith old a.
Proof.
  revert a. induction old as [|x old IH]; intros a Hd.
  - destruct a; reflexivity.
  - simpl in Hd. apply orb_false_iff in Hd as [Hx Hd].
    destruct a as [|y a].
    + rewrite append_nil_l. simpl. rewrite Ascii.eqb_sym, Hx. reflexivity.
    + rewrite append_cons. simpl. rewrite IH by assumption. reflexivity.
Qed.

Lemma startswith_length (old s : string) :
  startswith old s = true -> String.length old <= String.length s.
Proof.
  revert s. induction old as [|x old IH]; intros [|y s] H; simpl in *;
    try discriminate; try lia.
  apply andb_true_iff in H as [_ H]. apply IH in H. lia.
Qed.

(** Replacing [old], which does not hold [d], works on the two sides of a
    [d] apart. *)
Lemma replace_go_across d (old new r : string) :
  old <> "" -> has_char d old = false ->
  forall a skip, skip <= String.length a ->
  replace_go old new (a ++ String d r) skip
  = replace_go old new a skip ++ String d (replace_go old new r 0).
Proof.
  intros Hne Hd. induction a as [|c a IH]; intros skip Hs.
  - simpl in Hs. assert (skip = 0) by lia. subst skip.
    rewrite !append_nil_l. simpl.
    destruct old as [|x old]; [contradiction|].
    simpl in Hd. apply orb_false_iff in Hd as [Hx _].
    simpl. rewrite Ascii.eqb_sym, Hx. reflexivity.
  - assert (E1 : startswith old (String c (a ++ String d r))
                 = startswith old (String c a))
      by (rewrite <- append_cons; now apply startswith_before).
    rewrite append_cons. destruct skip as [|k]; cbn [replace_go].
    + rewrite E1. destruct (startswith old (String c a)) eqn:E.
      * rewrite IH.
        -- now rewrite append_assoc.
        -- apply startswith_length in E. simpl in E. lia.
      * rewrite IH by lia. reflexivity.
    + apply IH. simpl in Hs. lia.
Qed.

(** A text without the equals sign is left alone when [old] holds one. *)
Lemma replace_go_untouched (old new t : string) :
  has_char "=" old = true -> has_char "=" t = false ->
  replace_go old new t 0 = t.
Proof.
  intros Ho. induction t as [|c t IH]; intros Ht; [reflexivity|].
  cbn [replace_go].
  destruct (startswith old (String c t)) eqn:E.
  - rewrite (startswith_has_char "=" _ _ E Ho) in Ht. discriminate.
  - simpl in Ht. apply orb_false_iff in Ht as [_ Ht]. now rewrite IH.
Qed.

(** *** A delimiter of one character *)

Section OneCharacterDelimiter.

Variable d : ascii.

Lemma split_cons (c : ascii) (s : string) :
  split (String d "") (String c s) =
    if Ascii.eqb d c then "" :: split (String d "") s
    else match split (String d "") s with
         | t :: ts => String c t :: ts
         | [] => []
         end.
Proof.
  unfold split. cbn [split_go startswith String.length Nat.sub].
  rewrite andb_true_r.
  destruct (split_go (String d "") s 0) as [t ts].
  destruct (Ascii.eqb d c); reflexivity.
Qed.

Lemma split_not_nil (sep s : string) : split sep s <> [].
Proof. unfold split. destruct (split_go sep s 0). discriminate. Qed.

Lemma split_append (x y : string) :
  split (String d "") (x ++ String d y)
  = (split (String d "") x ++ split (String d "") y)%list.
Proof.
  induction x as [|c x IH].
  - rewrite append_nil_l, split_cons, Ascii.eqb_refl. reflexivity.
  - rewrite append_cons, !split_cons, IH.
    destruct (Ascii.eqb d c); [reflexivity|].
    destruct (split (String d "") x) eqn:E; [|reflexivity].
    exfalso. eapply split_not_nil; eauto.
Qed.

Lemma split_whole (t : string) :
  has_char d t = false -> split (String d "") t = [t].
Proof.
  induction t as [|c t IH]; intros H; [reflexivity|].
  simpl in H. apply orb_false_iff in H as [Hc H].
  rewrite split_cons, Hc, IH by assumption. reflexivity.
Qed.

Lemma split_pieces_clean (s t : string) :
  In t (split (String d "") s) -> has_char d t = false.
Proof.
  revert t. induction s as [|c s IH]; intros t.
  - intros [<- | []]. reflexivity.
  - rewrite split_cons. destruct (Ascii.eqb d c) eqn:E.
    + intros [<- | Hin]; [reflexivity | auto].
    + destruct (split (String d "") s) as [|t0 ts] eqn:Es; [intros []|].
      intros [<- | Hin].
      * simpl. rewrite E. apply IH. left; reflexivity.
      * apply IH. right; assumption.
Qed.

(** Replacing [old], which holds an equals sign and not the delimiter,
    leaves in place every piece of the text that holds neither. *)
Lemma replace_keeps_piece (old new t s : string) :
  has_char d old = false -> has_char "=" old = true ->
  has_char "=" t = false -> t <> "" ->
  In t (split (String d "") s) ->
  In t (split (String d "") (replace old new s)).
Proof.
  intros Hd He Ht Hne Hin.
  assert (Ho : old <> "") by (intros ->; discriminate He).
  pose proof (split_pieces_clean s t Hin) as Hc.
  destruct (split_between d t s Hin) as (a & b & E).
  apply (f_equal (fun x => replace_go old new x 0)) in E.
  cbv beta in E.
  change (String d (s ++ String d ""))
    with ("" ++ String d (s ++ String d "")) in E.
  rewrite (replace_go_across d old new _ Ho Hd "" 0) in E by (simpl; lia).
  rewrite (replace_go_across d old new "" Ho Hd s 0) in E by lia.
  rewrite (replace_go_across d old new _ Ho Hd a 0) in E by lia.
  rewrite (replace_go_across d old new b Ho Hd t 0) in E by lia.
  rewrite (replace_go_untouched old new t He Ht) in E.
  cbn [replace_go] in E. rewrite append_nil_l in E.
  fold (replace old new s) in E.
  apply (f_equal (split (String d ""))) in E.
  rewrite <- (append_nil_l (String d (replace old new s ++ String d ""))) in E.
  rewrite !split_append, (split_whole t Hc) in E.
  assert (Hm : In t (split (String d "") "" ++
                     split (String d "") (replace old new s) ++
                     split (String d "") "")%list).
  { rewrite E. apply in_or_app. right. left. reflexivity. }
  apply in_app_or in Hm as [[Hm | []] | Hm]; [congruence|].
  apply in_app_or in Hm as [Hm | [Hm | []]]; [assumption | congruence].
Qed.

(** The loop over the header's fields leaves the delimiter alone. *)
Lemma header_field_delimiter (acc : Globals * string) (strField : string) :
  g_strDelimiter (fst (header_field acc strField)) = g_strDelimiter (fst acc).
Proof.
  destruct acc as [st strFields]. unfold header_field.
  repeat case_if; reflexivity.
Qed.

Lemma header_fields_delimiter (fields : list string) :
  forall acc,
  g_strDelimiter (fst (fold_left header_field fields acc))
  = g_strDelimiter (fst acc).
Proof.
  induction fields as [|f fields IH]; intros acc; [reflexivity|].
  cbn [fold_left]. rewrite IH. apply header_field_delimiter.
Qed.

(** One round of that loop keeps the [hostname] piece of the header text,
    for a field that does not hold the delimiter. *)
Lemma header_field_keeps (st : Globals) (strFields strField : string) :
  has_char d strField = false ->
  (exists t, In t (split (String d "") strFields) /\ lower t = "hostname") ->
  exists t,
    In t (split (String d "") (snd (header_field (st, strFields) strField))) /\
    lower t = "hostname".
Proof.
  intros Hd Inv. unfold header_field.
  rewrite contains_char, has_char_lower_eq.
  destruct (has_char "=" strField) eqn:He;
    rewrite ?andb_false_r, ?andb_true_r.
  - assert (Keep : forall new s,
      (exists t, In t (split (String d "") s) /\ lower t = "hostname") ->
      exists t, In t (split (String d "") (replace strField new s)) /\
                lower t = "hostname").
    { intros new s (t & Hin & Hl). exists t. split; [|assumption].
      apply replace_keeps_piece; auto.
      - rewrite <- has_char_lower_eq, Hl. reflexivity.
      - intros ->. discriminate Hl. }
    repeat case_if; simpl; auto.
  - simpl. auto.
Qed.

Lemma header_fields_keep (fields : list string) :
  forall st strFields,
  (forall f, In f fields -> has_char d f = false) ->
  (exists t, In t (split (String d "") strFields) /\ lower t = "hostname") ->
  exists t,
    In t (split (String d "")
            (snd (fold_left header_field fields (st, strFields)))) /\
    lower t = "hostname".
Proof.
  induction fields as [|f fields IH]; intros st strFields Hf Inv.
  - simpl. auto.
  - cbn [fold_left].
    pose proof (header_field_keeps st strFields f) as I1.
    destruct (header_field (st, strFields) f) as [st1 s1]. simpl in I1.
    apply IH.
    + intros; apply Hf; right; assumption.
    + apply I1; [apply Hf; left; reflexivity | assumption].
Qed.

End OneCharacterDelimiter.

(** X20.  When the header is split by one character, as it is by the comma
    the script starts with, the field names that
    [ValidateFieldDesignations] leaves for the lines still have [hostname]
    among them, which is what a saved record needs for its host name. *)
Lemma ValidateFieldDesignations_keeps_hostname h strFields st st' :
  ValidateFieldDesignations h strFields st = Go st' tt ->
  String.length (g_strDelimiter st') = 1 ->
  has_field "hostname" (g_vFieldsArray st') = true.
Proof.
  unfold ValidateFieldDesignations.
  set (prompted := if negb (contains (g_strDelimiter st) strFields) then _ else _).
  destruct prompted as [st0|]; [|discriminate].
  destruct (is_empty (g_strDelimiter st0)); [discriminate|].
  cbn [g_vFieldsArray set_fields].
  destruct (has_field "hostname" _) eqn:Hh; cbn [negb]; [|discriminate].
  set (inherited := if _ && _ then _ else _).
  assert (Hi : forall st1, inherited = Some st1 ->
            g_strDelimiter st1 = g_strDelimiter st0 /\
            g_vFieldsArray st1 = split (g_strDelimiter st0) strFields).
  { subst inherited. intros st1.
    destruct (_ && _).
    - unfold OpenSessionConfiguration.
      destruct (sessions _ !! "Default") as [c|]; [|discriminate].
      destruct (c !! "Protocol Name") as [[]|]; try discriminate.
      intros [= <-]. split; reflexivity.
    - intros [= <-]. split; reflexivity. }
  destruct inherited as [st1|]; [|discriminate].
  destruct (Hi st1 eq_refl) as [D1 F1].
  pose proof (header_fields_delimiter (g_vFieldsArray st1) (st1, strFields)) as D2.
  pose proof (fun d => header_fields_keep d (g_vFieldsArray st1) st1 strFields) as K.
  destruct (fold_left header_field (g_vFieldsArray st1) (st1, strFields))
    as [st2 s2].
  cbn [fst snd] in D2, K.
  intros H Hlen. flow_inv. cbn [g_vFieldsArray g_strDelimiter set_fields] in *.
  rewrite D2, D1 in *.
  destruct (g_strDelimiter st0) as [|d [|? ?]]; try discriminate Hlen.
  destruct (K d) as (t & Hin & Hl).
  - intros f Hf. rewrite F1 in Hf. eapply split_pieces_clean; eauto.
  - apply has_field_In in Hh as (t & Hin & Hl). eauto.
  - unfold has_field. apply existsb_exists. exists (lower t).
    split; [apply in_map; assumption | rewrite Hl; reflexivity].
Qed.

(** With a delimiter of two characters typed at the prompt the premise
    can fail: replacing [b=protocol] by [protocol] eats the [b] of the
    delimiter after [hostname], the field names left are [protocol] and
    [hostnameaprotocol], both read as the protocol, and a line is saved
    with no host name and no session name. *)
Example two_character_delimiter :
  let h := {| g_nMajorVersion := 9; sys_getwindowsversion := true;
              sys_platform_win32 := true; int_max_str_digits := 4300;
              g_bOverwriteExistingSessions := false;
              dialog_prompt := "ab"; dialog_msgbox := 6;
              now_tag := fun _ => "20210625_120000.000" |} in
  let r := import_lines h false ""
             ["b=protocolabhostnameab=protocol"; "xabssh2"]
             (initial sample_store) in
  g_vFieldsArray (final_state r) = ["protocol"; "hostnameaprotocol"] /\
  has_field "hostname" (g_vFieldsArray (final_state r)) = false /\
  g_nSessionsCreated (final_state r) = 1 /\
  g_strSessionsCreated (final_state r) = "    ".
Proof. cbv zeta. repeat (split; [vm_compute; reflexivity|]). vm_compute; reflexivity. Qed.

(** ** What a saved record holds, for a header the script took *)

(** The field names that [ValidateFieldDesignations] leaves, for a header
    split by one character: a field that reads [hostname] is among them. *)
Lemma header_hostname_field h strFields st st' :
  ValidateFieldDesignations h strFields st = Go st' tt ->
  String.length (g_strDelimiter st') = 1 ->
  exists t, In t (g_vFieldsArray st') /\ lower t = "hostname".
Proof.
  unfold ValidateFieldDesignations.
  set (prompted := if negb (contains (g_strDelimiter st) strFields) then _ else _).
  destruct prompted as [st0|]; [|discriminate].
  destruct (is_empty (g_strDelimiter st0)); [discriminate|].
  cbn [g_vFieldsArray set_fields].
  destruct (has_field "hostname" _) eqn:Hh; cbn [negb]; [|discriminate].
  set (inherited := if _ && _ then _ else _).
  assert (Hi : forall st1, inherited = Some st1 ->
            g_strDelimiter st1 = g_strDelimiter st0 /\
            g_vFieldsArray st1 = split (g_strDelimiter st0) strFields).
  { subst inherited. intros st1.
    destruct (_ && _).
    - unfold OpenSessionConfiguration.
      destruct (sessions _ !! "Default") as [c|]; [|discriminate].
      destruct (c !! "Protocol Name") as [[]|]; try discriminate.
      intros [= <-]. split; reflexivity.
    - intros [= <-]. split; reflexivity. }
  destruct inherited as [st1|]; [|discriminate].
  destruct (Hi st1 eq_refl) as [D1 F1].
  pose proof (header_fields_delimiter (g_vFieldsArray st1) (st1, strFields)) as D2.
  pose proof (fun d => header_fields_keep d (g_vFieldsArray st1) st1 strFields) as K.
  destruct (fold_left header_field (g_vFieldsArray st1) (st1, strFields))
    as [st2 s2].
  cbn [fst snd] in D2, K.
  intros H Hlen. flow_inv. cbn [g_vFieldsArray g_strDelimiter set_fields] in *.
  rewrite D2, D1 in *.
  destruct (g_strDelimiter st0) as [|d [|? ?]]; try discriminate Hlen.
  apply (K d).
  - intros f Hf. rewrite F1 in Hf. eapply split_pieces_clean; eauto.
  - apply has_field_In in Hh as (t & Hin & Hl). eauto.
Qed.

(** C2, as the script has it.  Take a header that
    [ValidateFieldDesignations] took and that is split by one character,
    and a later line with as many values as there are fields, read with
    the session name empty as the loop leaves it.  When the line stays to
    be saved, its host name is not empty; its session name is not empty,
    and is the host name when every column of the session name branch is
    blank, which is so when there is none; and its port, when it is not
    empty, is text that [isdigit] accepts.  That is text [int] reads as a
    number that is not negative, and it reads it when all its characters
    are decimal digits, no more of them than the interpreter allows;
    a superscript digit makes [int] raise. *)
Theorem C2_saved_record (h : Host) (strFields : string)
  (st0 st1 st st' : Globals) (values : list string) (loc : Locals) :
  ValidateFieldDesignations h strFields st0 = Go st1 tt ->
  String.length (g_strDelimiter st1) = 1 ->
  g_vFieldsArray st = g_vFieldsArray st1 ->
  length values = length (g_vFieldsArray st) ->
  normalize h "" values st = Go st' loc ->
  bSaveSession loc = true ->
  strHostName loc <> "" /\
  strSessionName loc <> "" /\
  ((forall strField value,
      In (strField, value) (combine (g_vFieldsArray st) values) ->
      field_kind (lower (strip strField)) = FSessionName ->
      strip value = "") ->
   strSessionName loc = strHostName loc) /\
  (strPort loc <> "" ->
   isdigit (strPort loc) = true /\
   (forall n, int (int_max_str_digits h) (strPort loc) = Some n -> (0 <= n)%Z) /\
   (is_Some (int (int_max_str_digits h) (strPort loc)) <->
    decimal (strPort loc) = true /\
    over_limit (int_max_str_digits h) (String.length (strPort loc)) = false)).
Proof.
  intros Hv Hd Hf Hl Hn Hs.
  destruct (header_hostname_field _ _ _ _ Hv Hd) as (t & Hin & Ht).
  assert (Hh : has_field "hostname" (g_vFieldsArray st) = true).
  { rewrite Hf. unfold has_field. apply existsb_exists. exists (lower t).
    split; [apply in_map; assumption | rewrite Ht; reflexivity]. }
  destruct (saved_record h values st st' loc Hh Hl Hn Hs) as (A & B & C & D).
  split; [exact A|]. split; [exact B|]. split; [exact C|].
  intros Hp. specialize (D Hp). split; [exact D|].
  apply int_isdigit, D.
Qed.

(** A line with host name, port and a blank session name, after the header
    [hostname,port,session_name]. *)
Lemma C2_saved_record_witness :
  let h := sample_host 9 true in
  let st1 := final_state (ValidateFieldDesignations h
                            "hostname,port,session_name"
                            (initial sample_store)) in
  let r := normalize h "" ["10.0.0.1"; "22"; " "] st1 in
  let loc := match r with Go _ loc => loc | _ => line_locals "" end in
  strHostName loc <> "" /\
  strSessionName loc <> "" /\
  strSessionName loc = strHostName loc /\
  isdigit (strPort loc) = true /\
  is_Some (int (int_max_str_digits h) (strPort loc)).
Proof.
  cbv zeta.
  set (h := sample_host 9 true).
  set (st1 := final_state _).
  set (r := normalize _ _ _ _).
  destruct (C2_saved_record h "hostname,port,session_name"
              (initial sample_store) st1 st1 (final_state r)
              ["10.0.0.1"; "22"; " "]
              (match r with Go _ loc => loc | _ => line_locals "" end))
    as (A & B & C & D).
  - vm_compute. reflexivity.
  - vm_compute. reflexivity.
  - reflexivity.
  - vm_compute. reflexivity.
  - vm_compute. reflexivity.
  - vm_compute. reflexivity.
  - split; [exact A|]. split; [exact B|]. split.
    + apply C. intros f v Hin Hk.
      vm_compute in Hin.
      destruct Hin as [E | [E | [E | []]]]; injection E as <- <-;
        first [reflexivity | vm_compute in Hk; discriminate Hk].
    + destruct D as (D1 & _ & D3); [vm_compute; discriminate|].
      split; [exact D1|]. apply D3. split; vm_compute; reflexivity.
Defined.

(** Three records that stay to be saved.  The port [0] is no positive
    number, and the session is saved with it.  The port of the one
    character superscript two (178) is text that [isdigit] accepts and
    [int] does not read: the run ends with the exception of line 912,
    after the session was saved with its protocol only (line 869), and the
    session is not counted.  And for a header with a [hostname] field that
    is split by the two characters typed at the prompt, replacing
    [b=protocol] by [protocol] eats the [b] of the delimiter after
    [hostname]: the record of the line has no host name and no session
    name. *)
Lemma C2_record_not_as_claimed :
  let h := sample_host 9 true in
  (let strLine := "10.0.0.1,0,ssh2" in
   let st := after_header ["hostname"; "port"; "protocol"] strLine in
   exists st' loc st'' objSaved,
     normalize h "" ["10.0.0.1"; "0"; "ssh2"] st = Go st' loc /\
     bSaveSession loc = true /\ strPort loc = "0" /\
     Import h (file_of ["hostname,port,protocol"; strLine]) sample_store
       = Go st'' tt /\
     sessions st'' !! "10.0.0.1" = Some objSaved /\
     objSaved !! "[SSH2] Port" = Some (VInt 0)) /\
  (let two := String "178" "" in
   let strLine := "10.0.0.1," ++ two ++ ",ssh2" in
   let st := after_header ["hostname"; "port"; "protocol"] strLine in
   exists st' loc st'',
     normalize h "" ["10.0.0.1"; two; "ssh2"] st = Go st' loc /\
     bSaveSession loc = true /\ strPort loc = two /\
     isdigit (strPort loc) = true /\
     int (int_max_str_digits h) (strPort loc) = None /\
     Import h (file_of ["hostname,port,protocol"; strLine]) sample_store
       = Raised st'' /\
     sessions st'' !! "10.0.0.1" = Some {[ "Protocol Name" := VStr "SSH2" ]} /\
     g_nSessionsCreated st'' = 0) /\
  (let h2 := {| g_nMajorVersion := 9; sys_getwindowsversion := true;
                sys_platform_win32 := true; int_max_str_digits := 4300;
                g_bOverwriteExistingSessions := false;
                dialog_prompt := "ab"; dialog_msgbox := 6;
                now_tag := fun _ => "20210625_120000.000" |} in
   let strFields := "b=protocolabhostnameab=protocol" in
   exists st1 st' loc,
     ValidateFieldDesignations h2 strFields (initial sample_store) = Go st1 tt /\
     g_strDelimiter st1 = "ab" /\
     has_field "hostname" (split "ab" strFields) = true /\
     normalize h2 "" (split "ab" "xabssh2") st1 = Go st' loc /\
     bSaveSession loc = true /\ strHostName loc = "" /\
     strSessionName loc = "").
Proof.
  cbv zeta. split; [|split].
  - set (r := normalize _ _ _ _).
    set (i := Import _ _ _).
    exists (final_state r),
      (match r with Go _ loc => loc | _ => line_locals "" end),
      (final_state i),
      (match sessions (final_state i) !! "10.0.0.1" with
       | Some c => c
       | None => ∅
       end).
    repeat (split; [vm_compute; reflexivity|]). vm_compute. reflexivity.
  - set (r := normalize _ _ _ _).
    set (i := Import _ _ _).
    exists (final_state r),
      (match r with Go _ loc => loc | _ => line_locals "" end),
      (final_state i).
    repeat (split; [vm_compute; reflexivity|]). vm_compute. reflexivity.
  - match goal with
    | |- context [ValidateFieldDesignations ?h0 _ _] => set (h2 := h0)
    end.
    set (v := ValidateFieldDesignations _ _ _).
    pose (r := normalize h2 "" (split "ab" "xabssh2") (final_state v)).
    exists (final_state v), (final_state r),
      (match r with Go _ loc => loc | _ => line_locals "" end).
    repeat (split; [vm_compute; reflexivity|]). vm_compute. reflexivity.
Qed.

(** ** A line is saved or explained *)

Lemma listing_app (a b : list string) :
  listing (a ++ b) = listing a ++ listing b.
Proof.
  induction a as [|x a IH]; [reflexivity|].
  cbn [listing app]. rewrite IH. now rewrite !append_assoc.
Qed.

Lemma listing_one (s strLine : string) :
  s ++ CRLF ++ strLine = s ++ listing [strLine].
Proof. cbn [listing]. now rewrite append_nil_r. Qed.

Lemma only_errors_refl st : only_errors st st.
Proof. split; [apply only_report_refl | reflexivity]. Qed.

Lemma only_errors_trans st1 st2 st3 :
  only_errors st1 st2 -> only_errors st2 st3 -> only_errors st1 st3.
Proof.
  intros [A1 B1] [A2 B2]. split; [eauto using only_report_trans | congruence].
Qed.

Ltac errors_frame := split; [report_frame | reflexivity].

(** A round of the loop over the fields changes the error text only,
    however it ends. *)
Lemma import_field_only_errors h strField value st loc :
  only_errors st (final_state (import_field h strField value st loc)).
Proof.
  unfold import_field, import_protocol, import_emulation.
  destruct (field_kind (lower (strip strField)));
    repeat case_if; errors_frame.
Qed.

Lemma import_fields_only_errors h fields :
  forall values st loc,
  only_errors st (final_state (import_fields h fields values st loc)).
Proof.
  induction fields as [|f fields IH]; intros [|v values] st loc;
    cbn [import_fields final_state]; try apply only_errors_refl.
  pose proof (import_field_only_errors h f v st loc) as F.
  destruct (import_field h f v st loc) as [st1 loc1| |]; cbn [final_state] in *;
    try exact F.
  eapply only_errors_trans; [exact F | apply IH].
Qed.

(** A round either leaves the globals and [bSaveSession] as they were, or
    clears [bSaveSession] and makes the error text longer. *)
Lemma import_field_errors h strField value st loc st' loc' :
  import_field h strField value st loc = Go st' loc' ->
  (st' = st /\ bSaveSession loc' = bSaveSession loc) \/
  (bSaveSession loc' = false /\
   String.length (g_strErrors st) < String.length (g_strErrors st')).
Proof.
  unfold import_field, import_protocol, import_emulation, line_ref. intros H.
  destruct (field_kind (lower (strip strField)));
    repeat case_if; flow_inv; try discriminate;
    solve [ left; split; reflexivity
          | right; split; [reflexivity|];
            cbn [g_strErrors set_errors];
            rewrite !length_append; cbn [String.length]; lia ].
Qed.

Lemma import_fields_explained h fields e0 :
  forall values st loc st' loc',
  import_fields h fields values st loc = Go st' loc' ->
  explained e0 st loc -> explained e0 st' loc'.
Proof.
  induction fields as [|f fields IH]; intros [|v values] st loc st' loc' H E;
    cbn [import_fields] in H; flow_inv; auto.
  destruct (import_field h f v st loc) as [st1 loc1| |] eqn:F; try discriminate.
  apply (IH _ _ _ _ _ H).
  destruct (import_field_errors _ _ _ _ _ _ _ F) as [[-> Hs] | [Hs Hl]];
    unfold explained in *.
  - rewrite Hs. exact E.
  - rewrite Hs. destruct (bSaveSession loc); [rewrite E in Hl; exact Hl | lia].
Qed.

Lemma break_errors_length st :
  String.length (g_strErrors st) <= String.length (g_strErrors (break_errors st)).
Proof.
  unfold break_errors. case_if; cbn [g_strErrors set_errors];
    rewrite ?length_append; lia.
Qed.

Lemma ValidateSessionFolderComponent_errors h strComponent strType st :
  let r := ValidateSessionFolderComponent h strComponent strType st in
  (fst r = true /\ snd r = st) \/
  (fst r = false /\
   String.length (g_strErrors st) < String.length (g_strErrors (snd r))).
Proof.
  cbv zeta. pose proof (break_errors_length st) as B.
  unfold ValidateSessionFolderComponent.
  destruct (search_class _ strComponent).
  - right. split; [reflexivity|].
    cbn [snd add_bogus_line g_strErrors set_errors set_bogus].
    rewrite !length_append; cbn [String.length]; lia.
  - destruct (sys_getwindowsversion h); [|left; split; reflexivity].
    destruct (if String.eqb (lower strType) "folder" then _ else _).
    + right. split; [reflexivity|].
      cbn [snd add_bogus_line g_strErrors set_errors set_bogus].
      rewrite !length_append; cbn [String.length]; lia.
    + left; split; reflexivity.
Qed.

Lemma ValidateProtocolComponent_errors h strProtocol st :
  let r := ValidateProtocolComponent h strProtocol st in
  (fst r = true /\ snd r = st) \/
  (fst r = false /\
   String.length (g_strErrors st) < String.length (g_strErrors (snd r))).
Proof.
  cbv zeta. pose proof (break_errors_length st) as B.
  unfold ValidateProtocolComponent.
  destruct (contains "rdp" (lower strProtocol)); [|left; split; reflexivity].
  destruct (g_nMajorVersion h <? 9)%Z; [|destruct (sys_platform_win32 h)];
    cbn [negb fst snd];
    try (left; split; reflexivity);
    (right; split; [reflexivity|];
     cbn [snd add_bogus_line g_strErrors set_errors set_bogus];
     rewrite !length_append; cbn [String.length]; lia).
Qed.

(** The three validators: what is left of [bSaveSession], of the error
    text and of the list of lines not imported. *)
Lemma validate_record_report h st loc st' loc' :
  validate_record h st loc = (st', loc') ->
  (refusals h loc' = 0 /\ st' = st /\ bSaveSession loc' = bSaveSession loc \/
   0 < refusals h loc' /\ bSaveSession loc' = false /\
   String.length (g_strErrors st) < String.length (g_strErrors st')) /\
  g_strBogusLinesNotImported st' =
    g_strBogusLinesNotImported st ++
    listing (repeat (g_strLine st) (refusals h loc')).
Proof.
  intros H.
  pose proof (validate_record_spec _ _ _ _ _ H) as (_ & _ & _ & _ & _ & Hp & _).
  revert H. unfold validate_record, refusals. rewrite Hp.
  set (loc1 := if String.eqb (strSessionName loc) "" then _ else _).
  pose proof (ValidateSessionFolderComponent_fst h (strSessionName loc1) "session" st) as V1.
  pose proof (ValidateSessionFolderComponent_snd h (strSessionName loc1) "session" st) as S1.
  pose proof (ValidateSessionFolderComponent_errors h (strSessionName loc1) "session" st) as E1.
  pose proof (ValidateSessionFolderComponent_frame h (strSessionName loc1) "session" st) as F1.
  destruct (ValidateSessionFolderComponent h (strSessionName loc1) "session" st)
    as [ok1 st1]. cbv zeta in S1, E1. cbn [fst snd] in V1, S1, E1, F1.
  set (loc2 := if negb ok1 then _ else _).
  set (loc3 := if String.eqb (strFolderOrig loc2) "" then _ else _).
  pose proof (ValidateSessionFolderComponent_fst h (strFolderOrig loc3) "folder" st1) as V2.
  pose proof (ValidateSessionFolderComponent_snd h (strFolderOrig loc3) "folder" st1) as S2.
  pose proof (ValidateSessionFolderComponent_errors h (strFolderOrig loc3) "folder" st1) as E2.
  pose proof (ValidateSessionFolderComponent_frame h (strFolderOrig loc3) "folder" st1) as F2.
  destruct (ValidateSessionFolderComponent h (strFolderOrig loc3) "folder" st1)
    as [ok2 st2]. cbv zeta in S2, E2. cbn [fst snd] in V2, S2, E2, F2.
  set (loc4 := if negb ok2 then _ else _).
  pose proof (ValidateProtocolComponent_fst h (strProtocol loc4) st2) as V3.
  pose proof (ValidateProtocolComponent_snd h (strProtocol loc4) st2) as S3.
  pose proof (ValidateProtocolComponent_errors h (strProtocol loc4) st2) as E3.
  destruct (ValidateProtocolComponent h (strProtocol loc4) st2) as [ok3 st3].
  cbv zeta in S3, E3. cbn [fst snd] in V3, S3, E3.
  intros H. injection H as Hst Hloc. subst st' loc'.
  assert (N1 : strSessionName
            (if negb ok3 then set_save false loc4 else loc4) = strSessionName loc1).
  { subst loc4 loc3 loc2. repeat case_if; reflexivity. }
  assert (N2 : strFolderOrig
            (if negb ok3 then set_save false loc4 else loc4) = strFolderOrig loc3).
  { subst loc4. repeat case_if; reflexivity. }
  assert (N3 : strProtocol loc4 = strProtocol loc).
  { subst loc4 loc3 loc2 loc1. repeat case_if; reflexivity. }
  assert (N4 : bSaveSession (if negb ok3 then set_save false loc4 else loc4)
               = bSaveSession loc && ok1 && ok2 && ok3).
  { subst loc4 loc3 loc2 loc1. clear.
    destruct ok1, ok2, ok3; cbn [negb]; repeat case_if; simpl;
      rewrite ?andb_true_r, ?andb_false_r; reflexivity. }
  rewrite N1, N2, N4, <- V1, <- V2. rewrite N3 in V3. rewrite <- V3.
  destruct F1 as (_ & _ & _ & _ & _ & L1 & _).
  destruct F2 as (_ & _ & _ & _ & _ & L2 & _).
  clear V1 V2 V3 N1 N2 N3 N4. clearbody loc1 loc2 loc3 loc4.
  destruct S1 as [S1t S1f], S2 as [S2t S2f], S3 as [S3t S3f].
  destruct ok1, ok2, ok3; cbn [negb Nat.b2n Nat.add repeat listing];
    repeat match goal with
           | H : true = true -> _ |- _ => specialize (H eq_refl)
           | H : false = false -> _ |- _ => specialize (H eq_refl)
           | H : true = false -> _ |- _ => clear H
           | H : false = true -> _ |- _ => clear H
           | H : _ /\ _ \/ _ /\ _ |- _ =>
               destruct H as [[? ?] | [? ?]]; try discriminate
           | H : _ /\ _ |- _ => destruct H
           end;
    subst;
    rewrite ?andb_true_r, ?andb_false_r, ?append_nil_r;
    (split;
     [ first [ left; repeat split; reflexivity
             | right; repeat split; lia ]
     | try reflexivity ]).
  all: repeat match goal with
              | H : g_strBogusLinesNotImported _ = _ |- _ => rewrite H; clear H
              end;
       rewrite ?L2, ?L1, ?append_assoc; reflexivity.
Qed.

Lemma create_session_cases h st loc :
  create_session_ends h st loc (create_session h st loc).
Proof.
  remember (create_session h st loc) as r eqn:E.
  unfold create_session, OpenSessionConfiguration in E.
  rewrite session_path_default_username in E.
  unfold create_session_ends. cbv zeta.
  set (p := session_path h st loc) in *.
  destruct (sessions st !! "Default") as [objConfig|]; [|left; exact E].
  unfold Save at 1 in E. cbn [sessions set_sessions] in E.
  rewrite lookup_insert_eq in E. cbv iota in E.
  unfold SetOption at 1 in E. rewrite lookup_insert_eq in E.
  destruct (negb (is_text _ _)); [right; right; left; eauto|].
  destruct (line_options _ _ _) as [[|]|];
    [right; right; left; eauto | | right; left; eauto].
  right; right; right. eauto.
Qed.

(** Saving a session touches the store, the list of sessions created and
    their count, and nothing else, however it ends. *)
Lemma create_session_report h st loc :
  let st' := final_state (create_session h st loc) in
  g_strErrors st' = g_strErrors st /\
  g_strBogusLinesNotImported st' = g_strBogusLinesNotImported st /\
  g_strLine st' = g_strLine st /\
  g_nCurLineNumber st' = g_nCurLineNumber st /\
  g_nDataLines st' = g_nDataLines st /\
  same_schema st st'.
Proof.
  cbv zeta.
  destruct (create_session_cases h st loc)
    as [-> | [(c & ->) | [(c & why & ->) | (c0 & c & ->)]]];
    unfold same_schema; cbn [final_state]; repeat split; reflexivity.
Qed.

Lemma explained_length e0 st loc :
  explained e0 st loc -> String.length e0 <= String.length (g_strErrors st).
Proof. unfold explained. destruct (bSaveSession loc); [intros -> |]; lia. Qed.

(** X1.  A data line that lets the run go on either is saved, and then one
    session more is counted and neither the error text nor the list of
    lines not imported has changed; or it is not saved, and then the count
    and the store are as they were and the error text has grown.  No line
    is dropped without a word in the report. *)
Theorem import_data_line_saved_or_explained (h : Host) (strSessionName : string)
  (st st' : Globals) :
  import_data_line h strSessionName st = Go st' tt ->
  (g_nSessionsCreated st' = S (g_nSessionsCreated st) /\
   g_strErrors st' = g_strErrors st /\
   g_strBogusLinesNotImported st' = g_strBogusLinesNotImported st) \/
  (g_nSessionsCreated st' = g_nSessionsCreated st /\
   sessions st' = sessions st /\
   String.length (g_strErrors st) < String.length (g_strErrors st')).
Proof.
  unfold import_data_line.
  destruct (is_empty (g_strDelimiter st)); [discriminate|].
  destruct (Nat.ltb _ _).
  { intros H. flow_inv. right. split; [|split].
    - case_if; reflexivity.
    - case_if; reflexivity.
    - unfold line_ref. case_if;
        cbn [g_strErrors set_errors set_line g_strLine g_nCurLineNumber];
        rewrite !length_append; cbn [String.length]; lia. }
  destruct (Nat.ltb _ _).
  { intros H. flow_inv. right. split; [reflexivity|]. split; [reflexivity|].
    cbn [add_bogus_line g_strErrors set_errors set_bogus].
    rewrite !length_append; cbn [String.length]; lia. }
  destruct (normalize h strSessionName _ st) as [st1 loc1| |] eqn:N;
    try discriminate.
  apply normalize_inv in N as (s0 & l0 & Hf & Hv).
  pose proof (import_fields_only_errors h (g_vFieldsArray st)
                (split (g_strDelimiter st) (g_strLine st)) st
                (line_locals strSessionName)) as F.
  rewrite Hf in F. cbn [final_state] in F.
  destruct F as [(_ & _ & _ & _ & _ & _ & _ & _ & Fn & _ & Fs) Fb].
  assert (E : explained (g_strErrors st) s0 l0).
  { eapply import_fields_explained; [exact Hf | reflexivity]. }
  pose proof (explained_length _ _ _ E) as El.
  pose proof (validate_record_frame h s0 l0) as V. rewrite Hv in V.
  cbn [fst] in V.
  destruct V as (_ & _ & _ & _ & _ & _ & _ & _ & Vn & _ & Vs).
  destruct (validate_record_report _ _ _ _ _ Hv) as [R Rb].
  destruct (bSaveSession loc1) eqn:Hs.
  - intros H. left.
    destruct R as [(R0 & -> & Rs) | (_ & Rs & _)]; [|congruence].
    unfold explained in E. rewrite <- Rs in E.
    pose proof (create_session_report h s0 loc1) as (Ce & Cb & _).
    rewrite H in Ce, Cb. cbn [final_state] in Ce, Cb.
    split; [|split]; try congruence.
    rewrite (create_session_counts _ _ _ _ H). congruence.
  - intros H. flow_inv. right. split; [congruence|]. split; [congruence|].
    destruct R as [(_ & -> & Rs) | (_ & _ & Rl)]; [|lia].
    unfold explained in E. rewrite <- Rs in E. exact E.
Qed.

(** ** What goes on the list of lines not imported *)

Lemma import_data_line_listing h strSessionName st :
  exists k, k <= 3 /\
    g_strBogusLinesNotImported (final_state (import_data_line h strSessionName st))
    = g_strBogusLinesNotImported st ++ listing (repeat (g_strLine st) k).
Proof.
  unfold import_data_line.
  destruct (is_empty (g_strDelimiter st)).
  { exists 0. split; [lia|]. cbn [final_state repeat listing].
    now rewrite append_nil_r. }
  destruct (Nat.ltb _ _).
  { exists 0. split; [lia|]. cbn [final_state repeat listing].
    rewrite append_nil_r. case_if; reflexivity. }
  destruct (Nat.ltb _ _).
  { exists 1. split; [lia|]. cbn [final_state repeat].
    rewrite <- listing_one. reflexivity. }
  pose proof (import_fields_only_errors h (g_vFieldsArray st)
                (split (g_strDelimiter st) (g_strLine st)) st
                (line_locals strSessionName)) as F.
  unfold normalize.
  destruct (import_fields h (g_vFieldsArray st) _ st _) as [s0 l0| |];
    cbn [final_state] in F; destruct F as [(_ & _ & _ & _ & _ & Fl & _) Fb].
  2,3: exists 0; split; [lia|]; cbn [final_state repeat listing];
       now rewrite append_nil_r.
  destruct (validate_record h s0 l0) as [st1 loc1] eqn:Hv.
  destruct (validate_record_report _ _ _ _ _ Hv) as [_ Rb].
  exists (refusals h loc1). split.
  { unfold refusals.
    destruct (negb _), (negb _), (negb _); cbn [Nat.b2n Nat.add]; lia. }
  rewrite <- Fb, <- Fl, <- Rb.
  destruct (bSaveSession loc1); [|reflexivity].
  now destruct (create_session_report h st1 loc1) as (_ & -> & _).
Qed.

(** ** The header and the lines *)

Lemma only_schema_refl st : only_schema st st.
Proof. unfold only_schema; repeat split; reflexivity. Qed.

Lemma only_schema_trans st1 st2 st3 :
  only_schema st1 st2 -> only_schema st2 st3 -> only_schema st1 st3.
Proof. unfold only_schema; intuition congruence. Qed.

Lemma header_field_only_schema (acc : Globals * string) (strField : string) :
  only_schema (fst acc) (fst (header_field acc strField)).
Proof.
  destruct acc as [st strFields]. unfold header_field.
  repeat case_if; unfold only_schema; simpl; repeat split; reflexivity.
Qed.

Lemma header_fields_only_schema (fields : list string) :
  forall acc, only_schema (fst acc) (fst (fold_left header_field fields acc)).
Proof.
  induction fields as [|f fields IH]; intros acc; [apply only_schema_refl|].
  cbn [fold_left].
  eapply only_schema_trans; [apply header_field_only_schema | apply IH].
Qed.

(** Reading the header changes the delimiter, the field names and the
    defaults, and nothing else, however it ends. *)
Lemma ValidateFieldDesignations_only_schema h strFields st :
  only_schema st (final_state (ValidateFieldDesignations h strFields st)).
Proof.
  unfold ValidateFieldDesignations.
  set (prompted := if negb (contains (g_strDelimiter st) strFields) then _ else _).
  assert (Hp : forall st0, prompted = Some st0 -> only_schema st st0).
  { subst prompted. intros st0. repeat case_if; intros [= <-];
      unfold only_schema; simpl; repeat split; reflexivity. }
  destruct prompted as [st0|]; [|apply only_schema_refl].
  specialize (Hp st0 eq_refl).
  destruct (is_empty (g_strDelimiter st0)); [exact Hp|].
  set (st1 := set_fields _ st0).
  assert (H1 : only_schema st st1).
  { eapply only_schema_trans; [exact Hp|].
    unfold only_schema; simpl; repeat split; reflexivity. }
  destruct (negb (has_field "hostname" (g_vFieldsArray st1))); [exact H1|].
  set (inherited := if _ && _ then _ else _).
  assert (Hi : forall st2, inherited = Some st2 -> only_schema st st2).
  { subst inherited. intros st2. destruct (_ && _).
    - unfold OpenSessionConfiguration.
      destruct (sessions st1 !! "Default") as [c|]; [|discriminate].
      destruct (c !! "Protocol Name") as [[]|]; try discriminate.
      intros [= <-]. eapply only_schema_trans; [exact H1|].
      unfold only_schema; simpl; repeat split; reflexivity.
    - intros [= <-]. exact H1. }
  destruct inherited as [st2|]; [|exact H1].
  specialize (Hi st2 eq_refl).
  pose proof (header_fields_only_schema (g_vFieldsArray st2) (st2, strFields)) as F.
  destruct (fold_left header_field (g_vFieldsArray st2) (st2, strFields))
    as [st3 s3].
  cbn [fst final_state] in *.
  eapply only_schema_trans; [exact Hi|].
  eapply only_schema_trans; [exact F|].
  unfold only_schema; simpl; repeat split; reflexivity.
Qed.

(** A property of the globals that the header, every line and the
    bookkeeping between the lines keep holds of the whole run. *)
Lemma import_lines_inv (R : Globals -> Globals -> Prop) (h : Host) :
  (forall st, R st st) ->
  (forall st1 st2 st3, R st1 st2 -> R st2 st3 -> R st1 st3) ->
  (forall v st, R st (set_line v st)) ->
  (forall v st, R st (set_line_number v st)) ->
  (forall v st, R st (set_data_lines v st)) ->
  (forall strFields st,
     R st (final_state (ValidateFieldDesignations h strFields st))) ->
  (forall strSessionName st,
     R st (final_state (import_data_line h strSessionName st))) ->
  forall lines bFoundHeader strSessionName st,
  R st (final_state (import_lines h bFoundHeader strSessionName lines st)).
Proof.
  intros Hrefl Htrans Hline Hnum Hdata Hhead Hrow.
  induction lines as [|strLine lines IH]; intros b sn st; [apply Hrefl|].
  cbn [import_lines].
  set (st1 := set_line_number _ (set_line _ st)).
  assert (H1 : R st st1) by (eapply Htrans; [apply Hline | apply Hnum]).
  assert (H2 : R st1 (final_state
            (if negb b then ValidateFieldDesignations h (g_strLine st1) st1
             else import_data_line h sn st1)))
    by (destruct b; [apply Hrow | apply Hhead]).
  destruct (if negb b then _ else _) as [st2 []| |]; cbn [final_state] in *;
    try (eapply Htrans; eassumption).
  eapply Htrans; [exact H1|]. eapply Htrans; [exact H2|].
  eapply Htrans; [apply Hdata | apply IH].
Qed.

(** What a data line does to the store and to the list of sessions created
    it does in [create_session], from globals that have the store and the
    list as the line found them. *)
Lemma import_data_line_store h strSessionName st :
  let st' := final_state (import_data_line h strSessionName st) in
  (sessions st' = sessions st /\
   g_strSessionsCreated st' = g_strSessionsCreated st /\
   g_nSessionsCreated st' = g_nSessionsCreated st /\
   g_nCurLineNumber st' = g_nCurLineNumber st /\
   g_nDataLines st' = g_nDataLines st) \/
  (exists st1 loc,
     sessions st1 = sessions st /\
     g_strSessionsCreated st1 = g_strSessionsCreated st /\
     g_nSessionsCreated st1 = g_nSessionsCreated st /\
     g_nCurLineNumber st1 = g_nCurLineNumber st /\
     g_nDataLines st1 = g_nDataLines st /\
     st' = final_state (create_session h st1 loc)).
Proof.
  cbv zeta. unfold import_data_line.
  destruct (is_empty (g_strDelimiter st)); [left; repeat split; reflexivity|].
  destruct (Nat.ltb _ _); [left; case_if; repeat split; reflexivity|].
  destruct (Nat.ltb _ _); [left; repeat split; reflexivity|].
  pose proof (import_fields_only_errors h (g_vFieldsArray st)
                (split (g_strDelimiter st) (g_strLine st)) st
                (line_locals strSessionName)) as F.
  unfold normalize.
  destruct (import_fields h (g_vFieldsArray st) _ st _) as [s0 l0| |];
    cbn [final_state] in F;
    destruct F as [(_ & _ & _ & _ & _ & _ & Fl & Fc & Fn & Fd & Fs) _].
  2,3: left; cbn [final_state]; repeat split; assumption.
  pose proof (validate_record_frame h s0 l0) as V.
  destruct (validate_record h s0 l0) as [st1 loc1]. cbn [fst] in V.
  destruct V as (_ & _ & _ & _ & _ & _ & Vl & Vc & Vn & Vd & Vs).
  destruct (bSaveSession loc1).
  - right. exists st1, loc1. repeat split; congruence.
  - left. cbn [final_state]. repeat split; congruence.
Qed.

(** ** The sessions that were in the store *)

Lemma startswith_append (sub b : string) : startswith sub (sub ++ b) = true.
Proof.
  induction sub as [|c sub IH]; [reflexivity|].
  rewrite append_cons. cbn [startswith]. now rewrite Ascii.eqb_refl, IH.
Qed.

Lemma contains_append (sub a b : string) : contains sub (a ++ sub ++ b) = true.
Proof.
  induction a as [|c a IH].
  - rewrite append_nil_l. destruct (sub ++ b) eqn:E;
      cbn [contains]; rewrite <- E, startswith_append; reflexivity.
  - rewrite append_cons. cbn [contains]. rewrite IH. apply orb_true_r.
Qed.

(** With overwriting off, the path a session is saved at is either a path
    the store does not have or a path with the tag of an import. *)
Lemma session_path_fresh_or_tagged h st loc :
  g_bOverwriteExistingSessions h = false ->
  sessions st !! session_path h st loc = None \/
  contains "(import_(" (session_path h st loc) = true.
Proof.
  intros Ho. unfold session_path, SessionExists, OpenSessionConfiguration.
  rewrite Ho.
  destruct (sessions st !! folder_path loc) eqn:E; cbn [andb negb].
  - right. unfold import_tag.
    change ("(import_(" ++ now_tag h (g_nCurLineNumber st) ++ ")")
      with ("(import_(" ++ (now_tag h (g_nCurLineNumber st) ++ ")")).
    apply contains_append.
  - left. exact E.
Qed.

Lemma import_data_line_kept h strSessionName st (q : string)
  (c : gmap string OptVal) :
  g_bOverwriteExistingSessions h = false ->
  contains "(import_(" q = false ->
  sessions st !! q = Some c ->
  sessions (final_state (import_data_line h strSessionName st)) !! q = Some c.
Proof.
  intros Ho Hq Hc.
  destruct (import_data_line_store h strSessionName st)
    as [(-> & _) | (st1 & loc & Hs & _ & _ & _ & _ & ->)]; [exact Hc|].
  rewrite create_session_store; [now rewrite Hs|].
  intros ->.
  destruct (session_path_fresh_or_tagged h st1 loc Ho) as [E | E];
    congruence.
Qed.

Lemma create_session_is_Some h st loc (q : string) :
  is_Some (sessions st !! q) ->
  is_Some (sessions (final_state (create_session h st loc)) !! q).
Proof.
  intros Hq.
  destruct (create_session_cases h st loc)
    as [-> | [(c & ->) | [(c & why & ->) | (c0 & c & ->)]]];
    cbn [final_state Save sessions set_sessions add_created];
    [assumption| | |];
    rewrite !lookup_insert_is_Some';
    auto.
Qed.

Lemma import_data_line_is_Some h strSessionName st (q : string) :
  is_Some (sessions st !! q) ->
  is_Some (sessions (final_state (import_data_line h strSessionName st)) !! q).
Proof.
  intros Hq.
  destruct (import_data_line_store h strSessionName st)
    as [(-> & _) | (st1 & loc & Hs & _ & _ & _ & _ & ->)]; [exact Hq|].
  apply create_session_is_Some. now rewrite Hs.
Qed.

(** With [g_bOverwriteExistingSessions] false, a session that was in the
    store before the loop over the lines, at a path without the tag
    [(import_(], has the same options when the loop ends, whatever the
    file holds and however the loop ends. *)
Lemma loop_keeps_sessions (h : Host) (file : option (list string))
  (store : gmap string (gmap string OptVal)) (q : string)
  (c : gmap string OptVal) :
  g_bOverwriteExistingSessions h = false ->
  contains "(import_(" q = false ->
  store !! q = Some c ->
  sessions (final_state (Import h file store)) !! q = Some c.
Proof.
  intros Ho Hq Hc. unfold Import.
  destruct file as [lines|]; [|exact Hc].
  destruct (dialog_msgbox h =? 2)%Z; [exact Hc|].
  apply (import_lines_inv
           (fun st st' => sessions st !! q = Some c -> sessions st' !! q = Some c) h);
    auto.
  - intros strFields st.
    destruct (ValidateFieldDesignations_only_schema h strFields st)
      as (_ & _ & _ & _ & _ & _ & _ & ->). auto.
  - intros sn st. now apply import_data_line_kept.
Qed.

(** The loop over the lines takes no session out of the store. *)
Lemma loop_deletes_nothing (h : Host) (file : option (list string))
  (store : gmap string (gmap string OptVal)) (q : string) :
  is_Some (store !! q) ->
  is_Some (sessions (final_state (Import h file store)) !! q).
Proof.
  intros Hq. unfold Import.
  destruct file as [lines|]; [|exact Hq].
  destruct (dialog_msgbox h =? 2)%Z; [exact Hq|].
  apply (import_lines_inv
           (fun st st' => is_Some (sessions st !! q) -> is_Some (sessions st' !! q)) h);
    auto.
  - intros strFields st.
    destruct (ValidateFieldDesignations_only_schema h strFields st)
      as (_ & _ & _ & _ & _ & _ & _ & ->). auto.
  - intros sn st. now apply import_data_line_is_Some.
Qed.

(** ** The list of sessions created *)

Lemma created_text_cons (p : string) (paths : list string) :
  created_text (p :: paths) =
    match paths with
    | [] => "    " ++ p
    | _ :: _ => ("    " ++ p) ++ NL ++ created_text paths
    end.
Proof. destruct paths; reflexivity. Qed.

Lemma created_text_empty (paths : list string) :
  String.eqb (created_text paths) "" = match paths with [] => true | _ => false end.
Proof.
  destruct paths as [|p paths]; [reflexivity|].
  rewrite created_text_cons. destruct paths; reflexivity.
Qed.

Lemma created_text_snoc (paths : list string) (p : string) :
  created_text (paths ++ [p]) =
    (if negb (String.eqb (created_text paths) "")
     then created_text paths ++ NL else created_text paths) ++ "    " ++ p.
Proof.
  induction paths as [|x paths IH].
  - reflexivity.
  - cbn [app]. rewrite created_text_cons, IH, (created_text_empty (x :: paths)).
    cbn [negb]. rewrite created_text_empty.
    destruct paths as [|y paths]; cbn [app negb].
    + rewrite created_text_cons, append_nil_l, !append_assoc. reflexivity.
    + rewrite (created_text_cons x), !append_assoc. reflexivity.
Qed.

Lemma created_listed_frame st st' :
  g_nSessionsCreated st' = g_nSessionsCreated st ->
  g_strSessionsCreated st' = g_strSessionsCreated st ->
  sessions st' = sessions st ->
  created_listed st -> created_listed st'.
Proof. unfold created_listed. intros -> -> ->. auto. Qed.

Lemma create_session_created_listed h st loc :
  created_listed st -> created_listed (final_state (create_session h st loc)).
Proof.
  intros (paths & Hn & Ht & Hs).
  destruct (create_session_cases h st loc)
    as [-> | [(c & ->) | [(c & why & ->) | (c0 & c & ->)]]]; cbn [final_state].
  - exists paths; auto.
  - exists paths. split; [exact Hn|]. split; [exact Ht|].
    eapply Forall_impl; [exact Hs|]. intros p Hp.
    cbn [Save sessions set_sessions]. rewrite lookup_insert_is_Some'. auto.
  - exists paths. split; [exact Hn|]. split; [exact Ht|].
    eapply Forall_impl; [exact Hs|]. intros p Hp.
    cbn [Save sessions set_sessions]. rewrite lookup_insert_is_Some'. auto.
  - exists (paths ++ [session_path h st loc])%list.
    cbn [g_nSessionsCreated g_strSessionsCreated add_created Save sessions
         set_sessions].
    split; [rewrite length_app, Hn; cbn [length]; lia|].
    split; [rewrite created_text_snoc, Ht; reflexivity|].
    apply Forall_app. split.
    + eapply Forall_impl; [exact Hs|]. intros p Hp.
      rewrite !lookup_insert_is_Some'. auto.
    + constructor; [|constructor]. rewrite lookup_insert_eq. eauto.
Qed.

Lemma import_data_line_created_listed h strSessionName st :
  created_listed st ->
  created_listed (final_state (import_data_line h strSessionName st)).
Proof.
  intros H.
  destruct (import_data_line_store h strSessionName st)
    as [(Hs & Hc & Hn & _) | (st1 & loc & Hs & Hc & Hn & _ & _ & ->)].
  - eapply created_listed_frame; eauto.
  - apply create_session_created_listed.
    eapply created_listed_frame; eauto.
Qed.

(** X5.  However the run ends, [g_strSessionsCreated] has one line, four
    blanks and a path, for each session counted in [g_nSessionsCreated],
    and the store has a session at each of these paths. *)
Theorem import_lists_what_it_created (h : Host) (file : option (list string))
  (store : gmap string (gmap string OptVal)) :
  let st := final_state (Import h file store) in
  exists paths,
    g_nSessionsCreated st = length paths /\
    g_strSessionsCreated st = created_text paths /\
    Forall (fun strSessionPath => is_Some (sessions st !! strSessionPath)) paths.
Proof.
  cbv zeta. fold (created_listed (final_state (Import h file store))).
  assert (H0 : created_listed (initial store))
    by (exists []; repeat split; constructor).
  unfold Import.
  destruct file as [lines|]; [|exact H0].
  destruct (dialog_msgbox h =? 2)%Z; [exact H0|].
  apply (import_lines_inv (fun st st' => created_listed st -> created_listed st') h);
    auto.
  - intros strFields st.
    destruct (ValidateFieldDesignations_only_schema h strFields st)
      as (_ & _ & _ & _ & Hc & Hn & _ & Hs).
    apply created_listed_frame; assumption.
  - intros sn st. apply import_data_line_created_listed.
Qed.

(** ** The counters *)

Lemma import_data_line_counters h strSessionName st :
  let st' := final_state (import_data_line h strSessionName st) in
  g_nCurLineNumber st' = g_nCurLineNumber st /\
  g_nDataLines st' = g_nDataLines st /\
  g_nSessionsCreated st <= g_nSessionsCreated st' <= S (g_nSessionsCreated st).
Proof.
  cbv zeta.
  destruct (import_data_line_store h strSessionName st)
    as [(_ & _ & -> & -> & ->) | (st1 & loc & _ & _ & Hn & Hl & Hd & ->)];
    [repeat split; lia|].
  destruct (create_session_report h st1 loc) as (_ & _ & _ & -> & -> & _).
  split; [exact Hl|]. split; [exact Hd|]. rewrite <- Hn.
  destruct (create_session_cases h st1 loc)
    as [-> | [(c & ->) | [(c & why & ->) | (c0 & c & ->)]]];
    cbn [final_state g_nSessionsCreated add_created Save set_sessions]; lia.
Qed.

Lemma import_lines_counters h lines :
  forall bFoundHeader strSessionName st st',
  import_lines h bFoundHeader strSessionName lines st = Go st' tt ->
  g_nDataLines st' = g_nDataLines st + length lines /\
  g_nCurLineNumber st' = g_nCurLineNumber st + length lines /\
  g_nSessionsCreated st' <=
    g_nSessionsCreated st + (length lines - (if bFoundHeader then 0 else 1)).
Proof.
  induction lines as [|strLine lines IH]; intros b sn st st' H.
  - cbn [import_lines] in H. flow_inv. cbn [length]. lia.
  - cbn [import_lines] in H.
    set (st1 := set_line_number _ (set_line _ st)) in H.
    assert (R : forall st2,
              (if negb b then ValidateFieldDesignations h (g_strLine st1) st1
               else import_data_line h sn st1) = Go st2 tt ->
              g_nCurLineNumber st2 = S (g_nCurLineNumber st) /\
              g_nDataLines st2 = g_nDataLines st /\
              g_nSessionsCreated st2 <=
                g_nSessionsCreated st + (if b then 1 else 0)).
    { intros st2 E. destruct b; cbn [negb] in E.
      - pose proof (import_data_line_counters h sn st1) as C.
        rewrite E in C. cbn [final_state] in C. subst st1. simpl in C. lia.
      - pose proof (ValidateFieldDesignations_only_schema h (g_strLine st1) st1) as C.
        rewrite E in C. cbn [final_state] in C.
        destruct C as (_ & Cl & _ & _ & _ & Cn & Cd & _).
        subst st1. simpl in *. lia. }
    destruct (if negb b then _ else _) as [st2 []| |]; try discriminate.
    destruct (R st2 eq_refl) as (Rl & Rd & Rn).
    apply IH in H. cbn [g_nDataLines g_nCurLineNumber g_nSessionsCreated
                        set_data_lines length] in *.
    destruct H as (Hd & Hl & Hn). destruct b; lia.
Qed.

(** X4.  After a run that read the whole file, [g_nDataLines] and
    [g_nCurLineNumber] are the number of lines of the file, the header
    among them, and at most one session was counted for each line after
    the header. *)
Theorem import_counts_every_line (h : Host) (lines : list string)
  (store : gmap string (gmap string OptVal)) (st : Globals) :
  Import h (Some lines) store = Go st tt ->
  g_nDataLines st = length lines /\
  g_nCurLineNumber st = length lines /\
  g_nSessionsCreated st <= length lines - 1.
Proof.
  unfold Import. destruct (dialog_msgbox h =? 2)%Z; [discriminate|].
  intros H. apply import_lines_counters in H. simpl in H. lia.
Qed.

(** ** The list of lines not imported, for the whole file *)

Lemma copies_none (lines : list string) :
  copies lines (repeat 0 (length lines)) = [].
Proof. induction lines as [|x lines IH]; [reflexivity | exact IH]. Qed.

Lemma none_at_most (n : nat) : Forall (fun k => k <= 3) (repeat 0 n).
Proof. induction n; cbn [repeat]; constructor; [lia | assumption]. Qed.

Lemma import_lines_listing h lines :
  forall bFoundHeader strSessionName st,
  exists ks,
    length ks = length lines /\
    Forall (fun k => k <= 3) ks /\
    (bFoundHeader = false -> hd 0 ks = 0) /\
    g_strBogusLinesNotImported
      (final_state (import_lines h bFoundHeader strSessionName lines st))
    = g_strBogusLinesNotImported st ++
      listing (copies (map strip_crlf lines) ks).
Proof.
  induction lines as [|strLine lines IH]; intros b sn st.
  - exists []. cbn [import_lines final_state map copies listing length].
    rewrite append_nil_r. repeat split; auto.
  - cbn [import_lines].
    set (st1 := set_line_number _ (set_line _ st)).
    assert (R : exists k, k <= 3 /\ (b = false -> k = 0) /\
              g_strBogusLinesNotImported (final_state
                (if negb b then ValidateFieldDesignations h (g_strLine st1) st1
                 else import_data_line h sn st1))
              = g_strBogusLinesNotImported st ++
                listing (repeat (strip_crlf strLine) k)).
    { destruct b; cbn [negb].
      - destruct (import_data_line_listing h sn st1) as (k & Hk & E).
        exists k. split; [exact Hk|]. split; [discriminate|]. exact E.
      - exists 0. split; [lia|]. split; [reflexivity|].
        destruct (ValidateFieldDesignations_only_schema h (g_strLine st1) st1)
          as (_ & _ & _ & -> & _).
        cbn [repeat listing]. now rewrite append_nil_r. }
    destruct R as (k & Hk & Hb & E).
    destruct (if negb b then _ else _) as [st2 []| |]; cbn [final_state] in E.
    + destruct (IH true "" (set_data_lines (S (g_nDataLines st2)) st2))
        as (ks & Hl & Hf & _ & E2).
      exists (k :: ks). cbn [length map copies hd].
      split; [now rewrite Hl|]. split; [constructor; assumption|].
      split; [exact Hb|].
      rewrite E2. cbn [g_strBogusLinesNotImported set_data_lines].
      rewrite E, listing_app, append_assoc. reflexivity.
    + exists (k :: repeat 0 (length lines)). cbn [length map copies hd final_state].
      rewrite repeat_length. split; [reflexivity|].
      split; [constructor; [assumption | apply none_at_most]|].
      split; [exact Hb|].
      rewrite <- (length_map strip_crlf), copies_none, app_nil_r. exact E.
    + exists (k :: repeat 0 (length lines)). cbn [length map copies hd final_state].
      rewrite repeat_length. split; [reflexivity|].
      split; [constructor; [assumption | apply none_at_most]|].
      split; [exact Hb|].
      rewrite <- (length_map strip_crlf), copies_none, app_nil_r. exact E.
Qed.

(** X3.  However the run ends, the list of lines not imported is made of
    lines of the file, as they are written there without their line ends,
    in the order of the file, each at most three times and each behind a
    line break; the first line, the header, is never among them. *)
Theorem lines_not_imported_are_lines_of_the_file (h : Host)
  (lines : list string) (store : gmap string (gmap string OptVal)) :
  exists ks,
    length ks = length lines /\
    Forall (fun k => k <= 3) ks /\
    hd 0 ks = 0 /\
    g_strBogusLinesNotImported (final_state (Import h (Some lines) store))
    = listing (copies (map strip_crlf lines) ks).
Proof.
  unfold Import. destruct (dialog_msgbox h =? 2)%Z.
  - exists (repeat 0 (length lines)). rewrite repeat_length.
    split; [reflexivity|].
    split; [apply none_at_most|].
    split; [destruct lines; reflexivity|].
    rewrite <- (length_map strip_crlf), copies_none. reflexivity.
  - destruct (import_lines_listing h lines false ""
                (set_line_number 0 (initial store))) as (ks & Hl & Hf & H0 & E).
    exists ks. split; [exact Hl|]. split; [exact Hf|]. split; [auto|].
    rewrite E. reflexivity.
Qed.

(** X2.  A line with as many values as the header has fields goes on the
    list of lines not imported once for each of the three validators
    (session name, folder, protocol) that refuses it, so up to three times;
    the fields of the line put nothing on the list.  A line that a
    validator refuses is not saved. *)
Theorem line_listed_once_for_each_refusal (h : Host) (strSessionName : string)
  (st st1 : Globals) (loc1 : Locals) :
  g_strDelimiter st <> "" ->
  length (split (g_strDelimiter st) (g_strLine st)) = length (g_vFieldsArray st) ->
  normalize h strSessionName (split (g_strDelimiter st) (g_strLine st)) st
    = Go st1 loc1 ->
  g_strBogusLinesNotImported (final_state (import_data_line h strSessionName st))
  = g_strBogusLinesNotImported st ++
    listing (repeat (g_strLine st) (refusals h loc1)) /\
  (0 < refusals h loc1 -> bSaveSession loc1 = false).
Proof.
  intros Hd Hl N.
  rewrite (import_data_line_counted h strSessionName st Hd Hl), N.
  apply normalize_inv in N as (s0 & l0 & Hf & Hv).
  pose proof (import_fields_only_errors h (g_vFieldsArray st)
                (split (g_strDelimiter st) (g_strLine st)) st
                (line_locals strSessionName)) as F.
  rewrite Hf in F. cbn [final_state] in F.
  destruct F as [(_ & _ & _ & _ & _ & Fl & _) Fb].
  destruct (validate_record_report _ _ _ _ _ Hv) as [R Rb].
  split.
  - rewrite <- Fb, <- Fl, <- Rb.
    destruct (bSaveSession loc1); [|reflexivity].
    now destruct (create_session_report h st1 loc1) as (_ & -> & _).
  - intros Hr. destruct R as [(R0 & _) | (_ & Rs & _)]; [lia | exact Rs].
Qed.

(** ** Names that pass *)

Lemma search_class_none cls (s : string) :
  search_class cls s = None <-> (forall c, has_char c s = true -> cls c = false).
Proof.
  induction s as [|x s IH]; cbn [search_class has_char].
  - split; [discriminate | reflexivity].
  - destruct (cls x) eqn:E.
    + split; [discriminate|]. intros H.
      rewrite (H x) in E; [discriminate|]. now rewrite Ascii.eqb_refl.
    + rewrite IH. split.
      * intros H c Hc. apply orb_true_iff in Hc as [Hc | Hc]; [|auto].
        apply Ascii.eqb_eq in Hc. now subst.
      * intros H c Hc. apply H. rewrite Hc. apply orb_true_r.
Qed.

Lemma g_objReFolders_disallowed (c : ascii) :
  g_objReFolders c = true <-> In c disallowed.
Proof.
  unfold g_objReFolders, disallowed. rewrite existsb_exists. split.
  - intros (x & Hx & E). apply Ascii.eqb_eq in E. now subst.
  - intros H. exists c. split; [exact H | apply Ascii.eqb_refl].
Qed.

Lemma no_character_of (cls : ascii -> bool) (l : list ascii) (s : string) :
  (forall c, cls c = true <-> In c l) ->
  search_class cls s = None <-> (forall c, In c l -> has_char c s = false).
Proof.
  intros Hcls. rewrite search_class_none. split.
  - intros H c Hc. destruct (has_char c s) eqn:E; [|reflexivity].
    apply H in E. apply Hcls in Hc. congruence.
  - intros H c Hc. destruct (cls c) eqn:E; [|reflexivity].
    apply Hcls in E. apply H in E. congruence.
Qed.

Lemma g_objReSession_disallowed (c : ascii) :
  g_objReSession c = true <-> In c ("/"%char :: disallowed).
Proof.
  unfold g_objReSession. rewrite orb_true_iff, g_objReFolders_disallowed.
  cbn [In]. rewrite Ascii.eqb_eq. intuition congruence.
Qed.

Lemma take_drop (n : nat) (s : string) : take n s ++ drop n s = s.
Proof.
  revert s. induction n as [|n IH]; intros [|c s]; try reflexivity.
  cbn [take drop]. rewrite append_cons. now rewrite IH.
Qed.

Lemma digit_cases (d : ascii) :
  is_digit d = true ->
  In d ["0"; "1"; "2"; "3"; "4"; "5"; "6"; "7"; "8"; "9"]%char.
Proof.
  destruct d as [[] [] [] [] [] [] [] []]; try discriminate; intros _;
    cbn [In]; tauto.
Qed.

(** What the group of the two patterns matches is a reserved name, and the
    text is that name and the rest. *)
Lemma match_special_sound (s w rest : string) :
  match_special s = Some (w, rest) -> s = w ++ rest /\ reserved w.
Proof.
  unfold match_special, reserved.
  let l := eval vm_compute in (map lower reserved_names) in
  change (map lower reserved_names) with l.
  destruct (existsb _ ["con"; "prn"; "aux"; "nul"]) eqn:E3.
  - intros H.
    assert (Hw : w = take 3 s) by congruence.
    assert (Hrest : rest = drop 3 s) by congruence.
    subst w rest. clear H. split; [symmetry; apply take_drop|].
    apply existsb_exists in E3 as (x & Hx & E).
    apply String.eqb_eq in E. rewrite E.
    cbn [In] in Hx |- *. tauto.
  - destruct (existsb _ ["com"; "lpt"]) eqn:E4; [|discriminate].
    destruct (drop 3 s) as [|d r] eqn:D; [discriminate|].
    destruct (is_digit d) eqn:Hd; [|discriminate].
    intros [= <- <-].
    apply existsb_exists in E4 as (x & Hx & E).
    apply String.eqb_eq in E.
    destruct s as [|c1 [|c2 [|c3 [|d' r']]]]; try discriminate D.
    cbn [drop] in D. injection D as -> ->.
    cbn [take] in *. split; [reflexivity|].
    unfold lower in *. cbn [map_str] in *.
    assert (Hl : lower_char d = d).
    { apply digit_cases in Hd. cbn [In] in Hd.
      repeat destruct Hd as [<- | Hd]; try contradiction; reflexivity. }
    rewrite Hl. apply digit_cases in Hd.
    cbn [In] in Hx, Hd.
    destruct Hx as [<- | [<- | []]]; injection E as -> -> ->;
      repeat destruct Hd as [<- | Hd]; try contradiction;
      cbn [In]; tauto.
Qed.

Lemma g_objReSpecialsSession_sound (s w : string) :
  g_objReSpecialsSession s = Some w ->
  reserved w /\ (s = w \/ s = w ++ NL).
Proof.
  unfold g_objReSpecialsSession.
  destruct (match_special s) as [[w' rest]|] eqn:M; [|discriminate].
  apply match_special_sound in M as [-> Hr].
  destruct (String.eqb_spec rest "") as [-> | _]; cbn [orb].
  - intros [= <-]. rewrite append_nil_r. auto.
  - destruct (String.eqb_spec rest NL) as [-> | _]; [|discriminate].
    intros [= <-]. auto.
Qed.

Lemma g_objReSpecialsFolders_sound (s w : string) :
  g_objReSpecialsFolders s = Some w ->
  reserved w /\ exists a b, s = a ++ "/" ++ w ++ "/" ++ b.
Proof.
  induction s as [|c s IH]; [discriminate|].
  cbn [g_objReSpecialsFolders].
  assert (Later : g_objReSpecialsFolders s = Some w ->
            reserved w /\ exists a b, String c s = a ++ "/" ++ w ++ "/" ++ b).
  { intros H. destruct (IH H) as (Hr & a & b & ->).
    split; [exact Hr|]. exists (String c a), b. reflexivity. }
  destruct (Ascii.eqb_spec c "/") as [-> | _]; [|exact Later].
  destruct (match_special s) as [[w' [|c' r]]|] eqn:M; try exact Later.
  destruct (Ascii.eqb_spec c' "/") as [-> | _]; [|exact Later].
  intros [= <-]. apply match_special_sound in M as [-> Hr].
  split; [exact Hr|]. exists "", r. reflexivity.
Qed.

Lemma has_char_lower_slash (s : string) :
  has_char "/" (lower s) = has_char "/" s.
Proof.
  unfold lower. induction s as [|x s IH]; [reflexivity|].
  cbn [map_str has_char]. rewrite IH. f_equal.
  destruct x as [[] [] [] [] [] [] [] []]; reflexivity.
Qed.

Lemma reserved_no_slash (w : string) : reserved w -> has_char "/" w = false.
Proof.
  unfold reserved.
  let l := eval vm_compute in (map lower reserved_names) in
  change (map lower reserved_names) with l.
  intros H. rewrite <- has_char_lower_slash.
  cbn [In] in H.
  repeat destruct H as [<- | H]; try contradiction; reflexivity.
Qed.

Lemma reserved_not_empty (w : string) : reserved w -> w <> "".
Proof.
  intros H ->. revert H. unfold reserved.
  let l := eval vm_compute in (map lower reserved_names) in
  change (map lower reserved_names) with l.
  cbn [In lower map_str]. intuition discriminate.
Qed.

(** A name between two slashes of the padded path is a segment of the
    path. *)
Lemma pad_folder_segment (w path a b : string) :
  has_char "/" w = false -> w <> "" ->
  pad_folder path = a ++ "/" ++ w ++ "/" ++ b -> segment w path.
Proof.
  intros Hw Hne E. unfold segment.
  assert (Hpad : In w (split "/" (pad_folder path))).
  { rewrite E.
    change (a ++ "/" ++ w ++ "/" ++ b) with (a ++ String "/" (w ++ String "/" b)).
    rewrite !split_append, (split_whole "/" w Hw).
    apply in_or_app. right. left. reflexivity. }
  assert (Front : forall s, In w (split "/" ("/" ++ s)) -> In w (split "/" s)).
  { intros s. change ("/" ++ s) with (String "/" s).
    rewrite split_cons, Ascii.eqb_refl. intros [H | H]; [congruence | exact H]. }
  assert (Back : forall s, In w (split "/" (s ++ "/")) -> In w (split "/" s)).
  { intros s. rewrite split_append. intros H.
    apply in_app_or in H as [H | [H | []]]; [exact H | congruence]. }
  revert Hpad. unfold pad_folder.
  destruct (negb (String.eqb (take 1 path) "/"));
    match goal with
    | |- context [if ?b then _ else _] => destruct b
    end; auto.
Qed.

(** X9.  A folder path passes the validator exactly when it holds none of
    [| : * ? < >] and the double quote and, where the host has
    [sys.getwindowsversion], none of its pieces between slashes is a
    reserved name.  So a folder whose name only has a reserved name inside
    it, as [CONSOLE] has, passes. *)
Theorem folder_accepted_iff (h : Host) (strComponent : string) (st : Globals) :
  fst (ValidateSessionFolderComponent h strComponent "folder" st) = true <->
  (forall c, In c disallowed -> has_char c strComponent = false) /\
  (sys_getwindowsversion h = true ->
   forall name, segment name strComponent -> ~ reserved name).
Proof.
  rewrite ValidateSessionFolderComponent_fst. unfold name_ok.
  change (String.eqb (lower "folder") "folder") with true. cbv iota.
  rewrite <- (no_character_of g_objReFolders disallowed strComponent
                g_objReFolders_disallowed).
  destruct (search_class g_objReFolders strComponent);
    [split; [discriminate | intros [H _]; discriminate H]|].
  destruct (sys_getwindowsversion h);
    [|split; [intros _; split; [reflexivity | discriminate] | reflexivity]].
  destruct (g_objReSpecialsFolders (pad_folder strComponent)) as [w|] eqn:G.
  - split; [discriminate|]. intros [_ H]. exfalso.
    apply g_objReSpecialsFolders_sound in G as (Hr & a & b & E).
    apply (H eq_refl w); [|exact Hr].
    eapply pad_folder_segment; eauto using reserved_no_slash, reserved_not_empty.
  - split; [|reflexivity]. intros _. split; [reflexivity|].
    intros _ name Hs Hr.
    destruct (pad_folder_reserved name strComponent Hr Hs) as (a & b & E).
    apply (g_objReSpecialsFolders_found name a b Hr). now rewrite <- E.
Qed.

(** X10.  A session name passes the validator exactly when it holds none
    of [| : * ? < >], the double quote and the slash and, where the host
    has [sys.getwindowsversion], is neither a reserved name nor a reserved
    name with a newline behind it (the [$] of the pattern also matches
    before a newline that ends the text). *)
Theorem session_name_accepted_iff (h : Host) (strComponent : string)
  (st : Globals) :
  fst (ValidateSessionFolderComponent h strComponent "session" st) = true <->
  (forall c, In c ("/"%char :: disallowed) -> has_char c strComponent = false) /\
  (sys_getwindowsversion h = true ->
   forall name, reserved name ->
     strComponent <> name /\ strComponent <> name ++ NL).
Proof.
  rewrite ValidateSessionFolderComponent_fst. unfold name_ok.
  change (String.eqb (lower "session") "folder") with false. cbv iota.
  rewrite <- (no_character_of g_objReSession ("/"%char :: disallowed)
                strComponent g_objReSession_disallowed).
  destruct (search_class g_objReSession strComponent);
    [split; [discriminate | intros [H _]; discriminate H]|].
  destruct (sys_getwindowsversion h);
    [|split; [intros _; split; [reflexivity | discriminate] | reflexivity]].
  destruct (g_objReSpecialsSession strComponent) as [w|] eqn:G.
  - split; [discriminate|]. intros [_ H]. exfalso.
    apply g_objReSpecialsSession_sound in G as (Hr & E).
    destruct (H eq_refl w Hr) as [H1 H2]. destruct E; contradiction.
  - split; [|reflexivity]. intros _. split; [reflexivity|].
    intros _ name Hr. split; intros ->.
    + rewrite (g_objReSpecialsSession_reserved name Hr) in G. discriminate.
    + unfold g_objReSpecialsSession in G.
      rewrite (match_special_reserved name NL Hr) in G. discriminate.
Qed.

(** ** The description *)

Lemma replace_go_clean (old new t : string) (c : ascii) :
  has_char c old = true -> has_char c t = false ->
  replace_go old new t 0 = t.
Proof.
  intros Ho. induction t as [|x t IH]; intros Ht; [reflexivity|].
  cbn [replace_go].
  destruct (startswith old (String x t)) eqn:E.
  - rewrite (startswith_has_char c _ _ E Ho) in Ht. discriminate.
  - cbn [has_char] in Ht. apply orb_false_iff in Ht as [_ Ht]. now rewrite IH.
Qed.

Lemma replace_go_skip (old new t : string) (n : nat) :
  replace_go old new t n = replace_go old new (drop n t) 0.
Proof.
  revert n. induction t as [|x t IH]; intros [|n]; try reflexivity.
  cbn [replace_go drop]. apply IH.
Qed.

(** Replacing [old] in a text that has [old] once, between two texts
    without the first character of [old]. *)
Lemma replace_join (o : ascii) (old' new a b : string) :
  has_char o a = false -> has_char o b = false ->
  replace (String o old') new (a ++ String o old' ++ b) = a ++ new ++ b.
Proof.
  intros Ha Hb. unfold replace. induction a as [|x a IH].
  - rewrite !append_nil_l.
    change (String o old' ++ b) with (String o (old' ++ b)).
    cbn [replace_go].
    change (String o (old' ++ b)) with (String o old' ++ b).
    rewrite startswith_append.
    rewrite replace_go_skip. cbn [String.length Nat.sub].
    rewrite Nat.sub_0_r.
    assert (D : drop (String.length old') (old' ++ b) = b).
    { clear. induction old' as [|y old' IH]; [destruct b; reflexivity|].
      rewrite append_cons. cbn [String.length drop]. exact IH. }
    rewrite D, (replace_go_clean (String o old') new b o); [reflexivity| |exact Hb].
    cbn [has_char]. now rewrite Ascii.eqb_refl.
  - cbn [has_char] in Ha. apply orb_false_iff in Ha as [Hx Ha].
    rewrite !(append_cons x a). cbn [replace_go startswith].
    rewrite Hx. cbn [andb]. now rewrite IH.
Qed.

(** X12.  A description column whose value is not blank and holds neither
    a carriage return nor a backslash adds its value as one more line to
    the lines [create_session] writes as the description: splitting the
    joined text gives back the values of the columns. *)
Theorem description_column_adds_a_line (h : Host) (strField value : string)
  (st : Globals) (loc : Locals) :
  field_kind (lower (strip strField)) = FDescription ->
  strip value <> "" ->
  has_char CR (strip value) = false ->
  has_char "\" (strip value) = false ->
  has_char "\" (strDescription loc) = false ->
  exists loc',
    import_field h strField value st loc = Go st loc' /\
    description_lines loc' = (description_lines loc ++ [strip value])%list /\
    has_char "\" (strDescription loc') = false.
Proof.
  intros Hk Hne Hcr Hv Hd. unfold import_field. rewrite Hk.
  unfold description_lines.
  destruct (String.eqb_spec (strDescription loc) "") as [E | E].
  - eexists. split; [reflexivity|].
    cbn [strDescription set_description].
    destruct (String.eqb_spec (strip value) "") as [|_]; [contradiction|].
    split; [apply (split_whole CR _ Hcr) | exact Hv].
  - eexists. split; [reflexivity|].
    cbn [strDescription set_description].
    change "\r" with (String "\" "r").
    rewrite (replace_join "\" "r" (String CR "") _ _ Hd Hv).
    change (String CR "" ++ strip value) with (String CR (strip value)).
    split.
    + destruct (String.eqb_spec (strDescription loc ++ String CR (strip value)) "")
        as [E' | _].
      * destruct (strDescription loc); [contradiction | discriminate E'].
      * rewrite split_append, (split_whole CR _ Hcr). reflexivity.
    + rewrite has_char_append, Hd. cbn [has_char orb]. exact Hv.
Qed.

(** ** The path of a session *)

Lemma lstrip_by_head (p : ascii -> bool) (s : string) :
  match lstrip_by p s with
  | String c _ => p c = false
  | EmptyString => True
  end.
Proof.
  induction s as [|c s IH]; cbn [lstrip_by]; [exact I|].
  destruct (p c) eqn:E; [exact IH | exact E].
Qed.

(** X15.  The path a session is saved at never starts with a slash,
    whatever the folder and the session name of the line are, with or
    without the tag of an import. *)
Theorem session_path_has_no_leading_slash (h : Host) (st : Globals)
  (loc : Locals) :
  startswith "/" (session_path h st loc) = false.
Proof.
  assert (F : startswith "/" (folder_path loc) = false).
  { unfold folder_path, lstrip_slash.
    pose proof (lstrip_by_head (Ascii.eqb "/")
      (if negb (String.eqb (strip (strFolderOrig loc)) "")
       then strFolderOrig loc ++ "/" ++ strSessionName loc
       else strSessionName loc)) as H.
    destruct (lstrip_by _ _) as [|c r]; [reflexivity|].
    cbn [startswith]. now rewrite H. }
  unfold session_path. case_if; [|exact F].
  destruct (folder_path loc) as [|c r]; [reflexivity|].
  rewrite append_cons. cbn [startswith] in *. exact F.
Qed.

(** ** The options of a saved session *)

Lemma custom_options_other h (objConfig : gmap string OptVal) (k : string) :
  ~ In k custom_option_names ->
  custom_options h objConfig !! k = objConfig !! k.
Proof.
  unfold custom_option_names. cbn [In]. intros H.
  unfold custom_options, SetOption.
  repeat match goal with
         | |- context [match ?e with _ => _ end] => destruct e
         end;
    rewrite ?lookup_insert_ne by (intros <-; tauto); reflexivity.
Qed.

(** What [create_session] saves when it goes through: the options of the
    line over the Default session with the protocol, and the script's own
    settings over them when they were asked for. *)
Lemma create_session_saves h st loc st' :
  create_session h st loc = Go st' tt ->
  exists objDefault objConfig,
    sessions st !! "Default" = Some objDefault /\
    line_options h (default_username st loc)
      (SetOption "Protocol Name"
         (VStr (strProtocol loc)) objDefault) = Some (inr objConfig) /\
    sessions st' !! session_path h st loc =
      Some (if negb (g_bUseDefaultSessionOptions h)
               && negb (contains "rdp" (lower (strProtocol loc)))
            then custom_options h objConfig else objConfig).
Proof.
  unfold create_session, OpenSessionConfiguration.
  rewrite session_path_default_username.
  assert (P : strProtocol (default_username st loc) = strProtocol loc)
    by (unfold default_username; case_if; reflexivity).
  rewrite !P.
  set (p := session_path h st loc).
  destruct (sessions st !! "Default") as [objDefault|]; [|discriminate].
  unfold Save at 1. cbn [sessions set_sessions].
  rewrite lookup_insert_eq. cbv iota.
  unfold SetOption at 1. rewrite lookup_insert_eq.
  destruct (negb (is_text _ _)); [discriminate|].
  destruct (line_options _ _ _) as [[|objConfig]|] eqn:L; try discriminate.
  intros H. flow_inv. exists objDefault, objConfig.
  split; [reflexivity|]. split; [exact L|].
  cbn [sessions add_created Save set_sessions]. now rewrite lookup_insert_eq.
Qed.

Ltac closed_value t :=
  let v := eval vm_compute in t in change t with v in *.

Ltac options_cases H :=
  cbv beta zeta in H;
  repeat match type of H with
         | context [if ?b then _ else _] => destruct b; cbn [negb andb] in H
         end;
  try discriminate H;
  try (match type of H with
       | context [int ?m ?s] => destruct (int m s); [|discriminate H]
       end);
  injection H as <-;
  repeat (rewrite lookup_insert_eq || rewrite lookup_insert_ne by discriminate);
  try reflexivity.

(** The ways [H], an equation of [line_options] that has gone through, ends
    with a port: the number [int] read is in the configuration. *)
Ltac port_cases H :=
  cbv beta zeta in H;
  repeat match type of H with
         | context [if ?b then _ else _] => destruct b; cbn [negb andb] in H
         end;
  try discriminate H;
  match type of H with
  | context [int ?m ?s] =>
      let n := fresh "n" in
      let I := fresh "I" in
      destruct (int m s) as [n|] eqn:I; [|discriminate H];
      injection H as <-; exists n;
      (split;
       [ repeat (rewrite lookup_insert_eq
                 || rewrite lookup_insert_ne by discriminate);
         reflexivity
       | first [ reflexivity
               | vm_compute in I; injection I as <-; reflexivity ] ])
  end.

(** The port a session of each protocol gets from the options of the
    line. *)
Lemma line_options_port h loc (objConfig objConfig' : gmap string OptVal) :
  line_options h loc objConfig = Some (inr objConfig') ->
  let port (default : Z) (v : option OptVal) : Prop :=
    exists n, v = Some (VInt n) /\
      if String.eqb (strPort loc) "" then n = default
      else int (int_max_str_digits h) (strPort loc) = Some n in
  (strProtocol loc = "SSH2" -> port 22%Z (objConfig' !! "[SSH2] Port")) /\
  (strProtocol loc = "SSH1" -> port 22%Z (objConfig' !! "[SSH1] Port")) /\
  (strProtocol loc = "Telnet" -> port 23%Z (objConfig' !! "Port")) /\
  (strProtocol loc = "RDP" -> port 3389%Z (objConfig' !! "Port")) /\
  (strProtocol loc = "RLogin" ->
   forall k, In k ["Port"; "[SSH1] Port"; "[SSH2] Port"] ->
     objConfig' !! k = objConfig !! k).
Proof.
  unfold line_options, SetOption. intros H. cbv zeta.
  repeat split; intros Hp; rewrite Hp in H.
  - closed_value (contains "rdp" (lower "SSH2")).
    closed_value (String.eqb (lower "SSH2") "serial").
    closed_value (String.eqb (upper "SSH2") "SSH2").
    port_cases H.
  - closed_value (contains "rdp" (lower "SSH1")).
    closed_value (String.eqb (lower "SSH1") "serial").
    closed_value (String.eqb (upper "SSH1") "SSH2").
    closed_value (String.eqb (upper "SSH1") "SSH1").
    port_cases H.
  - closed_value (contains "rdp" (lower "Telnet")).
    closed_value (String.eqb (lower "Telnet") "serial").
    closed_value (String.eqb (upper "Telnet") "SSH2").
    closed_value (String.eqb (upper "Telnet") "SSH1").
    closed_value (String.eqb (upper "Telnet") "TELNET").
    port_cases H.
  - closed_value (contains "rdp" (lower "RDP")).
    closed_value (String.eqb (lower "RDP") "serial").
    closed_value (String.eqb (upper "RDP") "SSH2").
    closed_value (String.eqb (upper "RDP") "SSH1").
    closed_value (String.eqb (upper "RDP") "TELNET").
    port_cases H.
  - closed_value (contains "rdp" (lower "RLogin")).
    closed_value (String.eqb (lower "RLogin") "serial").
    closed_value (String.eqb (upper "RLogin") "SSH2").
    closed_value (String.eqb (upper "RLogin") "SSH1").
    closed_value (String.eqb (upper "RLogin") "TELNET").
    intros k Hk. cbn [In] in Hk.
    destruct Hk as [<- | [<- | [<- | []]]]; options_cases H.
Qed.

(** Names the value of the [let] that [H] starts with. *)
Ltac name_let H :=
  match type of H with
  | (let x := ?v in @?f x) = ?r =>
      let y := fresh x in
      pose (y := v); change (f y = r) in H; cbv beta in H
  end.

Lemma line_options_other h loc (objConfig objConfig' : gmap string OptVal)
  (k : string) :
  line_options h loc objConfig = Some (inr objConfig') ->
  ~ In k line_option_names ->
  objConfig' !! k = objConfig !! k.
Proof.
  intros H Hk. unfold line_option_names in Hk. cbn [In] in Hk.
  cbv beta delta [line_options SetOption] in H.
  name_let H. name_let H.
  destruct (negb (String.eqb (strLogonScript loc) "") && is_rdp);
    [discriminate H|].
  name_let H.
  destruct (negb (String.eqb (strEmulation loc) "") && is_rdp);
    [discriminate H|].
  name_let H. name_let H.
  cbv beta zeta in H.
  assert (E1 : objConfig0 !! k = objConfig !! k).
  { subst objConfig0. case_if; rewrite ?lookup_insert_ne by (intros <-; tauto);
      reflexivity. }
  assert (E2 : objConfig1 !! k = objConfig !! k).
  { subst objConfig1. case_if; rewrite ?lookup_insert_ne by (intros <-; tauto);
      exact E1. }
  assert (E3 : objConfig2 !! k = objConfig !! k).
  { subst objConfig2. case_if; rewrite ?lookup_insert_ne by (intros <-; tauto);
      exact E2. }
  assert (E4 : objConfig3 !! k = objConfig !! k).
  { subst objConfig3. repeat case_if;
      rewrite ?lookup_insert_ne by (intros <-; tauto); exact E3. }
  repeat match type of H with
         | context [if ?b then _ else _] => destruct b
         end;
    try (match type of H with
         | context [int ?m ?s] => destruct (int m s); [|discriminate H]
         end);
    injection H as <-;
    rewrite ?lookup_insert_ne by (intros <-; tauto); exact E4.
Qed.

Lemma default_username_fields st loc :
  strProtocol (default_username st loc) = strProtocol loc /\
  strPort (default_username st loc) = strPort loc /\
  strHostName (default_username st loc) = strHostName loc /\
  strDomain (default_username st loc) = strDomain loc /\
  strLogonScript (default_username st loc) = strLogonScript loc /\
  strEmulation (default_username st loc) = strEmulation loc /\
  strDescription (default_username st loc) = strDescription loc.
Proof. unfold default_username. case_if; repeat split; reflexivity. Qed.

(** X16.  The session that [create_session] saves has the protocol of the
    line, and its port option is that of the protocol: the SSH2 and the
    SSH1 port with 22 for a blank port column, [Port] with 23 for Telnet
    and with 3389 for RDP, and the number that [int] reads in the port
    column otherwise.  For RLogin no port is written: the three port
    options are those of the Default session, whatever the port column
    holds. *)
Theorem saved_session_port (h : Host) (st st' : Globals) (loc : Locals) :
  create_session h st loc = Go st' tt ->
  exists objDefault objSaved,
    sessions st !! "Default" = Some objDefault /\
    sessions st' !! session_path h st loc = Some objSaved /\
    objSaved !! "Protocol Name" = Some (VStr (strProtocol loc)) /\
    let port (default : Z) (v : option OptVal) : Prop :=
      exists n, v = Some (VInt n) /\
        if String.eqb (strPort loc) "" then n = default
        else int (int_max_str_digits h) (strPort loc) = Some n in
    (strProtocol loc = "SSH2" -> port 22%Z (objSaved !! "[SSH2] Port")) /\
    (strProtocol loc = "SSH1" -> port 22%Z (objSaved !! "[SSH1] Port")) /\
    (strProtocol loc = "Telnet" -> port 23%Z (objSaved !! "Port")) /\
    (strProtocol loc = "RDP" -> port 3389%Z (objSaved !! "Port")) /\
    (strProtocol loc = "RLogin" ->
     forall k, In k ["Port"; "[SSH1] Port"; "[SSH2] Port"] ->
       objSaved !! k = objDefault !! k).
Proof.
  intros H.
  destruct (create_session_saves _ _ _ _ H) as (d & c & Hd & Hl & Hs).
  destruct (default_username_fields st loc) as (Pp & Pn & _).
  pose proof (line_options_port _ _ _ _ Hl) as T. cbv zeta in T.
  rewrite Pp, Pn in T.
  pose proof (line_options_other _ _ _ _ "Protocol Name" Hl) as N.
  exists d. eexists. split; [exact Hd|]. split; [exact Hs|].
  assert (K : forall k, ~ In k custom_option_names ->
            (if negb (g_bUseDefaultSessionOptions h)
                && negb (contains "rdp" (lower (strProtocol loc)))
             then custom_options h c else c) !! k = c !! k).
  { intros k Hk. case_if; [now apply custom_options_other | reflexivity]. }
  assert (NotCustom : forall k,
            In k ["Protocol Name"; "Port"; "[SSH1] Port"; "[SSH2] Port"] ->
            ~ In k custom_option_names).
  { unfold custom_option_names. cbn [In].
    intros k Hk Hc.
    repeat destruct Hk as [<- | Hk]; try contradiction;
      repeat destruct Hc as [Hc | Hc]; try contradiction; discriminate Hc. }
  cbv zeta. destruct T as (T1 & T2 & T3 & T4 & T5).
  split; [|split; [|split; [|split; [|split]]]].
  - rewrite K by (apply NotCustom; cbn [In]; tauto).
    rewrite N; [apply lookup_insert_eq|].
    unfold line_option_names. cbn [In]. intros Hc.
    repeat destruct Hc as [Hc | Hc]; try contradiction; discriminate Hc.
  - intros Hp. rewrite K by (apply NotCustom; cbn [In]; tauto). auto.
  - intros Hp. rewrite K by (apply NotCustom; cbn [In]; tauto). auto.
  - intros Hp. rewrite K by (apply NotCustom; cbn [In]; tauto). auto.
  - intros Hp. rewrite K by (apply NotCustom; cbn [In]; tauto). auto.
  - intros Hp k Hk. rewrite K by (apply NotCustom; cbn [In] in *; tauto).
    rewrite (T5 Hp k Hk). unfold SetOption.
    cbn [In] in Hk. destruct Hk as [<- | [<- | [<- | []]]];
      now rewrite lookup_insert_ne.
Qed.

(** X18.  For a protocol that does not hold [rdp] the domain column has no
    say: [create_session] does the same whatever the domain is. *)
Theorem domain_only_for_rdp (h : Host) (st : Globals) (loc : Locals)
  (strDomain' : string) :
  contains "rdp" (lower (strProtocol loc)) = false ->
  create_session h st (set_domain strDomain' loc) = create_session h st loc.
Proof.
  intros Hr. unfold create_session.
  assert (D : default_username st (set_domain strDomain' loc)
              = set_domain strDomain' (default_username st loc))
    by (unfold default_username; cbn [strUserName set_domain]; case_if; reflexivity).
  rewrite D.
  assert (P : session_path h st (set_domain strDomain' (default_username st loc))
              = session_path h st (default_username st loc)) by reflexivity.
  rewrite P. cbn [strProtocol set_domain].
  assert (L : forall c,
            line_options h (set_domain strDomain' (default_username st loc)) c
            = line_options h (default_username st loc) c).
  { intros c. unfold line_options.
    cbn [strProtocol strDescription strLogonScript strEmulation strHostName
         strUserName strPort strDomain set_domain].
    destruct (default_username_fields st loc) as (-> & _).
    rewrite Hr. cbn [andb]. reflexivity. }
  destruct (OpenSessionConfiguration st "Default"); [|reflexivity].
  destruct (OpenSessionConfiguration _ _); [|reflexivity].
  destruct (_ !! "Protocol Name"); [|reflexivity].
  rewrite L. reflexivity.
Qed.

Lemma line_options_login h loc (objConfig objConfig' : gmap string OptVal) :
  line_options h loc objConfig = Some (inr objConfig') ->
  lower (strProtocol loc) <> "serial" ->
  (strHostName loc <> "" ->
   objConfig' !! "Hostname" = Some (VStr (strHostName loc))) /\
  (strUserName loc <> "" ->
   objConfig' !! "Username" =
     Some (VStr (if contains "rdp" (lower (strProtocol loc))
                    && negb (String.eqb (strDomain loc) "")
                 then strDomain loc ++ "\" ++ strUserName loc
                 else strUserName loc))).
Proof.
  intros H Hs.
  cbv beta delta [line_options SetOption] in H.
  name_let H. name_let H.
  destruct (negb (String.eqb (strLogonScript loc) "") && is_rdp);
    [discriminate H|].
  name_let H.
  destruct (negb (String.eqb (strEmulation loc) "") && is_rdp);
    [discriminate H|].
  name_let H. name_let H.
  cbv beta zeta in H.
  assert (P : forall k, k = "Hostname" \/ k = "Username" ->
            objConfig' !! k = objConfig3 !! k).
  { intros k Hk.
    repeat match type of H with
           | context [if ?b then _ else _] => destruct b
           end;
      try (match type of H with
           | context [int ?m ?s] => destruct (int m s); [|discriminate H]
           end);
      injection H as <-; destruct Hk as [-> | ->];
      rewrite ?lookup_insert_ne by discriminate; reflexivity. }
  clear H. subst objConfig3. cbv zeta in P.
  destruct (String.eqb_spec (lower (strProtocol loc)) "serial") as [|_];
    [contradiction|].
  cbn [negb] in P.
  split; intros Hn.
  - rewrite P by auto.
    destruct (String.eqb_spec (strHostName loc) "") as [|_]; [contradiction|].
    cbn [negb].
    repeat case_if;
      repeat (rewrite lookup_insert_eq
              || rewrite lookup_insert_ne by discriminate);
      reflexivity.
  - rewrite P by auto.
    destruct (String.eqb_spec (strUserName loc) "") as [|_]; [contradiction|].
    cbn [negb]. subst is_rdp.
    destruct (contains "rdp" (lower (strProtocol loc)) && _);
      now rewrite lookup_insert_eq.
Qed.

(** X17.  For a protocol other than serial the saved session has the host
    name of the line and, as user name, that of the line or, when it is
    blank, the default of the header; for RDP with a domain, the domain and
    a backslash stand in front of the user name. *)
Theorem saved_session_login (h : Host) (st st' : Globals) (loc : Locals) :
  create_session h st loc = Go st' tt ->
  lower (strProtocol loc) <> "serial" ->
  let strUserName :=
    if String.eqb (strip (strUserName loc)) ""
    then g_strDefaultUsername st else strUserName loc in
  exists objSaved,
    sessions st' !! session_path h st loc = Some objSaved /\
    (strHostName loc <> "" ->
     objSaved !! "Hostname" = Some (VStr (strHostName loc))) /\
    (strUserName <> "" ->
     objSaved !! "Username" =
       Some (VStr (if contains "rdp" (lower (strProtocol loc))
                      && negb (String.eqb (strDomain loc) "")
                   then strDomain loc ++ "\" ++ strUserName
                   else strUserName))).
Proof.
  intros H Hs. cbv zeta.
  destruct (create_session_saves _ _ _ _ H) as (d & c & Hd & Hl & Hsv).
  destruct (default_username_fields st loc) as (Pp & _ & Ph & Pd & _).
  assert (Pu : strUserName (default_username st loc) =
               if String.eqb (strip (strUserName loc)) ""
               then g_strDefaultUsername st else strUserName loc)
    by (unfold default_username; case_if; reflexivity).
  destruct (line_options_login _ _ _ _ Hl) as [L1 L2]; [now rewrite Pp|].
  rewrite Pp, ?Ph, ?Pd, ?Pu in *.
  eexists. split; [exact Hsv|].
  assert (K : forall k, In k ["Hostname"; "Username"] ->
            (if negb (g_bUseDefaultSessionOptions h)
                && negb (contains "rdp" (lower (strProtocol loc)))
             then custom_options h c else c) !! k = c !! k).
  { intros k Hk. case_if; [|reflexivity]. apply custom_options_other.
    unfold custom_option_names. cbn [In] in *. intros Hc.
    repeat destruct Hk as [<- | Hk]; try contradiction;
      repeat destruct Hc as [Hc | Hc]; try contradiction; discriminate Hc. }
  split; intros Hn; (rewrite K by (cbn [In]; tauto)); auto.
Qed.

(** X19.  An RDP line with a logon script or an emulation ends the run at
    the message of line 887 or 894, after the session was saved with its
    protocol only (line 869): the store has it at the path of the line,
    with the options of the Default session, yet it is neither counted nor
    listed, and nothing is added to the error text. *)
Theorem rdp_line_with_script_or_emulation (h : Host) (st : Globals)
  (loc : Locals) (objDefault : gmap string OptVal) :
  sessions st !! "Default" = Some objDefault ->
  contains "rdp" (lower (strProtocol loc)) = true ->
  strLogonScript loc <> "" \/ strEmulation loc <> "" ->
  exists st',
    create_session h st loc =
      Return st' (if String.eqb (strLogonScript loc) ""
                  then EmulationForRdp else LogonScriptForRdp) /\
    sessions st' !! session_path h st loc =
      Some (SetOption "Protocol Name" (VStr (strProtocol loc)) objDefault) /\
    g_nSessionsCreated st' = g_nSessionsCreated st /\
    g_strSessionsCreated st' = g_strSessionsCreated st /\
    g_strErrors st' = g_strErrors st /\
    g_strBogusLinesNotImported st' = g_strBogusLinesNotImported st.
Proof.
  intros Hd Hr Hne.
  unfold create_session, OpenSessionConfiguration.
  rewrite session_path_default_username.
  destruct (default_username_fields st loc) as (Pp & _ & _ & _ & Pl & Pe & _).
  rewrite !Pp, Hd.
  set (p := session_path h st loc).
  unfold Save at 1. cbn [sessions set_sessions].
  rewrite lookup_insert_eq. cbv iota.
  unfold SetOption at 1. rewrite lookup_insert_eq.
  unfold is_text. rewrite String.eqb_refl. cbn [negb].
  unfold line_options. rewrite Pp, Pl, Pe, Hr.
  destruct (String.eqb_spec (strLogonScript loc) "") as [El | El]; cbn [negb andb].
  - destruct (String.eqb_spec (strEmulation loc) "") as [Ee | Ee]; cbn [negb andb].
    + destruct Hne; contradiction.
    + eexists. split; [reflexivity|].
      cbn [Save sessions set_sessions g_nSessionsCreated g_strSessionsCreated
           g_strErrors g_strBogusLinesNotImported].
      rewrite lookup_insert_eq. repeat split; reflexivity.
  - eexists. split; [reflexivity|].
    cbn [Save sessions set_sessions g_nSessionsCreated g_strSessionsCreated
         g_strErrors g_strBogusLinesNotImported].
    rewrite lookup_insert_eq. repeat split; reflexivity.
Qed.

(** ** The number of fields of the header *)

Lemma count_char_append d (a b : string) :
  count_char d (a ++ b) = count_char d a + count_char d b.
Proof.
  induction a as [|c a IH]; [reflexivity|].
  rewrite append_cons. cbn [count_char]. rewrite IH. lia.
Qed.

Lemma count_char_none d (s : string) :
  has_char d s = false -> count_char d s = 0.
Proof.
  induction s as [|c s IH]; [reflexivity|]. cbn [has_char count_char].
  intros H. apply orb_false_iff in H as [-> H]. now rewrite IH.
Qed.

Lemma split_length d (s : string) :
  length (split (String d "") s) = S (count_char d s).
Proof.
  induction s as [|c s IH]; [reflexivity|].
  rewrite split_cons. cbn [count_char].
  destruct (Ascii.eqb d c); cbn [length]; [now rewrite IH|].
  destruct (split (String d "") s) as [|t ts]; cbn [length] in *; lia.
Qed.

Lemma startswith_take (old s : string) :
  startswith old s = true -> take (String.length old) s = old.
Proof.
  revert s. induction old as [|x old IH]; intros [|y s] H;
    cbn [startswith] in H; try discriminate; try reflexivity.
  apply andb_true_iff in H as [Hxy H]. apply Ascii.eqb_eq in Hxy. subst y.
  cbn [String.length take]. now rewrite IH.
Qed.

Lemma count_char_take_drop d (n : nat) (s : string) :
  count_char d s = count_char d (take n s) + count_char d (drop n s).
Proof.
  revert s. induction n as [|n IH]; intros [|c s]; try reflexivity.
  cbn [take drop count_char]. rewrite (IH s). lia.
Qed.

(** Replacing a text without [d] by a text without [d] leaves every [d]
    where it is. *)
Lemma replace_go_count d (old new : string) :
  old <> "" -> has_char d old = false -> has_char d new = false ->
  forall s skip,
  has_char d (take skip s) = false ->
  count_char d (replace_go old new s skip) = count_char d (drop skip s).
Proof.
  intros Hne Ho Hn. induction s as [|c s IH]; intros skip Hs.
  - destruct skip; reflexivity.
  - destruct skip as [|k]; cbn [replace_go drop].
    + destruct (startswith old (String c s)) eqn:E.
      * apply startswith_take in E.
        destruct old as [|x old']; [contradiction|].
        cbn [String.length take] in E. injection E as -> E.
        cbn [has_char] in Ho. apply orb_false_iff in Ho as [Hx Ho'].
        cbn [String.length Nat.sub]. rewrite Nat.sub_0_r.
        rewrite count_char_append, (count_char_none d new Hn).
        rewrite IH by (rewrite E; exact Ho').
        cbn [count_char]. rewrite Hx.
        rewrite (count_char_take_drop d (String.length old') s), E.
        rewrite (count_char_none d old' Ho'). lia.
      * cbn [count_char]. rewrite IH by (destruct s; reflexivity).
        destruct s; reflexivity.
    + cbn [take has_char] in Hs. apply orb_false_iff in Hs as [_ Hs].
      now apply IH.
Qed.

Lemma replace_count d (old new s : string) :
  old <> "" -> has_char d old = false -> has_char d new = false ->
  count_char d (replace old new s) = count_char d s.
Proof.
  intros Hne Ho Hn. unfold replace.
  rewrite (replace_go_count d old new Hne Ho Hn s 0); [|destruct s; reflexivity].
  destruct s; reflexivity.
Qed.

Lemma contains_not_empty (sub s : string) :
  sub <> "" -> contains sub s = true -> s <> "".
Proof.
  intros Hne H ->. destruct sub; [contradiction | discriminate H].
Qed.

Lemma lower_not_empty (s : string) : lower s <> "" -> s <> "".
Proof. intros H ->. apply H. reflexivity. Qed.

Lemma header_field_count d (st : Globals) (strFields strField : string) :
  has_char d "protocol" = false -> has_char d "folder" = false ->
  has_char d "username" = false ->
  has_char d strField = false ->
  count_char d (snd (header_field (st, strFields) strField))
  = count_char d strFields.
Proof.
  intros Hp Hf Hu Hd. unfold header_field.
  assert (R : forall name new s,
            name <> "" -> contains name (lower strField) = true ->
            has_char d new = false ->
            count_char d (replace strField new s) = count_char d s).
  { intros name new s Hname Hc Hnew. apply replace_count; auto.
    eapply lower_not_empty, contains_not_empty; eauto. }
  destruct (contains "protocol" (lower strField)) eqn:E1;
    destruct (contains "folder" (lower strField)) eqn:E2;
    destruct (contains "username" (lower strField)) eqn:E3;
    destruct (contains "=" (lower strField)); cbn [andb snd];
    rewrite ?(R "username" "username"), ?(R "folder" "folder"),
            ?(R "protocol" "protocol") by (assumption || discriminate);
    reflexivity.
Qed.

Lemma header_fields_count d (fields : list string) :
  has_char d "protocol" = false -> has_char d "folder" = false ->
  has_char d "username" = false ->
  forall st strFields,
  (forall f, In f fields -> has_char d f = false) ->
  count_char d (snd (fold_left header_field fields (st, strFields)))
  = count_char d strFields.
Proof.
  intros Hp Hf Hu. induction fields as [|f fields IH]; intros st s Hd;
    [reflexivity|].
  cbn [fold_left].
  pose proof (header_field_count d st s f Hp Hf Hu) as C.
  destruct (header_field (st, s) f) as [st1 s1]. cbn [snd] in C.
  rewrite IH by (intros; apply Hd; right; assumption).
  apply C, Hd. left; reflexivity.
Qed.

(** X21.  With a delimiter of one character that is in none of [protocol],
    [folder] and [username] (the comma is in none), the fields the header
    leaves for the lines are as many as the pieces of the header line:
    replacing [name=value] by [name] neither adds nor takes a delimiter. *)
Theorem header_keeps_the_number_of_fields (h : Host) (strFields : string)
  (st st' : Globals) (d : ascii) :
  ValidateFieldDesignations h strFields st = Go st' tt ->
  g_strDelimiter st' = String d "" ->
  has_char d "protocol" = false -> has_char d "folder" = false ->
  has_char d "username" = false ->
  length (g_vFieldsArray st') = length (split (String d "") strFields).
Proof.
  unfold ValidateFieldDesignations.
  set (prompted := if negb (contains (g_strDelimiter st) strFields) then _ else _).
  destruct prompted as [st0|]; [|discriminate].
  destruct (is_empty (g_strDelimiter st0)); [discriminate|].
  cbn [g_vFieldsArray set_fields].
  destruct (has_field "hostname" _); cbn [negb]; [|discriminate].
  set (inherited := if _ && _ then _ else _).
  assert (Hi : forall st1, inherited = Some st1 ->
            g_strDelimiter st1 = g_strDelimiter st0 /\
            g_vFieldsArray st1 = split (g_strDelimiter st0) strFields).
  { subst inherited. intros st1.
    destruct (_ && _).
    - unfold OpenSessionConfiguration.
      destruct (sessions _ !! "Default") as [c|]; [|discriminate].
      destruct (c !! "Protocol Name") as [[]|]; try discriminate.
      intros [= <-]. split; reflexivity.
    - intros [= <-]. split; reflexivity. }
  destruct inherited as [st1|]; [|discriminate].
  destruct (Hi st1 eq_refl) as [D1 F1].
  pose proof (header_fields_delimiter (g_vFieldsArray st1) (st1, strFields)) as D2.
  pose proof (header_fields_count d (g_vFieldsArray st1)) as K.
  destruct (fold_left header_field (g_vFieldsArray st1) (st1, strFields))
    as [st2 s2] eqn:Fold.
  cbn [fst snd] in D2.
  intros H Hd Hp Hf Hu. flow_inv.
  cbn [g_vFieldsArray g_strDelimiter set_fields] in *.
  rewrite D2, D1 in Hd. rewrite D2, D1, Hd, !split_length. f_equal.
  specialize (K Hp Hf Hu st1 strFields). rewrite Fold in K. cbn [snd] in K.
  apply K. intros f Hin. rewrite F1, Hd in Hin.
  eapply split_pieces_clean; eauto.
Qed.

(** ** A header without defaults *)

Lemma split_go_chars (sep : string) (c : ascii) (s : string) :
  has_char c s = false ->
  forall skip t ts, split_go sep s skip = (t, ts) ->
  has_char c t = false /\ (forall x, In x ts -> has_char c x = false).
Proof.
  induction s as [|y s IH]; intros Hs skip t ts H.
  - cbn [split_go] in H. flow_inv. split; [reflexivity | intros ? []].
  - cbn [has_char] in Hs. apply orb_false_iff in Hs as [Hy Hs].
    cbn [split_go] in H. destruct skip as [|k].
    + destruct (startswith sep (String y s)).
      * destruct (split_go sep s (String.length sep - 1)) as [t' ts'] eqn:E.
        flow_inv. destruct (IH Hs _ _ _ E) as [H1 H2].
        split; [reflexivity|]. intros x [<- | Hx]; auto.
      * destruct (split_go sep s 0) as [t' ts'] eqn:E.
        flow_inv. destruct (IH Hs _ _ _ E) as [H1 H2].
        split; [|exact H2]. cbn [has_char]. now rewrite Hy, H1.
    + eapply IH; eauto.
Qed.

Lemma split_chars (sep : string) (c : ascii) (s t : string) :
  has_char c s = false -> In t (split sep s) -> has_char c t = false.
Proof.
  intros Hs. unfold split.
  destruct (split_go sep s 0) as [t0 ts] eqn:E.
  destruct (split_go_chars sep c s Hs _ _ _ E) as [H1 H2].
  intros [<- | Hin]; auto.
Qed.

Lemma contains_has_char (c : ascii) (sub s : string) :
  has_char c sub = true -> contains sub s = true -> has_char c s = true.
Proof.
  intros Hc. induction s as [|y s IH]; cbn [contains].
  - rewrite orb_false_r. intros H. eapply startswith_has_char; eauto.
  - intros H. apply orb_true_iff in H as [H | H].
    + eapply startswith_has_char; eauto.
    + cbn [has_char]. rewrite IH by assumption. apply orb_true_r.
Qed.

Lemma header_fields_plain (fields : list string) :
  forall acc,
  (forall f, In f fields -> has_char "=" f = false) ->
  fold_left header_field fields acc = acc.
Proof.
  induction fields as [|f fields IH]; intros acc Hf; [reflexivity|].
  cbn [fold_left].
  assert (E : header_field acc f = acc).
  { destruct acc as [st s]. unfold header_field.
    rewrite contains_char, has_char_lower_eq, (Hf f) by (left; reflexivity).
    rewrite !andb_false_r. reflexivity. }
  rewrite E. apply IH. intros; apply Hf; right; assumption.
Qed.

(** X22.  A header line without an equals sign is taken as it is written:
    the field names are its pieces, the default folder and user name stay
    as they were, and the default protocol stays when there is a protocol
    column and is the protocol of the Default session when there is none. *)
Theorem header_without_defaults (h : Host) (strFields : string)
  (st st' : Globals) :
  has_char "=" strFields = false ->
  ValidateFieldDesignations h strFields st = Go st' tt ->
  delimiter_in_effect h st strFields = Some (g_strDelimiter st') /\
  g_vFieldsArray st' = split (g_strDelimiter st') strFields /\
  g_strDefaultFolder st' = g_strDefaultFolder st /\
  g_strDefaultUsername st' = g_strDefaultUsername st /\
  (has_field "protocol" (g_vFieldsArray st') = true ->
   g_strDefaultProtocol st' = g_strDefaultProtocol st) /\
  (has_field "protocol" (g_vFieldsArray st') = false ->
   exists objConfig,
     sessions st !! "Default" = Some objConfig /\
     objConfig !! "Protocol Name" = Some (VStr (g_strDefaultProtocol st'))).
Proof.
  intros He. unfold ValidateFieldDesignations, delimiter_in_effect.
  set (prompted := if negb (contains (g_strDelimiter st) strFields) then _ else _).
  assert (Hp : forall st0, prompted = Some st0 ->
            (if contains (g_strDelimiter st) strFields
             then Some (g_strDelimiter st)
             else if String.eqb (dialog_prompt h) "" then None
             else if String.eqb (dialog_prompt h) "NONE"
             then Some (g_strDelimiter st) else Some (dialog_prompt h))
            = Some (g_strDelimiter st0) /\
            g_strDefaultFolder st0 = g_strDefaultFolder st /\
            g_strDefaultUsername st0 = g_strDefaultUsername st /\
            g_strDefaultProtocol st0 = g_strDefaultProtocol st /\
            sessions st0 = sessions st).
  { subst prompted. intros st0.
    destruct (contains (g_strDelimiter st) strFields); cbn [negb].
    - intros [= <-]. repeat split; reflexivity.
    - destruct (String.eqb (dialog_prompt h) ""); [discriminate|].
      destruct (String.eqb (dialog_prompt h) "NONE"); cbn [negb];
        intros [= <-]; repeat split; reflexivity. }
  destruct prompted as [st0|]; [|discriminate].
  destruct (Hp st0 eq_refl) as (P0 & P1 & P2 & P3 & P4). clear Hp.
  destruct (is_empty (g_strDelimiter st0)); [discriminate|].
  set (st1 := set_fields (split (g_strDelimiter st0) strFields) st0).
  destruct (has_field "hostname" (g_vFieldsArray st1)); cbn [negb];
    [|discriminate].
  assert (Hc : contains "protocol=" (lower strFields) = false).
  { destruct (contains "protocol=" (lower strFields)) eqn:E; [|reflexivity].
    apply (contains_has_char "=") in E; [|reflexivity].
    rewrite has_char_lower_eq in E. congruence. }
  rewrite Hc. cbn [negb]. rewrite andb_true_r.
  assert (Pieces : forall f, In f (split (g_strDelimiter st0) strFields) ->
            has_char "=" f = false)
    by (intros f Hf; eapply split_chars; eauto).
  destruct (has_field "protocol" (g_vFieldsArray st1)) eqn:Hproto; cbn [negb].
  - rewrite header_fields_plain by exact Pieces.
    intros H. flow_inv. subst st1.
    cbn [g_vFieldsArray g_strDelimiter g_strDefaultFolder g_strDefaultUsername
         g_strDefaultProtocol set_fields] in *.
    rewrite Hproto.
    repeat (split; [assumption || reflexivity || (intros _; assumption)|]).
    discriminate.
  - unfold OpenSessionConfiguration.
    destruct (sessions st1 !! "Default") as [c|] eqn:Ed; [|discriminate].
    destruct (c !! "Protocol Name") as [[s| | |]|] eqn:Ep; try discriminate.
    rewrite header_fields_plain by exact Pieces.
    intros H. flow_inv. subst st1.
    cbn [g_vFieldsArray g_strDelimiter g_strDefaultFolder g_strDefaultUsername
         g_strDefaultProtocol set_fields set_default_protocol sessions] in *.
    rewrite Hproto.
    repeat (split; [assumption || reflexivity || discriminate|]).
    intros _. exists c. split; [|exact Ep].
    rewrite <- P4. exact Ed.
Qed.

(** ** The report and the log file *)

(** The state of the loop after all names: [bSuccess] holds only with
    [objFile] bound to [strFilename]. *)
Lemma open_results_spec (m : Desk) (cFilenames : list string) :
  forall objFile strFilename strResults,
  let '(objFile', bSuccess', strFilename', strResults') :=
    open_results m cFilenames objFile false strFilename strResults in
  (Forall (fun f => isfile m f = false) cFilenames /\ bSuccess' = false /\
   strResults' = strResults ++ failures m cFilenames) \/
  (exists pre f post,
     cFilenames = (pre ++ f :: post)%list /\
     Forall (fun g => isfile m g = false) pre /\
     isfile m f = true /\ strFilename' = f /\
     bSuccess' = open_w m f /\
     (open_w m f = true -> objFile' = Some f) /\
     strResults' = strResults ++ failures m (pre ++ [f])).
Proof.
  induction cFilenames as [|f rest IH]; intros objFile strFilename strResults.
  - cbn [open_results failures]. left.
    rewrite append_nil_r. repeat split. constructor.
  - cbn [open_results].
    set (r := if open_w m f then _ else _).
    assert (Hr : r = (if open_w m f then Some f else objFile,
                      open_w m f,
                      strResults ++
                      (if open_w m f then ""
                       else NL ++ "Failed to write summary results to: " ++ f))).
    { subst r. destruct (open_w m f); [now rewrite append_nil_r | reflexivity]. }
    rewrite Hr. clear Hr r.
    destruct (isfile m f) eqn:Hf; cbn [negb].
    + right. exists [], f, rest. cbn [app failures].
      rewrite append_nil_r.
      repeat split; try reflexivity; try constructor; try assumption.
      intros ->. reflexivity.
    + specialize (IH (if open_w m f then Some f else objFile) f
                     (strResults ++
                      (if open_w m f then ""
                       else NL ++ "Failed to write summary results to: " ++ f))).
      destruct (open_results m rest _ false f _) as [[[o b] n] t].
      destruct IH as [(Hall & Hb & Ht) | (pre & g & post & -> & Hpre & Hg & Hn & Hb & Ho & Ht)].
      * left. split; [constructor; assumption|]. split; [exact Hb|].
        rewrite Ht. cbn [failures]. now rewrite !append_assoc.
      * right. exists (f :: pre), g, post.
        split; [reflexivity|]. split; [constructor; assumption|].
        split; [exact Hg|]. split; [exact Hn|]. split; [exact Hb|].
        split; [exact Ho|].
        rewrite Ht. cbn [app failures]. now rewrite !append_assoc.
Qed.

(** X26.  The loop over the names of the log file (lines 1047-1058) stops
    at the first name that is a file after the attempt to open it.  The
    report is written to a file only when that name could be opened; this
    is then the file handed to [OpenPathInDefaultApp], and the text has a
    line for each name before it that could not be opened.  The report goes
    to the clipboard when no name is a file, and when the first that is
    one could not be opened: a log file that is there and cannot be written
    keeps the loop from the names after it.  [objFile.write] never meets an
    [objFile] that was not bound. *)
Theorem report_goes_to_the_first_file (m : Desk) (cFilenames : list string)
  (strFilename strResults : string) :
  match save_results m cFilenames strFilename strResults with
  | LogFile objFile text strFilename' =>
      strFilename' = objFile /\
      exists pre post,
        cFilenames = (pre ++ objFile :: post)%list /\
        Forall (fun g => isfile m g = false) pre /\
        isfile m objFile = true /\ open_w m objFile = true /\
        text = replace CRLF NL (strResults ++ failures m pre)
  | Clipboard text =>
      Forall (fun g => isfile m g = false) cFilenames \/
      exists pre f post,
        cFilenames = (pre ++ f :: post)%list /\
        Forall (fun g => isfile m g = false) pre /\
        isfile m f = true /\ open_w m f = false
  | NoLogFile => False
  end.
Proof.
  unfold save_results.
  pose proof (open_results_spec m cFilenames None strFilename strResults) as S.
  destruct (open_results m cFilenames None false strFilename strResults)
    as [[[o b] n] t].
  destruct S as [(Hall & -> & Ht) | (pre & f & post & -> & Hpre & Hf & -> & -> & Ho & Ht)].
  - cbn [negb]. left. exact Hall.
  - destruct (open_w m f) eqn:Hw; cbn [negb].
    + rewrite (Ho eq_refl). split; [reflexivity|].
      exists pre, post. repeat split; try assumption.
      rewrite Ht. f_equal. f_equal.
      clear -Hw. induction pre as [|x pre IH]; cbn [app failures].
      * rewrite Hw. reflexivity.
      * now rewrite IH.
    + right. exists pre, f, post. repeat split; assumption.
Qed.

Lemma set_sessions_same st : set_sessions (sessions st) st = st.
Proof. destruct st; reflexivity. Qed.

(** X27.  [GetConfigPath] leaves the globals and the store as it found
    them, when the Default session has the option [Upload Directory V2]
    with a value that SecureCRT reads as it is stored; it returns what
    SecureCRT makes of the moniker of its configuration folder. *)
Theorem GetConfigPath_restores (m : Desk) (st : Globals)
  (objConfig : gmap string OptVal) (v : OptVal) :
  sessions st !! "Default" = Some objConfig ->
  objConfig !! "Upload Directory V2" = Some v ->
  load_path m v = v ->
  GetConfigPath m st
  = Some (str_of (load_path m (VStr "${VDS_CONFIG_PATH}")), st).
Proof.
  intros Hd Hv Hl. unfold GetConfigPath, OpenSessionConfiguration.
  rewrite Hd. cbv zeta. rewrite Hv.
  unfold Save at 1. cbn [sessions set_sessions].
  rewrite lookup_insert_eq. unfold SetOption at 1. rewrite lookup_insert_eq.
  f_equal. f_equal.
  unfold Save, SetOption. cbn [sessions set_sessions]. rewrite Hl.
  rewrite !insert_insert_eq, (insert_id objConfig _ _ Hv),
          (insert_id (sessions st) _ _ Hd).
  destruct st; reflexivity.
Qed.

(** Replacing one character works on the two parts of a text apart. *)
Lemma replace_char_append (c : ascii) (new a b : string) :
  replace (String c "") new (a ++ b)
  = replace (String c "") new a ++ replace (String c "") new b.
Proof.
  unfold replace. induction a as [|x a IH]; [reflexivity|].
  rewrite append_cons. cbn [replace_go startswith String.length Nat.sub].
  rewrite IH. destruct (Ascii.eqb c x); cbn [andb];
    [now rewrite append_assoc | reflexivity].
Qed.

Lemma report_has_line_break (m : Desk) (strFieldDesignations : string)
  (st : Globals) :
  exists a b, report m strFieldDesignations st = a ++ CRLF ++ b.
Proof.
  unfold report. cbv zeta.
  destruct (negb (String.eqb (g_strBogusLinesNotImported st) "")).
  - match goal with
    | |- exists a b, ?x ++ ?y ++ CRLF ++ ?r = _ => exists (x ++ y), r
    end.
    now rewrite append_assoc.
  - destruct (String.eqb (g_strErrors st) "");
      match goal with
      | |- exists a b, ?x ++ CRLF ++ ?r = _ => exists x, r
      end; reflexivity.
Qed.

(** X28.  When the report goes to the clipboard on a machine whose
    documents folder holds a colon and a backslash, line 1062 puts a
    carriage return in front of every newline, also of those that have
    one: the text in the clipboard has two carriage returns before a
    newline. *)
Theorem clipboard_doubles_carriage_returns (m : Desk)
  (strFieldDesignations : string) (st st' : Globals) (text : string) :
  write_report m strFieldDesignations st = Some (Clipboard text, st') ->
  contains ":\" (g_strMyDocs m) = true ->
  contains (String CR CRLF) text = true.
Proof.
  unfold write_report. cbv zeta.
  destruct (GetConfigPath m st) as [[strConfigPath st1]|]; [|discriminate].
  unfold save_results.
  set (names := [_; _; _]).
  set (f0 := g_strMyDocs m ++ _).
  pose proof (open_results_spec m names None f0
                (report m strFieldDesignations st)) as S.
  destruct (open_results m names None false f0 _) as [[[o b] n] t].
  assert (Ht : exists tried,
            t = report m strFieldDesignations st ++ failures m tried).
  { destruct S as [(_ & _ & ->) | (pre & f & post & _ & _ & _ & _ & _ & _ & ->)];
      eauto. }
  destruct Ht as (tried & ->).
  destruct (negb b); [|destruct o; discriminate].
  intros [= <- _] ->.
  destruct (report_has_line_break m strFieldDesignations st) as (x & y & ->).
  rewrite !append_assoc.
  change NL with (String LF "").
  rewrite replace_char_append, (replace_char_append LF CRLF CRLF).
  change (replace (String LF "") CRLF CRLF) with (String CR CRLF).
  apply contains_append.
Qed.

Lemma startswith_append_l (sub s b : string) :
  startswith sub s = true -> startswith sub (s ++ b) = true.
Proof.
  revert s. induction sub as [|c sub IH]; intros [|y s] H;
    cbn [startswith] in H; try discriminate.
  - destruct ("" ++ b); reflexivity.
  - reflexivity.
  - rewrite append_cons. cbn [startswith].
    apply andb_true_iff in H as [-> H]. now rewrite IH.
Qed.

Lemma contains_append_l (sub a b : string) :
  contains sub a = true -> contains sub (a ++ b) = true.
Proof.
  induction a as [|x a IH].
  - destruct sub; [destruct b; reflexivity | discriminate].
  - rewrite append_cons. cbn [contains]. intros H.
    apply orb_true_iff in H as [H | H].
    + apply (startswith_append_l _ _ b) in H. rewrite append_cons in H.
      now rewrite H.
    + rewrite IH by assumption. apply orb_true_r.
Qed.

Lemma contains_append_r (sub a b : string) :
  contains sub b = true -> contains sub (a ++ b) = true.
Proof.
  intros H. induction a as [|x a IH]; [exact H|].
  rewrite append_cons. cbn [contains]. rewrite IH. apply orb_true_r.
Qed.

Lemma contains_refl (s : string) : contains s s = true.
Proof.
  rewrite <- (append_nil_r s) at 2. rewrite <- (append_nil_l (s ++ "")).
  apply contains_append.
Qed.

(** X29.  After a run that read the whole file and saved nothing, the
    report says that no sessions were created from as many lines of data
    as the file has lines: the header line is counted among them. *)
Theorem report_counts_the_header_as_data (h : Host) (m : Desk)
  (lines : list string) (store : gmap string (gmap string OptVal))
  (st : Globals) (strFieldDesignations : string) :
  Import h (Some lines) store = Go st tt ->
  g_nSessionsCreated st = 0 ->
  contains ("No sessions were created from " ++ fmt_d (length lines) ++
            " lines of data.")
    (report m strFieldDesignations st) = true.
Proof.
  intros H Hn.
  assert (Hd : g_nDataLines st = length lines).
  { unfold Import in H. destruct (dialog_msgbox h =? 2)%Z; [discriminate|].
    apply import_lines_counters in H. simpl in H. lia. }
  unfold report. cbv zeta. rewrite Hn, Hd.
  change (Nat.ltb 0 0) with false. cbv iota.
  generalize ("No sessions were created from " ++ fmt_d (length lines) ++
              " lines of data.") as s.
  intros s.
  assert (C : contains s
                (("Import operation completed in " ++ strTimeElapsed m ++
                  " seconds.") ++ CRLF ++ times "-" 70 ++ CRLF ++ s) = true).
  { do 4 apply contains_append_r. apply contains_refl. }
  revert C.
  generalize (("Import operation completed in " ++ strTimeElapsed m ++
               " seconds.") ++ CRLF ++ times "-" 70 ++ CRLF ++ s) as r.
  intros r C.
  assert (C' : contains s
                 (if String.eqb (g_strErrors st) "" then
                    "No errors/warnings encountered from the import operation." ++
                    CRLF ++ CRLF ++ r
                  else
                    "Errors/warnings from this operation include: " ++ CRLF ++
                    g_strErrors st ++ CRLF ++ times "-" 70 ++ CRLF ++ r ++
                    CRLF ++ CRLF) = true).
  { destruct (String.eqb (g_strErrors st) "").
    - do 3 apply contains_append_r. exact C.
    - do 6 apply contains_append_r. apply contains_append_l. exact C. }
  revert C'.
  generalize (if String.eqb (g_strErrors st) "" then
                "No errors/warnings encountered from the import operation." ++
                CRLF ++ CRLF ++ r
              else
                "Errors/warnings from this operation include: " ++ CRLF ++
                g_strErrors st ++ CRLF ++ times "-" 70 ++ CRLF ++ r ++
                CRLF ++ CRLF) as r'.
  intros r' C'.
  destruct (negb (String.eqb (g_strBogusLinesNotImported st) ""));
    [|exact C'].
  do 15 apply contains_append_r. exact C'.
Qed.

(** ** The sessions that were in the store, after the script *)

(** What [GetConfigPath] leaves in the store: the Default session, with
    its option [Upload Directory V2] as SecureCRT read it. *)
Lemma GetConfigPath_store (m : Desk) (st st' : Globals) (strConfigPath : string) :
  GetConfigPath m st = Some (strConfigPath, st') ->
  exists c v,
    sessions st !! "Default" = Some c /\
    c !! "Upload Directory V2" = Some v /\
    sessions st' =
      <["Default" := <["Upload Directory V2" := load_path m v]> c]> (sessions st).
Proof.
  unfold GetConfigPath, OpenSessionConfiguration.
  destruct (sessions st !! "Default") as [c|] eqn:Hd; [|discriminate].
  cbv zeta.
  destruct (c !! "Upload Directory V2") as [v|] eqn:Hv; [|discriminate].
  unfold Save at 1. cbn [sessions set_sessions].
  rewrite lookup_insert_eq. unfold SetOption at 1. rewrite lookup_insert_eq.
  intros [= _ <-]. exists c, v. split; [reflexivity|]. split; [exact Hv|].
  unfold Save, SetOption. cbn [sessions set_sessions].
  now rewrite !insert_insert_eq.
Qed.

(** The store after the script is the store after the loop, but for the
    Default session when the report was reached. *)
Lemma script_store (h : Host) (m : Desk) (file : option (list string))
  (store : gmap string (gmap string OptVal)) :
  let st := final_state (Import h file store) in
  let st' := final_state (script h m file store) in
  sessions st' = sessions st \/
  exists c v,
    sessions st !! "Default" = Some c /\
    c !! "Upload Directory V2" = Some v /\
    sessions st' =
      <["Default" := <["Upload Directory V2" := load_path m v]> c]> (sessions st).
Proof.
  cbv zeta. unfold script.
  destruct (Import h file store) as [st []| |]; cbn [final_state];
    [|left; reflexivity..].
  unfold write_report. cbv zeta.
  destruct (GetConfigPath m st) as [[strConfigPath st1]|] eqn:G;
    [|left; reflexivity].
  right. apply GetConfigPath_store in G.
  destruct (save_results _ _ _ _); exact G.
Qed.

(** X6.  With [g_bOverwriteExistingSessions] false, a session that was in
    the store before the script ran, at a path without the tag
    [(import_(], has the same options after it, whatever the file holds
    and however the script ends, the report included; but for the Default
    session, whose option [Upload Directory V2] is, once [GetConfigPath]
    has run, the value SecureCRT read it as. *)
Theorem import_keeps_sessions (h : Host) (m : Desk)
  (file : option (list string)) (store : gmap string (gmap string OptVal))
  (q : string) (c : gmap string OptVal) :
  g_bOverwriteExistingSessions h = false ->
  contains "(import_(" q = false ->
  store !! q = Some c ->
  let st' := final_state (script h m file store) in
  sessions st' !! q = Some c \/
  (q = "Default" /\
   exists v, c !! "Upload Directory V2" = Some v /\
     sessions st' !! q = Some (<["Upload Directory V2" := load_path m v]> c)).
Proof.
  intros Ho Hq Hc. cbv zeta.
  pose proof (loop_keeps_sessions h file store q c Ho Hq Hc) as L.
  destruct (script_store h m file store) as [-> | (d & v & Hd & Hv & ->)];
    [left; exact L|].
  destruct (String.eqb_spec q "Default") as [-> | Hn].
  - right. split; [reflexivity|]. rewrite lookup_insert_eq.
    assert (d = c) by congruence. subst d. eauto.
  - left. rewrite lookup_insert_ne by congruence. exact L.
Qed.

(** X7.  The script takes no session out of the store: a path that had a
    session before it ran has one after it, with overwriting on or off,
    however the script ends. *)
Theorem import_deletes_nothing (h : Host) (m : Desk)
  (file : option (list string)) (store : gmap string (gmap string OptVal))
  (q : string) :
  is_Some (store !! q) ->
  is_Some (sessions (final_state (script h m file store)) !! q).
Proof.
  intros Hq.
  pose proof (loop_deletes_nothing h file store q Hq) as L.
  destruct (script_store h m file store) as [-> | (d & v & Hd & Hv & ->)];
    [exact L|].
  rewrite lookup_insert_is_Some'. auto.
Qed.

(** The exception at work.  The Default session holds the moniker of the
    user's folder, which SecureCRT reads as a path: after the script it
    holds the path. *)
Example script_rewrites_upload_directory :
  let m := {| g_strMyDocs := "/home/me/Documents";
              g_strMyDesktop := "/home/me/Desktop";
              g_strDateTimeTag := "20210625_120000.000";
              strTimeElapsed := "0.004";
              load_path := fun v =>
                if is_text "${VDS_CONFIG_PATH}" v then VStr "/cfg"
                else if is_text "${VDS_USER_DATA_PATH}" v then VStr "/home/me"
                else v;
              open_w := fun _ => true;
              isfile := fun _ => true |} in
  let store : gmap string (gmap string OptVal) :=
    {[ "Default" := {[ "Protocol Name" := VStr "SSH2";
                       "Upload Directory V2" := VStr "${VDS_USER_DATA_PATH}" ]} ]} in
  let r := script (sample_host 9 true) m
             (file_of ["hostname,username"; "10.0.0.1,root"]) store in
  (exists text, r = Go (final_state r)
                      (LogFile "/home/me/Documents/__SecureCRT-Session-ImportLog-20210625_120000.000.txt"
                         text
                         "/home/me/Documents/__SecureCRT-Session-ImportLog-20210625_120000.000.txt")) /\
  sessions (final_state r) !! "Default"
  = Some {[ "Protocol Name" := VStr "SSH2";
            "Upload Directory V2" := VStr "/home/me" ]}.
Proof.
  cbv zeta. split.
  - eexists. vm_compute. reflexivity.
  - vm_compute. reflexivity.
Qed.

(** ** A header without a protocol column *)

Lemma import_field_protocol h strField value st loc st' loc' :
  field_kind (lower (strip strField)) <> FProtocol ->
  import_field h strField value st loc = Go st' loc' ->
  strProtocol loc' = strProtocol loc.
Proof.
  unfold import_field, import_emulation. intros Hk H.
  destruct (field_kind (lower (strip strField))); try contradiction;
    repeat case_if; flow_inv; try discriminate; reflexivity.
Qed.

(** X13.  When no field of the header takes the protocol branch, the
    protocol of every record that comes out of the loop over the fields
    and the validators is the empty text: the default protocol, which the
    header sets or takes from the Default session, is only looked at
    inside the protocol branch (line 719). *)
Theorem protocol_stays_empty_without_column (h : Host) (strSessionName : string)
  (values : list string) (st st' : Globals) (loc : Locals) :
  (forall strField, In strField (g_vFieldsArray st) ->
     field_kind (lower (strip strField)) <> FProtocol) ->
  normalize h strSessionName values st = Go st' loc ->
  strProtocol loc = "".
Proof.
  intros Hk N. apply normalize_inv in N as (s0 & l0 & Hf & Hv).
  apply validate_record_spec in Hv as (_ & _ & _ & _ & _ & -> & _).
  refine (import_fields_inv (fun l => strProtocol l = "") h
            (g_vFieldsArray st) values st (line_locals strSessionName) s0 l0
            _ eq_refl Hf).
  intros f v s1 l1 s2 l2 Hin E J. apply in_combine_l in Hin.
  rewrite (import_field_protocol _ _ _ _ _ _ _ (Hk f Hin) E). exact J.
Qed.

(** ** The emulation column *)

(** X11.  The emulation column: each of the eleven names, in any case of
    letters and with blanks around it, gives the spelling of lines 742-771
    ([vt320] from major version 8 on) and changes nothing else; any other
    value, the blank one among them, keeps the line from being saved. *)
Theorem emulation_column (h : Host) (strField value : string) :
  field_kind (lower (strip strField)) = FEmulation ->
  let token := strip (lower value) in
  (forall name st loc,
     In (token, name) emulations ->
     token <> "vt320" \/ (8 <= g_nMajorVersion h)%Z ->
     import_field h strField value st loc = Go st (set_emulation name loc)) /\
  (~ In token (map fst emulations) ->
   forall strSessionName values st st' loc',
     In (strField, value) (combine (g_vFieldsArray st) values) ->
     normalize h strSessionName values st = Go st' loc' ->
     bSaveSession loc' = false).
Proof.
  intros Hk. cbv zeta.
  assert (Hf : forall st loc,
    import_field h strField value st loc =
      let '(st, loc) := import_emulation h value st loc in Go st loc).
  { intros. unfold import_field. rewrite Hk. reflexivity. }
  split.
  - intros name st loc Hin Hv. rewrite Hf. unfold import_emulation.
    unfold emulations in Hin. cbn [In] in Hin.
    repeat destruct Hin as [Hin | Hin]; try contradiction;
      injection Hin as Et <-; rewrite <- Et in *;
      cbn [String.eqb Ascii.eqb Bool.eqb andb];
      try reflexivity.
    destruct Hv as [Hv | Hv]; [contradiction Hv; reflexivity|].
    apply Z.ltb_ge in Hv. rewrite Hv. reflexivity.
  - intros Hn sn values st st' loc' Hin N.
    eapply normalize_reject; eauto.
    intros s1 l1 s2 l2. rewrite Hf. unfold import_emulation.
    unfold emulations in Hn. cbn [map fst In] in Hn.
    repeat match goal with
           | |- context [String.eqb (strip (lower value)) ?s] =>
               destruct (String.eqb_spec (strip (lower value)) s) as [E|_];
               [exfalso; apply Hn; rewrite E; tauto|]
           end.
    intros E. flow_inv. reflexivity.
Qed.

(** ** The header is read once *)

Lemma same_schema_refl st : same_schema st st.
Proof. unfold same_schema; repeat split; reflexivity. Qed.

Lemma import_data_line_same_schema h strSessionName st :
  same_schema st (final_state (import_data_line h strSessionName st)).
Proof.
  unfold import_data_line.
  destruct (is_empty (g_strDelimiter st)); [apply same_schema_refl|].
  destruct (Nat.ltb _ _);
    [case_if; unfold same_schema; cbn; repeat split; reflexivity|].
  destruct (Nat.ltb _ _); [unfold same_schema; cbn; repeat split; reflexivity|].
  pose proof (import_fields_only_errors h (g_vFieldsArray st)
                (split (g_strDelimiter st) (g_strLine st)) st
                (line_locals strSessionName)) as F.
  unfold normalize.
  destruct (import_fields h (g_vFieldsArray st) _ st _) as [s0 l0| |];
    cbn [final_state] in F; destruct F as [F _];
    apply only_report_same_schema in F; try exact F.
  pose proof (validate_record_frame h s0 l0) as V.
  destruct (validate_record h s0 l0) as [st1 loc1]. cbn [fst] in V.
  apply only_report_same_schema in V.
  assert (S1 : same_schema st st1) by eauto using same_schema_trans.
  destruct (bSaveSession loc1); [|exact S1].
  destruct (create_session_report h st1 loc1) as (_ & _ & _ & _ & _ & S2).
  eauto using same_schema_trans.
Qed.

(** X8.  The lines after the header never change what the header set: the
    delimiter, the field names and the three defaults are the same after
    any number of lines, however the run ends. *)
Theorem data_lines_keep_the_header (h : Host) (lines : list string) :
  forall (strSessionName : string) (st : Globals),
  same_schema st (final_state (import_lines h true strSessionName lines st)).
Proof.
  induction lines as [|strLine lines IH]; intros sn st;
    [apply same_schema_refl|].
  rewrite import_lines_data. cbv zeta.
  set (st1 := set_line_number _ (set_line _ st)).
  assert (S1 : same_schema st st1)
    by (unfold same_schema; repeat split; reflexivity).
  pose proof (import_data_line_same_schema h sn st1) as S2.
  destruct (import_data_line h sn st1) as [st2 []| |]; cbn [final_state] in *;
    try (eauto using same_schema_trans; fail).
  eapply same_schema_trans; [exact S1|].
  eapply same_schema_trans; [exact S2|].
  eapply same_schema_trans; [|apply IH].
  unfold same_schema; repeat split; reflexivity.
Qed.

(** ** The defaults of the header *)

Lemma lower_append (a b : string) : lower (a ++ b) = lower a ++ lower b.
Proof.
  unfold lower. induction a as [|c a IH]; [reflexivity|].
  rewrite append_cons. cbn [map_str]. now rewrite IH.
Qed.

(** The value of a field written [name=value]. *)
Lemma value_of_field (name value : string) :
  has_char "=" name = false -> has_char "=" value = false ->
  nth 1 (split "=" (name ++ "=" ++ value)) "" = value.
Proof.
  intros Hn Hv.
  change (name ++ "=" ++ value) with (name ++ String "=" value).
  rewrite split_append, (split_whole "=" name Hn), (split_whole "=" value Hv).
  reflexivity.
Qed.

Lemma has_equals_sign (name value : string) :
  contains "=" (lower (name ++ "=" ++ value)) = true.
Proof.
  rewrite contains_char, has_char_lower_eq, has_char_append.
  change ("=" ++ value) with (String "=" value). cbn [has_char].
  rewrite Ascii.eqb_refl. apply orb_true_r.
Qed.

Lemma names_its_kind (kind name value : string) :
  contains kind (lower name) = true ->
  contains kind (lower (name ++ "=" ++ value)) = true.
Proof. intros H. rewrite lower_append. now apply contains_append_l. Qed.

(** One round of the loop over the header's fields, for each of the three
    defaults: a field that names the default and has an equals sign sets
    it, any other field leaves it. *)
Lemma header_field_defaults (acc : Globals * string) (strField : string) :
  let has kind :=
    contains kind (lower strField) && contains "=" (lower strField) in
  let st' := fst (header_field acc strField) in
  let value := nth 1 (split "=" strField) "" in
  g_strDefaultProtocol st' =
    (if has "protocol" then upper value else g_strDefaultProtocol (fst acc)) /\
  g_strDefaultFolder st' =
    (if has "folder" then value else g_strDefaultFolder (fst acc)) /\
  g_strDefaultUsername st' =
    (if has "username" then value else g_strDefaultUsername (fst acc)).
Proof.
  destruct acc as [st s]. cbv zeta. unfold header_field.
  destruct (contains "protocol" (lower strField) && _);
    destruct (contains "folder" (lower strField) && _);
    destruct (contains "username" (lower strField) && _);
    repeat split; reflexivity.
Qed.

Lemma header_fields_defaults_kept (kind : string)
  (get : Globals -> string) (fields : list string) :
  (forall acc f,
     contains kind (lower f) && contains "=" (lower f) = false ->
     get (fst (header_field acc f)) = get (fst acc)) ->
  forall acc,
  (forall f, In f fields ->
     contains kind (lower f) && contains "=" (lower f) = false) ->
  get (fst (fold_left header_field fields acc)) = get (fst acc).
Proof.
  intros Hstep. induction fields as [|f fields IH]; intros acc Hf;
    [reflexivity|].
  cbn [fold_left]. rewrite IH by (intros; apply Hf; right; assumption).
  apply Hstep, Hf. left; reflexivity.
Qed.

(** X23.  A field of the header written [name=value], with no other equals
    sign in it: when [name] holds [protocol], in any case of letters, the
    default protocol is [value] in upper case; when it holds [folder] the
    default folder is [value]; when it holds [username] the default user
    name is [value]; each provided that no later field sets the same
    default. *)
Theorem header_defaults (h : Host) (strFields : string) (st st' : Globals)
  (pre post : list string) (name value : string) :
  ValidateFieldDesignations h strFields st = Go st' tt ->
  split (g_strDelimiter st') strFields
    = (pre ++ (name ++ "=" ++ value)%string :: post)%list ->
  has_char "=" name = false -> has_char "=" value = false ->
  let last kind :=
    contains kind (lower name) = true /\
    forall f, In f post ->
      contains kind (lower f) && contains "=" (lower f) = false in
  (last "protocol" -> g_strDefaultProtocol st' = upper value) /\
  (last "folder" -> g_strDefaultFolder st' = value) /\
  (last "username" -> g_strDefaultUsername st' = value).
Proof.
  unfold ValidateFieldDesignations.
  set (prompted := if negb (contains (g_strDelimiter st) strFields) then _ else _).
  destruct prompted as [st0|]; [|discriminate].
  destruct (is_empty (g_strDelimiter st0)); [discriminate|].
  cbn [g_vFieldsArray set_fields].
  destruct (has_field "hostname" _); cbn [negb]; [|discriminate].
  set (inherited := if _ && _ then _ else _).
  assert (Hi : forall st1, inherited = Some st1 ->
            g_strDelimiter st1 = g_strDelimiter st0 /\
            g_vFieldsArray st1 = split (g_strDelimiter st0) strFields).
  { subst inherited. intros st1.
    destruct (_ && _).
    - unfold OpenSessionConfiguration.
      destruct (sessions _ !! "Default") as [c|]; [|discriminate].
      destruct (c !! "Protocol Name") as [[]|]; try discriminate.
      intros [= <-]. split; reflexivity.
    - intros [= <-]. split; reflexivity. }
  destruct inherited as [st1|]; [|discriminate].
  destruct (Hi st1 eq_refl) as [D1 F1].
  pose proof (header_fields_delimiter (g_vFieldsArray st1) (st1, strFields)) as D2.
  destruct (fold_left header_field (g_vFieldsArray st1) (st1, strFields))
    as [st2 s2] eqn:Fold.
  cbn [fst] in D2.
  intros H Hs Hn Hv. flow_inv.
  cbn [g_strDelimiter g_strDefaultProtocol g_strDefaultFolder
       g_strDefaultUsername set_fields] in *.
  rewrite D2, D1 in Hs. rewrite F1, Hs, fold_left_app in Fold.
  cbn [fold_left] in Fold.
  set (acc := fold_left header_field pre (st1, strFields)) in Fold.
  pose proof (header_field_defaults acc (name ++ "=" ++ value)) as S.
  cbv zeta in S. rewrite has_equals_sign, !andb_true_r, value_of_field in S
    by assumption.
  destruct S as (Sp & Sf & Su).
  assert (K : forall (kind : string) (get : Globals -> string),
            (forall a f,
               contains kind (lower f) && contains "=" (lower f) = false ->
               get (fst (header_field a f)) = get (fst a)) ->
            (forall f, In f post ->
               contains kind (lower f) && contains "=" (lower f) = false) ->
            get st2 = get (fst (header_field acc (name ++ "=" ++ value)))).
  { intros kind get Hstep Hpost.
    pose proof (header_fields_defaults_kept kind get post Hstep
                  (header_field acc (name ++ "=" ++ value)) Hpost) as E.
    rewrite Fold in E. exact E. }
  cbv zeta. split; [|split]; intros [Hk Hpost].
  - rewrite (K "protocol" g_strDefaultProtocol); [|
      intros a f E; destruct (header_field_defaults a f) as (-> & _);
      cbv zeta; now rewrite E | exact Hpost].
    rewrite Sp, names_its_kind by assumption. reflexivity.
  - rewrite (K "folder" g_strDefaultFolder); [|
      intros a f E; destruct (header_field_defaults a f) as (_ & -> & _);
      cbv zeta; now rewrite E | exact Hpost].
    rewrite Sf, names_its_kind by assumption. reflexivity.
  - rewrite (K "username" g_strDefaultUsername); [|
      intros a f E; destruct (header_field_defaults a f) as (_ & _ & ->);
      cbv zeta; now rewrite E | exact Hpost].
    rewrite Su, names_its_kind by assumption. reflexivity.
Qed.

(** ** The folder of the header *)

(** A property of the globals and the locals that every round of the loop
    over the fields keeps holds when the loop ends. *)
Lemma import_fields_inv2 (J : Globals -> Locals -> Prop) h fields values :
  forall st loc st' loc',
  (forall strField value st0 loc0 st1 loc1,
     In (strField, value) (combine fields values) ->
     import_field h strField value st0 loc0 = Go st1 loc1 ->
     J st0 loc0 -> J st1 loc1) ->
  J st loc ->
  import_fields h fields values st loc = Go st' loc' ->
  J st' loc'.
Proof.
  revert values.
  induction fields as [|f fields IH]; intros [|v values] st loc st' loc' Hstep HJ H;
    simpl in H; flow_inv; auto.
  destruct (import_field h f v st loc) as [st1 loc1| |] eqn:E; try discriminate.
  eapply (IH values st1 loc1); eauto.
  - intros; eapply Hstep; eauto. right; assumption.
  - eapply Hstep; eauto. left; reflexivity.
Qed.

Lemma import_field_folder h strField value st loc st' loc' :
  import_field h strField value st loc = Go st' loc' ->
  strFolderOrig loc' =
    match field_kind (lower (strip strField)) with
    | FFolder => if String.eqb (lower (strip value)) ""
                 then g_strDefaultFolder st else strip value
    | _ => strFolderOrig loc
    end.
Proof.
  unfold import_field, import_protocol, import_emulation. intros H.
  destruct (field_kind (lower (strip strField)));
    repeat case_if; flow_inv; try discriminate; reflexivity.
Qed.

(** X14.  When every folder column of a line is blank, or the header has no
    folder column, the folder of the record is the default folder of the
    header; with a default that is not blank the path of the session is
    the default folder, a slash and the session name, without leading
    slashes. *)
Theorem default_folder_applies (h : Host) (strSessionName0 : string)
  (values : list string) (st st' : Globals) (loc : Locals) :
  normalize h strSessionName0 values st = Go st' loc ->
  (forall strField value,
     In (strField, value) (combine (g_vFieldsArray st) values) ->
     field_kind (lower (strip strField)) = FFolder -> strip value = "") ->
  strFolderOrig loc = g_strDefaultFolder st /\
  (strip (g_strDefaultFolder st) <> "" ->
   folder_path loc
   = lstrip_slash (g_strDefaultFolder st ++ "/" ++ strSessionName loc)).
Proof.
  intros N Hblank. apply normalize_inv in N as (s0 & l0 & Hf & Hv).
  pose proof (import_fields_frame _ _ _ _ _ _ _ Hf) as (_ & _ & _ & Fd & _).
  assert (J : strFolderOrig l0 = "" \/ strFolderOrig l0 = g_strDefaultFolder st).
  { refine (proj2 (import_fields_inv2
              (fun s l => g_strDefaultFolder s = g_strDefaultFolder st /\
                          (strFolderOrig l = "" \/
                           strFolderOrig l = g_strDefaultFolder st))
              h (g_vFieldsArray st) values st (line_locals strSessionName0)
              s0 l0 _ (conj eq_refl (or_introl eq_refl)) Hf)).
    intros f v s1 l1 s2 l2 Hin E [Hd Hl].
    pose proof (import_field_frame _ _ _ _ _ _ _ E) as (_ & _ & _ & Fd' & _).
    split; [congruence|].
    rewrite (import_field_folder _ _ _ _ _ _ _ E).
    destruct (field_kind (lower (strip f))) eqn:K; try exact Hl.
    rewrite (Hblank f v Hin K). right. exact Hd. }
  apply validate_record_spec in Hv as (_ & _ & Ho & _).
  assert (E : strFolderOrig loc = g_strDefaultFolder st).
  { rewrite Ho, Fd. destruct J as [-> | ->]; [reflexivity|].
    destruct (String.eqb (g_strDefaultFolder st) ""); reflexivity. }
  split; [exact E|].
  intros Hne. unfold folder_path. rewrite E.
  destruct (String.eqb_spec (strip (g_strDefaultFolder st)) "");
    [contradiction | reflexivity].
Qed.

(** ** More sample lines, headers and machines *)

(** A line with a port that is no number: no session, a longer error
    text. *)
Lemma import_data_line_saved_or_explained_witness :
  let h := sample_host 9 true in
  let st := after_header ["hostname"; "port"] "10.0.0.1,x" in
  let st' := final_state (import_data_line h "" st) in
  g_nSessionsCreated st' = g_nSessionsCreated st /\
  sessions st' = sessions st /\
  String.length (g_strErrors st) < String.length (g_strErrors st').
Proof.
  cbv zeta.
  set (h := sample_host 9 true).
  set (st := after_header _ _).
  destruct (import_data_line_saved_or_explained h "" st
              (final_state (import_data_line h "" st))) as [[A _] | B].
  - vm_compute. reflexivity.
  - vm_compute in A. discriminate A.
  - exact B.
Defined.

(** A line that all three validators refuse, on a Windows host of version
    8: it is listed three times. *)
Lemma line_listed_once_for_each_refusal_witness :
  let h := sample_host 8 true in
  let st := after_header ["hostname"; "session_name"; "folder"; "protocol"]
              "10.0.0.1,CON,AUX,rdp" in
  g_strBogusLinesNotImported (final_state (import_data_line h "" st))
  = listing ["10.0.0.1,CON,AUX,rdp"; "10.0.0.1,CON,AUX,rdp";
             "10.0.0.1,CON,AUX,rdp"].
Proof.
  cbv zeta.
  set (h := sample_host 8 true).
  set (st := after_header _ _).
  set (r := normalize h "" (split (g_strDelimiter st) (g_strLine st)) st).
  destruct (line_listed_once_for_each_refusal h "" st (final_state r)
              (match r with Go _ loc => loc | _ => line_locals "" end))
    as [A _].
  - discriminate.
  - reflexivity.
  - vm_compute. reflexivity.
  - rewrite A. vm_compute. reflexivity.
Defined.

(** A file of three lines, the header among them. *)
Lemma import_counts_every_line_witness :
  let lines := ["hostname,username" ++ NL; "10.0.0.1,root" ++ NL;
                "10.0.0.2" ++ NL] in
  let st := final_state (Import (sample_host 9 true) (Some lines) sample_store) in
  g_nDataLines st = length lines /\
  g_nCurLineNumber st = length lines /\
  g_nSessionsCreated st <= length lines - 1.
Proof.
  cbv zeta.
  apply (import_counts_every_line (sample_host 9 true) _ sample_store).
  vm_compute. reflexivity.
Defined.

(** A file with a line for the path of a session the store has, on a
    machine where the report goes to a file: after the script that session
    and the Default session are as they were, and a session was saved at
    the path with the tag. *)
Lemma import_keeps_sessions_witness :
  let h := sample_host 9 true in
  let m := sample_desk true in
  let store :=
    <["10.0.0.1" := {[ "Hostname" := VStr "old" ]}]> sample_store_with_upload in
  let r := script h m (file_of ["hostname,username"; "10.0.0.1,root"]) store in
  sessions (final_state r) !! "10.0.0.1" = Some {[ "Hostname" := VStr "old" ]} /\
  sessions (final_state r) !! "Default" = sample_store_with_upload !! "Default" /\
  g_strSessionsCreated (final_state r)
  = "    10.0.0.1(import_(20210625_120000.000)".
Proof.
  cbv zeta.
  set (h := sample_host 9 true).
  set (m := sample_desk true).
  set (store := <["10.0.0.1" := _]> _).
  set (file := file_of _).
  split; [|split].
  - destruct (import_keeps_sessions h m file store "10.0.0.1"
                {[ "Hostname" := VStr "old" ]}) as [A | [B _]].
    + reflexivity.
    + vm_compute. reflexivity.
    + vm_compute. reflexivity.
    + exact A.
    + discriminate B.
  - destruct (import_keeps_sessions h m file store "Default"
                {[ "Protocol Name" := VStr "SSH2";
                   "Upload Directory V2" := VStr "/tmp" ]})
      as [A | (_ & v & Hv & B)].
    + reflexivity.
    + vm_compute. reflexivity.
    + vm_compute. reflexivity.
    + rewrite A. vm_compute. reflexivity.
    + rewrite B. vm_compute in Hv. injection Hv as <-. vm_compute. reflexivity.
  - vm_compute. reflexivity.
Defined.

(** A file with a line for a session the store has and a line for the
    Default session itself, with overwriting on: two sessions are saved,
    over those of the store, and both paths still have a session after
    the script. *)
Lemma import_deletes_nothing_witness :
  let h := {| g_nMajorVersion := 9; sys_getwindowsversion := true;
              sys_platform_win32 := true; int_max_str_digits := 4300;
              g_bOverwriteExistingSessions := true;
              dialog_prompt := ""; dialog_msgbox := 6;
              now_tag := fun _ => "20210625_120000.000" |} in
  let store :=
    <["10.0.0.1" := {[ "Hostname" := VStr "old" ]}]> sample_store_with_upload in
  let r := script h (sample_desk true)
             (file_of ["hostname,username"; "10.0.0.1,root"; "Default,admin"])
             store in
  g_nSessionsCreated (final_state r) = 2 /\
  is_Some (sessions (final_state r) !! "10.0.0.1") /\
  is_Some (sessions (final_state r) !! "Default").
Proof.
  cbv zeta.
  match goal with
  | |- context [script ?h0 _ _ _] => set (h := h0)
  end.
  set (m := sample_desk true).
  set (file := file_of _).
  set (store := <["10.0.0.1" := _]> _).
  split; [vm_compute; reflexivity|].
  split.
  - apply (import_deletes_nothing h m file store "10.0.0.1").
    exists {[ "Hostname" := VStr "old" ]}. vm_compute. reflexivity.
  - apply (import_deletes_nothing h m file store "Default").
    exists {[ "Protocol Name" := VStr "SSH2";
              "Upload Directory V2" := VStr "/tmp" ]}.
    vm_compute. reflexivity.
Defined.

(** A second description column. *)
Lemma description_column_adds_a_line_witness :
  let st := after_header ["hostname"; "description"; "description"]
              "10.0.0.1,first, second " in
  let loc := set_description "first" (line_locals "") in
  exists loc',
    import_field (sample_host 9 true) "description" " second " st loc
      = Go st loc' /\
    description_lines loc' = ["first"; "second"] /\
    has_char "\" (strDescription loc') = false.
Proof.
  cbv zeta.
  apply (description_column_adds_a_line (sample_host 9 true) "description"
           " second ");
    vm_compute; (reflexivity || discriminate).
Defined.

(** An SSH2 line with port 2222, and an RLogin line with a port that is
    dropped. *)
Lemma saved_session_port_witness :
  let h := sample_host 9 true in
  let st := after_header ["hostname"; "protocol"; "port"] "" in
  let ssh := set_port "2222" (set_protocol "SSH2"
               (set_hostname "10.0.0.1" (set_session_name "a" (line_locals "")))) in
  let rlogin := set_port "513" (set_protocol "RLogin"
               (set_hostname "10.0.0.2" (set_session_name "b" (line_locals "")))) in
  (exists objSaved,
     sessions (final_state (create_session h st ssh)) !! "a" = Some objSaved /\
     objSaved !! "[SSH2] Port" = Some (VInt 2222)) /\
  (exists objSaved,
     sessions (final_state (create_session h st rlogin)) !! "b" = Some objSaved /\
     objSaved !! "Port" = None).
Proof.
  cbv zeta.
  set (h := sample_host 9 true).
  set (st := after_header _ _).
  split.
  - set (loc := set_port "2222" _).
    destruct (saved_session_port h st (final_state (create_session h st loc)) loc)
      as (d & c & _ & Hs & _ & T & _); [vm_compute; reflexivity|].
    destruct (T eq_refl) as (n & Hn & Hi).
    vm_compute in Hi. injection Hi as <-.
    exists c. split; [exact Hs | exact Hn].
  - set (loc := set_port "513" _).
    destruct (saved_session_port h st (final_state (create_session h st loc)) loc)
      as (d & c & Hd & Hs & _ & _ & _ & _ & _ & T); [vm_compute; reflexivity|].
    exists c. split; [exact Hs|].
    rewrite (T eq_refl "Port") by (left; reflexivity).
    assert (E : sessions st !! "Default"
                = Some {[ "Protocol Name" := VStr "SSH2" ]})
      by (vm_compute; reflexivity).
    rewrite E in Hd. injection Hd as <-. reflexivity.
Defined.

(** An SSH2 line with a domain. *)
Lemma domain_only_for_rdp_witness :
  let h := sample_host 9 true in
  let st := after_header ["hostname"; "protocol"; "domain"] "" in
  let loc := set_protocol "SSH2"
               (set_hostname "10.0.0.1" (set_session_name "a" (line_locals ""))) in
  create_session h st (set_domain "CORP" loc) = create_session h st loc.
Proof.
  cbv zeta. apply domain_only_for_rdp. reflexivity.
Defined.

(** An RDP line with a domain and the user name of the header. *)
Lemma saved_session_login_witness :
  let h := sample_host 9 true in
  let st := set_default_username "admin"
              (after_header ["hostname"; "protocol"; "domain"; "username"] "") in
  let loc := set_domain "CORP" (set_protocol "RDP"
               (set_hostname "10.0.0.1" (set_session_name "a" (line_locals "")))) in
  exists objSaved,
    sessions (final_state (create_session h st loc)) !! "a" = Some objSaved /\
    objSaved !! "Hostname" = Some (VStr "10.0.0.1") /\
    objSaved !! "Username" = Some (VStr "CORP\admin").
Proof.
  cbv zeta.
  set (h := sample_host 9 true).
  set (st := set_default_username _ _).
  set (loc := set_domain _ _).
  destruct (saved_session_login h st (final_state (create_session h st loc)) loc)
    as (c & Hs & H1 & H2).
  - vm_compute. reflexivity.
  - vm_compute. discriminate.
  - exists c. split; [exact Hs|]. split.
    + apply H1. discriminate.
    + apply H2. discriminate.
Defined.

(** An RDP line with a logon script. *)
Lemma rdp_line_with_script_or_emulation_witness :
  let h := sample_host 9 true in
  let st := after_header ["hostname"; "protocol"; "logon_script"] "" in
  let loc := set_logon_script "login.py" (set_protocol "RDP"
               (set_hostname "10.0.0.1" (set_session_name "a" (line_locals "")))) in
  exists st',
    create_session h st loc = Return st' LogonScriptForRdp /\
    sessions st' !! "a" = Some {[ "Protocol Name" := VStr "RDP" ]} /\
    g_nSessionsCreated st' = 0 /\
    g_strSessionsCreated st' = "" /\
    g_strErrors st' = "" /\
    g_strBogusLinesNotImported st' = "".
Proof.
  cbv zeta.
  set (h := sample_host 9 true).
  set (st := after_header _ _).
  set (loc := set_logon_script _ _).
  destruct (rdp_line_with_script_or_emulation h st loc
              {[ "Protocol Name" := VStr "SSH2" ]})
    as (st' & A & B & C & D & E & F).
  - vm_compute. reflexivity.
  - reflexivity.
  - left. discriminate.
  - assert (P : session_path h st loc = "a") by (vm_compute; reflexivity).
    rewrite P in B.
    exists st'. split; [exact A|]. split.
    + rewrite B. vm_compute. reflexivity.
    + repeat split; assumption.
Defined.

(** A header of host names only: the protocol of the record is empty,
    whatever the Default session has. *)
Lemma protocol_stays_empty_without_column_witness :
  let st := after_header ["hostname"] "10.0.0.1" in
  let r := normalize (sample_host 9 true) "" ["10.0.0.1"] st in
  strProtocol (match r with Go _ loc => loc | _ => line_locals "x" end) = "" /\
  bSaveSession (match r with Go _ loc => loc | _ => line_locals "x" end) = true.
Proof.
  cbv zeta.
  set (st := after_header _ _).
  set (r := normalize _ _ _ _).
  split; [|vm_compute; reflexivity].
  apply (protocol_stays_empty_without_column (sample_host 9 true) ""
           ["10.0.0.1"] st (final_state r)).
  - intros f Hin. cbn in Hin. destruct Hin as [<- | []].
    vm_compute. discriminate.
  - vm_compute. reflexivity.
Defined.

(** An emulation column that is blank: the line is not saved. *)
Lemma emulation_column_witness :
  let h := sample_host 9 true in
  let st := after_header ["hostname"; "emulation"] "10.0.0.1," in
  let r := normalize h "" ["10.0.0.1"; ""] st in
  import_field h "emulation" " XTerm " st (line_locals "")
  = Go st (set_emulation "Xterm" (line_locals "")) /\
  bSaveSession (match r with Go _ loc => loc | _ => line_locals "" end) = false.
Proof.
  cbv zeta.
  set (h := sample_host 9 true).
  set (st := after_header _ _).
  set (r := normalize _ _ _ _).
  split.
  - destruct (emulation_column h "emulation" " XTerm " eq_refl) as [A _].
    apply A; [vm_compute; tauto | left; vm_compute; discriminate].
  - destruct (emulation_column h "emulation" "" eq_refl) as [_ B].
    apply (B ltac:(vm_compute; intuition discriminate) "" ["10.0.0.1"; ""] st
             (final_state r)).
    + vm_compute. tauto.
    + vm_compute. reflexivity.
Defined.

(** A header with two defaults. *)
Lemma header_keeps_the_number_of_fields_witness :
  let strFields := "hostname,protocol=SSH2,folder=Lab" in
  let st' := final_state (ValidateFieldDesignations (sample_host 9 true)
                            strFields (initial sample_store)) in
  length (g_vFieldsArray st') = length (split "," strFields) /\
  g_vFieldsArray st' = ["hostname"; "protocol"; "folder"].
Proof.
  cbv zeta. split; [|vm_compute; reflexivity].
  apply (header_keeps_the_number_of_fields (sample_host 9 true) _
           (initial sample_store) _ ","%char);
    vm_compute; reflexivity.
Defined.

(** A header of two names: the protocol is that of the Default session. *)
Lemma header_without_defaults_witness :
  let strFields := "hostname,username" in
  let st := initial sample_store in
  let st' := final_state (ValidateFieldDesignations (sample_host 9 true)
                            strFields st) in
  g_vFieldsArray st' = split (g_strDelimiter st') strFields /\
  g_strDefaultFolder st' = g_strDefaultFolder st /\
  g_strDefaultUsername st' = g_strDefaultUsername st /\
  g_strDefaultProtocol st' = "SSH2".
Proof.
  cbv zeta.
  destruct (header_without_defaults (sample_host 9 true) "hostname,username"
              (initial sample_store)
              (final_state (ValidateFieldDesignations (sample_host 9 true)
                              "hostname,username" (initial sample_store))))
    as (_ & A & B & C & _ & _).
  - reflexivity.
  - vm_compute. reflexivity.
  - split; [exact A|]. split; [exact B|]. split; [exact C|].
    vm_compute. reflexivity.
Defined.

(** A header with a default, split by the comma. *)
Lemma ValidateFieldDesignations_keeps_hostname_witness :
  let st' := final_state (ValidateFieldDesignations (sample_host 9 true)
                            "Hostname,protocol=SSH2" (initial sample_store)) in
  has_field "hostname" (g_vFieldsArray st') = true.
Proof.
  cbv zeta.
  apply (ValidateFieldDesignations_keeps_hostname (sample_host 9 true)
           "Hostname,protocol=SSH2" (initial sample_store));
    vm_compute; reflexivity.
Defined.

(** The Default session with an upload folder that holds no moniker. *)
Lemma GetConfigPath_restores_witness :
  let st := set_sessions sample_store_with_upload (initial sample_store) in
  GetConfigPath (sample_desk true) st = Some ("/cfg", st).
Proof.
  cbv zeta.
  apply (GetConfigPath_restores (sample_desk true) _
           {[ "Protocol Name" := VStr "SSH2";
              "Upload Directory V2" := VStr "/tmp" ]} (VStr "/tmp"));
    vm_compute; reflexivity.
Defined.

(** A run on Windows with no folder to write to. *)
Lemma clipboard_doubles_carriage_returns_witness :
  let st := set_sessions sample_store_with_upload (initial sample_store) in
  let r := write_report (sample_desk false) "hostname" st in
  contains (String CR CRLF)
    (match r with Some (Clipboard text, _) => text | _ => "" end) = true.
Proof.
  cbv zeta.
  set (st := set_sessions _ _).
  set (r := write_report _ _ _).
  apply (clipboard_doubles_carriage_returns (sample_desk false) "hostname" st
           (match r with Some (_, st') => st' | None => st end));
    vm_compute; reflexivity.
Defined.

(** A file of a header and one line with no host name. *)
Lemma report_counts_the_header_as_data_witness :
  let lines := ["hostname,username" ++ NL; ",root" ++ NL] in
  let st := final_state (Import (sample_host 9 true) (Some lines) sample_store) in
  contains ("No sessions were created from " ++ fmt_d (length lines) ++
            " lines of data.")
    (report (sample_desk true) "hostname,username" st) = true /\
  fmt_d (length lines) = "2".
Proof.
  cbv zeta. split; [|reflexivity].
  apply (report_counts_the_header_as_data (sample_host 9 true)
           (sample_desk true) _ sample_store);
    vm_compute; reflexivity.
Defined.

(** A header with a default protocol and a default folder. *)
Lemma header_defaults_witness :
  let st' := final_state (ValidateFieldDesignations (sample_host 9 true)
                            "hostname,Protocol=ssh2,folder=Lab/A"
                            (initial sample_store)) in
  g_strDefaultProtocol st' = "SSH2" /\ g_strDefaultFolder st' = "Lab/A".
Proof.
  cbv zeta.
  set (st' := final_state _).
  split.
  - apply (header_defaults (sample_host 9 true)
             "hostname,Protocol=ssh2,folder=Lab/A" (initial sample_store) st'
             ["hostname"] ["folder=Lab/A"] "Protocol" "ssh2");
      try (vm_compute; reflexivity).
    split; [reflexivity|].
    intros f [<- | []]. reflexivity.
  - apply (header_defaults (sample_host 9 true)
             "hostname,Protocol=ssh2,folder=Lab/A" (initial sample_store) st'
             ["hostname"; "Protocol=ssh2"] [] "folder" "Lab/A");
      try (vm_compute; reflexivity).
    split; [reflexivity|]. intros f [].
Defined.

(** A line with a blank folder under a header with a default folder. *)
Lemma default_folder_applies_witness :
  let st := set_default_folder "Lab"
              (after_header ["hostname"; "folder"] "10.0.0.1, ") in
  let r := normalize (sample_host 9 true) "" ["10.0.0.1"; " "] st in
  folder_path (match r with Go _ loc => loc | _ => line_locals "" end)
  = "Lab/10.0.0.1".
Proof.
  cbv zeta.
  set (st := set_default_folder _ _).
  set (r := normalize _ _ _ _).
  destruct (default_folder_applies (sample_host 9 true) "" ["10.0.0.1"; " "] st
              (final_state r)
              (match r with Go _ loc => loc | _ => line_locals "" end))
    as [_ A].
  - vm_compute. reflexivity.
  - intros f v Hin Hk. cbn in Hin.
    destruct Hin as [E | [E | []]]; injection E as <- <-;
      [vm_compute in Hk; discriminate Hk | reflexivity].
  - rewrite A by (vm_compute; discriminate). vm_compute. reflexivity.
Defined.

(** A line with three values under a header of two fields. *)
Lemma too_many_values_witness :
  let st := after_header ["hostname"; "username"] "10.0.0.2,root,extra" in
  exists st',
    import_data_line (sample_host 9 true) "" st = Go st' tt /\
    g_strBogusLinesNotImported st'
    = g_strBogusLinesNotImported st ++ CRLF ++ g_strLine st /\
    sessions st' = sessions st /\
    g_nSessionsCreated st' = g_nSessionsCreated st.
Proof.
  cbv zeta. apply too_many_values; [discriminate | vm_compute; lia].
Defined.

(** A line with one value under a header of two fields. *)
Lemma too_few_values_witness :
  let st := after_header ["hostname"; "username"] "10.0.0.1" in
  exists st',
    import_data_line (sample_host 9 true) "" st = Go st' tt /\
    g_strBogusLinesNotImported st' = "" /\
    contains "Insufficient data on line #0002: 10.0.0.1" (g_strErrors st') = true.
Proof.
  cbv zeta.
  destruct (too_few_values (sample_host 9 true) ""
              (after_header ["hostname"; "username"] "10.0.0.1"))
    as (st' & A & B & C & _).
  - discriminate.
  - vm_compute. lia.
  - exists st'. split; [exact A|]. split; [exact B|].
    rewrite C. vm_compute. reflexivity.
Defined.
